(** * cc-notifier: the Stop-event pipeline of [cc_notifier.py]

    A shallow embedding of the hook script: the JSONL transcript reader
    [extract_last_message_from_jsonl], the card builder
    [format_stop_message], the two delivery functions and [main].

    Python values that come out of [json.loads] keep their dynamic type
    ([pyval]); a [str] is the list of its code points, so that [len], slices
    and [in] count characters the way Python does.  Exceptions are explicit
    ([res]); [main] and the delivery functions run in a small monad that
    threads the trace of what the process does to the outside world. *)

From Stdlib Require Import List NArith ZArith Bool Lia String Ascii.
From Stdlib Require DecimalString.
Import ListNotations.

Set Implicit Arguments.
Set Warnings "-register-all".

(** ** Strings *)

Module Str.

(** A Python [str]: its sequence of Unicode code points. *)
Definition pystr := list N.

Definition bytes_of (s : string) : list N :=
  map (fun b => N_of_ascii b) (list_ascii_of_string s).

(** The source file is UTF-8; a literal denotes the decoded code points. *)
Fixpoint utf8_decode (bs : list N) : pystr :=
  match bs with
  | [] => []
  | b :: r =>
      if (b <? 128)%N then b :: utf8_decode r
      else if (b <? 224)%N then
        match r with
        | c :: r' => ((b - 192) * 64 + (c - 128))%N :: utf8_decode r'
        | _ => []
        end
      else if (b <? 240)%N then
        match r with
        | c :: d :: r' =>
            ((b - 224) * 4096 + (c - 128) * 64 + (d - 128))%N :: utf8_decode r'
        | _ => []
        end
      else
        match r with
        | c :: d :: e :: r' =>
            ((b - 240) * 262144 + (c - 128) * 4096 + (d - 128) * 64 + (e - 128))%N
              :: utf8_decode r'
        | _ => []
        end
  end.

Definition u (s : string) : pystr := utf8_decode (bytes_of s).

Definition nl : pystr := [10%N].

Fixpoint eqb (a b : pystr) : bool :=
  match a, b with
  | [], [] => true
  | x :: a', y :: b' => (x =? y)%N && eqb a' b'
  | _, _ => false
  end.

(** [s.startswith(p)] *)
Fixpoint startswith (p s : pystr) : bool :=
  match p, s with
  | [], _ => true
  | x :: p', y :: s' => (x =? y)%N && startswith p' s'
  | _ :: _, [] => false
  end.

(** [needle in hay] for two strings. *)
Fixpoint contains (needle hay : pystr) : bool :=
  startswith needle hay ||
  match hay with
  | [] => false
  | _ :: hay' => contains needle hay'
  end.

(** [str.lower()] on the Basic Latin block: [A]..[Z] go to [a]..[z]; the
    case mapping of other blocks is not modelled, those code points are kept. *)
Definition lower_cp (c : N) : N :=
  if ((65 <=? c) && (c <=? 90))%N then (c + 32)%N else c.

Definition lower (s : pystr) : pystr := map lower_cp s.

(** The code points [str.strip()] removes ([str.isspace]). *)
Definition isspace (c : N) : bool :=
  (((9 <=? c) && (c <=? 13)) || ((28 <=? c) && (c <=? 32))
   || (c =? 133) || (c =? 160) || (c =? 5760)
   || ((8192 <=? c) && (c <=? 8202))
   || (c =? 8232) || (c =? 8233) || (c =? 8239) || (c =? 8287)
   || (c =? 12288))%N.

Fixpoint lstrip_by (f : N -> bool) (s : pystr) : pystr :=
  match s with
  | [] => []
  | c :: s' => if f c then lstrip_by f s' else s
  end.

Definition rstrip_by (f : N -> bool) (s : pystr) : pystr :=
  rev (lstrip_by f (rev s)).

(** [s.strip()] *)
Definition strip (s : pystr) : pystr := rstrip_by isspace (lstrip_by isspace s).

Definition slash : N := 47%N.

(** [s.rstrip('/')] *)
Definition rstrip_slash (s : pystr) : pystr := rstrip_by (N.eqb slash) s.

(** [os.path.basename] as [posixpath] has it (Linux, macOS): what follows
    the last slash.  On Windows [os.path] is [ntpath], which also splits at
    backslashes and after a drive letter; that variant is not modelled. *)
Fixpoint basename_aux (s cur : pystr) : pystr :=
  match s with
  | [] => rev cur
  | c :: s' => if (c =? slash)%N then basename_aux s' [] else basename_aux s' (c :: cur)
  end.

Definition basename (s : pystr) : pystr := basename_aux s [].

(** [s[:n]] *)
Definition take (n : nat) (s : pystr) : pystr := firstn n s.

(** Decimal digits of an integer, as [str(n)] prints them. *)
Definition of_Z (z : Z) : pystr :=
  bytes_of (DecimalString.NilZero.string_of_int (Z.to_int z)).

End Str.

Import Str.

(** ** Values, exceptions *)

(** What [json.loads] can return.  A [dict] keeps its fields in insertion
    order; [lookup] reads the first entry of a key.  Numbers are integers. *)
Inductive pyval : Type :=
| JNull
| JBool (b : bool)
| JNum (n : Z)
| JStr (s : pystr)
| JArr (items : list pyval)
| JObj (fields : list (pystr * pyval)).

Definition dict := list (pystr * pyval).

(** The classes of [Exception] the script can meet. *)
Inductive exc_class :=
| AttributeError | TypeError | KeyError | JSONDecodeError | OSError
| RequestException | HTTPError | ValueError | RecursionError.

(** [SystemExit] is raised by [sys.exit]; it is a [BaseException] and no
    [except Exception] clause catches it. *)
Inductive pyexc :=
| Exception (cls : exc_class) (msg : pystr)
| SystemExit (code : Z).

Inductive res (A : Type) : Type :=
| Ok (a : A)
| Raise (e : pyexc).
Arguments Ok {A} a.
Arguments Raise {A} e.

Definition rbind {A B} (r : res A) (k : A -> res B) : res B :=
  match r with
  | Ok a => k a
  | Raise e => Raise e
  end.

Declare Scope res_scope.
Delimit Scope res_scope with res.
Notation "x <- c ;; k" := (rbind c (fun x => k))
  (at level 61, c at next level, right associativity) : res_scope.

(** [try: body  except cls: handler] for one exception class. *)
Definition class_eqb (a b : exc_class) : bool :=
  match a, b with
  | AttributeError, AttributeError | TypeError, TypeError | KeyError, KeyError
  | JSONDecodeError, JSONDecodeError | OSError, OSError
  | RequestException, RequestException | HTTPError, HTTPError
  | ValueError, ValueError | RecursionError, RecursionError => true
  | _, _ => false
  end.

Definition try_except {A} (cls : exc_class) (body : res A) (handler : pystr -> res A) : res A :=
  match body with
  | Raise (Exception c msg) => if class_eqb c cls then handler msg else body
  | _ => body
  end.

(** [try: body  except Exception as e: handler] *)
Definition try_except_Exception {A} (body : res A) (handler : exc_class -> pystr -> res A) : res A :=
  match body with
  | Raise (Exception c msg) => handler c msg
  | _ => body
  end.

Module Py.

(** [bool(v)] *)
Definition truthy (v : pyval) : bool :=
  match v with
  | JNull => false
  | JBool b => b
  | JNum n => negb (n =? 0)%Z
  | JStr s => match s with [] => false | _ => true end
  | JArr l => match l with [] => false | _ => true end
  | JObj f => match f with [] => false | _ => true end
  end.

Definition type_name (v : pyval) : pystr :=
  match v with
  | JNull => u "NoneType"
  | JBool _ => u "bool"
  | JNum _ => u "int"
  | JStr _ => u "str"
  | JArr _ => u "list"
  | JObj _ => u "dict"
  end.

Definition no_attribute {A} (v : pyval) (attr : string) : res A :=
  Raise (Exception AttributeError
           (u "'" ++ type_name v ++ u "' object has no attribute '" ++ u attr ++ u "'")).

Definition type_error {A} (msg : pystr) : res A := Raise (Exception TypeError msg).

Definition quoted (s : pystr) : pystr := u "'" ++ s ++ u "'".

Definition not_subscriptable {A} (v : pyval) : res A :=
  type_error (quoted (type_name v) ++ u " object is not subscriptable").

Fixpoint lookup (k : pystr) (d : dict) : option pyval :=
  match d with
  | [] => None
  | (k', v) :: d' => if Str.eqb k' k then Some v else lookup k d'
  end.

(** [k in d] and [d.get(k, default)] on a dict. *)
Definition has_key (k : pystr) (d : dict) : bool :=
  match lookup k d with Some _ => true | None => false end.

Definition dict_get (k : pystr) (d : dict) (default : pyval) : pyval :=
  match lookup k d with Some v => v | None => default end.

(** [v == s] for a string literal [s]. *)
Definition eq_str (v : pyval) (s : pystr) : bool :=
  match v with
  | JStr t => Str.eqb t s
  | _ => false
  end.

(** ['k' in v]: key test on a dict, membership on a list, substring test on
    a str, [TypeError] on anything else. *)
Definition in_ (k : string) (v : pyval) : res bool :=
  match v with
  | JObj d => Ok (has_key (u k) d)
  | JArr l => Ok (existsb (fun x => eq_str x (u k)) l)
  | JStr s => Ok (contains (u k) s)
  | _ => type_error (u "argument of type " ++ quoted (type_name v) ++ u " is not iterable")
  end.

(** [v.get('k', default)] *)
Definition get (v : pyval) (k : string) (default : pyval) : res pyval :=
  match v with
  | JObj d => Ok (dict_get (u k) d default)
  | _ => no_attribute v "get"
  end.

(** [v['k']]; the script subscripts only after ['k' in v] has held and
    [v.get] has returned, that is, a dict that has the key. *)
Definition item (v : pyval) (k : string) : res pyval :=
  match v with
  | JObj d =>
      match lookup (u k) d with
      | Some x => Ok x
      | None => Raise (Exception KeyError (quoted (u k)))
      end
  | _ => not_subscriptable v
  end.

(** [v[:n]]: a str or a list is cut, nothing else can be sliced. *)
Definition slice_to (n : nat) (v : pyval) : res pyval :=
  match v with
  | JStr s => Ok (JStr (Str.take n s))
  | JArr l => Ok (JArr (firstn n l))
  | JObj _ => type_error (u "unhashable type: 'slice'")
  | _ => not_subscriptable v
  end.

Definition join (sep : pystr) (parts : list pystr) : pystr :=
  match parts with
  | [] => []
  | p :: ps => p ++ flat_map (fun q => sep ++ q) ps
  end.

(** [repr(v)]; a string is quoted as it stands (escapes are not modelled). *)
Fixpoint repr (v : pyval) : pystr :=
  match v with
  | JNull => u "None"
  | JBool true => u "True"
  | JBool false => u "False"
  | JNum n => Str.of_Z n
  | JStr s => u "'" ++ s ++ u "'"
  | JArr l => u "[" ++ join (u ", ") (map repr l) ++ u "]"
  | JObj d =>
      u "{" ++ join (u ", ") (map (fun kv => u "'" ++ fst kv ++ u "': " ++ repr (snd kv)) d)
        ++ u "}"
  end.

(** [str(v)], what an f-string puts for [{v}]. *)
Definition str (v : pyval) : pystr :=
  match v with
  | JStr s => s
  | _ => repr v
  end.

End Py.

(** ** The world the process runs in *)

(** The failures of [json.loads] that are no [JSONDecodeError]: an integer
    of more digits than the interpreter converts, which raises a plain
    [ValueError], and nesting deeper than the interpreter follows, which
    raises [RecursionError]. *)
Inductive loads_failure :=
| DigitLimit
| NestingLimit.

(** One line of the transcript, as the reader sees it. *)
Inductive logline :=
| Blank                      (* [line.strip()] is empty *)
| Malformed (why : pystr)    (* [json.loads] raises [JSONDecodeError] *)
| Unparsed (failure : loads_failure) (why : pystr)
                             (* [json.loads] raises another exception *)
| Parsed (data : pyval).     (* [json.loads] returns [data] *)

(** What is behind a path once [os.path.expanduser] has been applied. *)
Inductive file :=
| Missing                                             (* [os.path.exists] is false *)
| Unopenable (why : pystr)                            (* [open] raises *)
| Opened (lines : list logline) (read_error : option pystr).
    (* the lines the iteration yields; then end of file, or a read error *)

Inductive stdin_read :=
| StdinJson (v : pyval)
| StdinBad (why : pystr).

(** The Bark server's answer to the GET. *)
Inductive push_response :=
| PushRaises (why : pystr)                      (* [requests.get] raises *)
| PushReplies (status : Z) (text : pystr) (json : option pyval).
    (* the status, the text, and what [response.json()] returns when the
       text is JSON *)

(** The Feishu server's answer to the POST. *)
Inductive hook_response :=
| HookRaises (why : pystr)                      (* [requests.post] raises *)
| HookReplies (status : Z).

(** Everything outside the process.  The files are the same at every read
    of one run, and each server answers the one request it can get. *)
Record world := {
  stdin : stdin_read;
  files : pystr -> file;
  WEBHOOK_URL : pyval;
  IOS_PUSH_URL : pyval;
  IOS_PUSH_ENABLED : pyval;
  clock : pystr;                 (* [datetime.now().strftime('%H:%M:%S')] *)
  push_net : push_response;
  hook_net : hook_response
}.

Notation "' pat <- c ;; k" := (rbind c (fun x => match x with pat => k end))
  (at level 61, pat pattern, c at next level, right associativity) : res_scope.

(** ** The transcript reader: [extract_last_message_from_jsonl] *)

Module Reader.
Import Py.
Local Open Scope res_scope.

Definition empty : pyval := JStr [].

Definition failure_class (failure : loads_failure) : exc_class :=
  match failure with
  | DigitLimit => ValueError
  | NestingLimit => RecursionError
  end.

Definition json_loads (ln : logline) : res pyval :=
  match ln with
  | Parsed data => Ok data
  | Malformed why => Raise (Exception JSONDecodeError why)
  | Unparsed failure why => Raise (Exception (failure_class failure) why)
  | Blank => Raise (Exception JSONDecodeError (u "Expecting value"))
  end.

(** The [if 'cwd' in data ... elif ...] chain. *)
Definition pick_cwd (data cwd : pyval) : res pyval :=
  has_cwd <- in_ "cwd" data ;;
  if has_cwd then get data "cwd" empty
  else
    has_workspace <- in_ "workspace" data ;;
    if has_workspace then get data "workspace" empty
    else
      has_wd <- in_ "workingDirectory" data ;;
      if has_wd then get data "workingDirectory" empty
      else
        message <- get data "message" JNull ;;
        match message with
        | JObj m => if has_key (u "cwd") m then Ok (dict_get (u "cwd") m empty) else Ok cwd
        | _ => Ok cwd
        end.

(** What one item of [message.content] contributes: its [text] when the item
    is a dict of type ["text"] whose text is truthy. *)
Definition text_of_item (content_item : pyval) : option pyval :=
  match content_item with
  | JObj f =>
      if eq_str (dict_get (u "type") f JNull) (u "text") then
        let text := dict_get (u "text") f empty in
        if truthy text then Some text else None
      else None
  | _ => None
  end.

(** [for content_item in message['content']: ...] *)
Fixpoint scan_content (items : list pyval) (last_message_text : pyval) : pyval :=
  match items with
  | [] => last_message_text
  | content_item :: rest =>
      scan_content rest
        (match text_of_item content_item with
         | Some text => text
         | None => last_message_text
         end)
  end.

(** The body of the inner [try], after [json.loads]. *)
Definition process_record (data : pyval) (acc : pyval * pyval) : res (pyval * pyval) :=
  let '(last_message_text, cwd) := acc in
  cwd <- pick_cwd data cwd ;;
  has_message <- in_ "message" data ;;
  if negb has_message then Ok (last_message_text, cwd)
  else
    message <- item data "message" ;;
    match message with
    | JObj m =>
        match lookup (u "content") m with
        | Some (JArr items) => Ok (scan_content items last_message_text, cwd)
        | _ => Ok (last_message_text, cwd)
        end
    | _ => Ok (last_message_text, cwd)
    end.

(** One turn of [for line in f]. *)
Definition process_line (ln : logline) (acc : pyval * pyval) : res (pyval * pyval) :=
  match ln with
  | Blank => Ok acc
  | _ =>
      try_except JSONDecodeError
        (data <- json_loads ln ;; process_record data acc)
        (fun _ => Ok acc)
  end.

Fixpoint scan_lines (lines : list logline) (acc : pyval * pyval) : res (pyval * pyval) :=
  match lines with
  | [] => Ok acc
  | ln :: rest => acc' <- process_line ln acc ;; scan_lines rest acc'
  end.

(** The body of the outer [try]. *)
Definition extract_body (w : world) (transcript_path : pyval) : res (pyval * pyval) :=
  match transcript_path with
  | JStr path =>
      match files w path with
      | Missing => Ok (empty, empty)
      | Unopenable why => Raise (Exception OSError why)
      | Opened lines read_error =>
          acc <- scan_lines lines (empty, empty) ;;
          match read_error with
          | Some why => Raise (Exception OSError why)
          | None => Ok acc
          end
      end
  | v => type_error (u "expected str, bytes or os.PathLike object, not " ++ type_name v)
  end.

Definition extract_last_message_from_jsonl (w : world) (transcript_path : pyval)
  : res (pyval * pyval) :=
  try_except_Exception (extract_body w transcript_path)
    (fun _ _ => Ok (empty, empty)).

End Reader.

(** ** The card builder: [format_stop_message] *)

Module Card.
Import Py Reader.
Local Open Scope res_scope.

Definition error_keywords : list pystr := [u "API Error:"].

(** The [is_error] flag. *)
Definition is_error_of (last_message : pyval) : res bool :=
  if truthy last_message then
    match last_message with
    | JStr s =>
        let lower_msg := lower s in
        Ok (existsb (fun kw => contains kw lower_msg) error_keywords)
    | v => no_attribute v "lower"
    end
  else Ok false.

Definition warning_text : pystr := u "**⚠️ 警告:** Stop hook 仍在激活状态".
Definition warning_line : pystr := warning_text ++ nl ++ nl.
Definition continuation_marker : pystr :=
  u "..." ++ nl ++ nl ++ u "*💡 完整内容请查看终端*".

(** The [if last_message: ... else: ...] block that shows the message or the
    fallback.  A truthy value that is no str cannot be measured or cannot be
    added to the content (and [lower] has raised on it before). *)
Definition message_part (session_id transcript_path last_message : pyval) : res pystr :=
  if truthy last_message then
    match last_message with
    | JStr s =>
        if (1000 <? List.length s)%nat then Ok (Str.take 1000 s ++ continuation_marker)
        else Ok s
    | JArr _ | JObj _ =>
        type_error (u "can only concatenate str (not " ++ [34%N] ++ type_name last_message
                      ++ [34%N] ++ u ") to str")
    | v => type_error (u "object of type " ++ quoted (type_name v) ++ u " has no len()")
    end
  else
    sid <- slice_to 8 session_id ;;
    Ok (u "Session " ++ str sid ++ u "... 已结束" ++ nl ++ nl ++
        (if truthy transcript_path
         then u "**📁 Debug - JSONL路径:**" ++ nl ++ u "`" ++ str transcript_path ++ u "`"
         else u "**⚠️ Debug:** 未提供 transcript_path")).

Definition project_label (project_name : pystr) : pystr :=
  u "<font size=2>📂 项目: " ++ project_name ++ u "</font>" ++ nl.

Definition path_label (cwd : pystr) : pystr :=
  u "<font size=2>📂 路径: " ++ cwd ++ u "</font>" ++ nl.

(** The [if cwd:] block: the label that goes in front of the content. *)
Definition label_of (cwd : pyval) : res pystr :=
  if truthy cwd then
    match cwd with
    | JStr c =>
        let project_name := basename (rstrip_slash c) in
        if truthy (JStr project_name) then Ok (project_label project_name)
        else Ok (path_label c)
    | v => no_attribute v "rstrip"
    end
  else Ok [].

Definition title_failed : pystr := u "❌ 任务异常".
Definition title_completed : pystr := u "✅ 任务完成".

Definition padding : pyval := JStr (u "12px 12px 12px 12px").

(** The returned dict. *)
Definition card (card_title card_template content : pystr) : pyval :=
  JObj
    [ (u "msg_type", JStr (u "interactive"));
      (u "card",
        JObj
          [ (u "schema", JStr (u "2.0"));
            (u "header",
              JObj
                [ (u "title",
                    JObj [ (u "tag", JStr (u "plain_text"));
                           (u "content", JStr card_title) ]);
                  (u "template", JStr card_template);
                  (u "padding", padding) ]);
            (u "body",
              JObj
                [ (u "direction", JStr (u "vertical"));
                  (u "padding", padding);
                  (u "elements",
                    JArr
                      [ JObj [ (u "tag", JStr (u "markdown"));
                               (u "content", JStr content);
                               (u "text_align", JStr (u "left"));
                               (u "text_size", JStr (u "normal"));
                               (u "margin", JStr (u "0px 0px 0px 0px")) ] ]) ]) ]) ].

(** The content before [strip], from the values the function has read. *)
Definition compose (session_id stop_hook_active transcript_path last_message cwd : pyval)
  : res pystr :=
  let content := if truthy stop_hook_active then warning_line else [] in
  part <- message_part session_id transcript_path last_message ;;
  let content := content ++ part in
  label <- label_of cwd ;;
  Ok (label ++ content).

Definition format_stop_message (w : world) (data : pyval) : res pyval :=
  session_id <- get data "session_id" (JStr (u "Unknown Session")) ;;
  stop_hook_active <- get data "stop_hook_active" (JBool false) ;;
  transcript_path <- get data "transcript_path" empty ;;
  '(last_message, cwd) <-
    (if truthy transcript_path
     then extract_last_message_from_jsonl w transcript_path
     else Ok (empty, empty)) ;;
  is_error <- is_error_of last_message ;;
  content <- compose session_id stop_hook_active transcript_path last_message cwd ;;
  let '(card_title, card_template) :=
    if is_error : bool then (title_failed, u "red") else (title_completed, u "green") in
  Ok (card card_title card_template (strip content)).

(** Reading a card back. *)
Definition path (keys : list string) (v : pyval) : option pyval :=
  fold_left
    (fun acc k =>
       match acc with
       | Some (JObj d) => lookup (u k) d
       | _ => None
       end)
    keys (Some v).

Definition title_of (p : pyval) : option pyval :=
  path ["card"; "header"; "title"; "content"]%string p.

Definition template_of (p : pyval) : option pyval :=
  path ["card"; "header"; "template"]%string p.

Definition body_of (p : pyval) : option pyval :=
  match path ["card"; "body"; "elements"]%string p with
  | Some (JArr (JObj e :: _)) => lookup (u "content") e
  | _ => None
  end.

End Card.

(** ** Effects: the trace of the process *)

(** Diagnostics on stderr are not part of the trace. *)

Inductive event :=
| PushCall (title : pystr) (message : pyval)
    (* [send_ios_push_notification(title, message)] is entered *)
| PushGet (base_url formatted_title formatted_message : pystr)
    (* [requests.get] is issued to the Bark server *)
| HookPost (url : pystr) (payload : pyval)
    (* [requests.post] is issued to the Feishu webhook *)
| Printed (obj : pyval).
    (* [print(json.dumps(obj))] on stdout *)

(** A computation returns a value or raises, and leaves the events it has
    produced; what it has done stays done when it raises. *)
Definition M (A : Type) : Type := (res A * list event)%type.

Module Eff.

Definition ret {A} (a : A) : M A := (Ok a, []).

Definition bind {A B} (m : M A) (k : A -> M B) : M B :=
  match m with
  | (Ok a, t) => let (r, t') := k a in (r, t ++ t')
  | (Raise e, t) => (Raise e, t)
  end.

Definition lift {A} (r : res A) : M A := (r, []).

Definition emit (e : event) : M unit := (Ok tt, [e]).

Definition raise {A} (e : pyexc) : M A := (Raise e, []).

(** [sys.exit(code)] *)
Definition sys_exit {A} (code : Z) : M A := raise (SystemExit code).

(** [try: body  except Exception as e: handler] *)
Definition try_Exception {A} (body : M A) (handler : exc_class -> pystr -> M A) : M A :=
  match body with
  | (Raise (Exception c msg), t) => let (r, t') := handler c msg in (r, t ++ t')
  | r => r
  end.

End Eff.

Declare Scope eff_scope.
Delimit Scope eff_scope with eff.
Notation "x <- c ;; k" := (Eff.bind c (fun x => k))
  (at level 61, c at next level, right associativity) : eff_scope.
Notation "' pat <- c ;; k" := (Eff.bind c (fun x => match x with pat => k end))
  (at level 61, pat pattern, c at next level, right associativity) : eff_scope.
Notation "c ;;; k" := (Eff.bind c (fun _ => k))
  (at level 61, right associativity) : eff_scope.

(** ** Delivery and [main] *)

Module Notifier.
Import Py Reader Card Eff.
Local Open Scope eff_scope.

(** The characters [re.sub] deletes from the title. *)
Definition title_emoji : pystr := u "🚨⏸️❌✅🤖🔧📢🛑🚀📝⚠️ℹ️".

Definition clean (title : pystr) : pystr :=
  strip (filter (fun c => negb (existsb (N.eqb c) title_emoji)) title).

(** The body of the [try] of [send_ios_push_notification]. *)
Definition push_body (w : world) (title : pystr) (message : pyval) : M unit :=
  let formatted_title := u "🤖 " ++ clean title in
  let formatted_message := str message ++ nl ++ nl ++ clock w in
  base_url <- lift
    (match IOS_PUSH_URL w with
     | JStr url =>
         if startswith (u "http") url then Ok (rstrip_slash url)
         else Ok (u "https://api.day.app/" ++ url)
     | v => no_attribute v "startswith"
     end) ;;
  emit (PushGet base_url formatted_title formatted_message) ;;;
  match push_net w with
  | PushRaises why => raise (Exception RequestException why)
  | PushReplies status text json =>
      if negb (status =? 200)%Z then ret tt
      else
        result <- lift
          (match json with
           | Some v => Ok v
           | None => Raise (Exception JSONDecodeError (u "Expecting value"))
           end) ;;
        code <- lift (get result "code" JNull) ;;
        ret tt
  end.

Definition send_ios_push_notification (w : world) (title : pystr) (message : pyval) : M unit :=
  emit (PushCall title message) ;;;
  if negb (truthy (IOS_PUSH_ENABLED w)) || negb (truthy (IOS_PUSH_URL w)) then ret tt
  else try_Exception (push_body w title message) (fun _ _ => ret tt).

(** [send_to_feishu]: whether the card was delivered. *)
Definition send_to_feishu (w : world) (message : pyval) : M bool :=
  if negb (truthy (WEBHOOK_URL w)) then ret false
  else
    try_Exception
      (match WEBHOOK_URL w with
       | JStr url =>
           emit (HookPost url message) ;;;
           match hook_net w with
           | HookRaises why => raise (Exception RequestException why)
           | HookReplies status =>
               (* [response.raise_for_status()] *)
               if ((400 <=? status) && (status <? 600))%Z
               then raise (Exception HTTPError (u "HTTP error"))
               else ret true
           end
       | _ => raise (Exception RequestException (u "Invalid URL"))
       end)
      (fun _ _ => ret false).

Definition success_result : pyval := JObj [ (u "success", JBool true) ].

Definition ignored_result (event_type : pyval) : pyval :=
  JObj [ (u "success", JBool true);
         (u "message", JStr (u "忽略事件类型：" ++ str event_type)) ].

Definition failure_result (error : pystr) : pyval :=
  JObj [ (u "success", JBool false); (u "error", JStr error) ].

Definition feishu_failed : pystr := u "发送到飞书失败".

Definition push_title : pystr := u "任务完成".
Definition session_ended : pystr := u "Session 已结束".

(** [json.load(sys.stdin)] *)
Definition json_load (w : world) : M pyval :=
  match stdin w with
  | StdinJson v => ret v
  | StdinBad why => raise (Exception JSONDecodeError why)
  end.

(** The event type [main] acts on: the explicit field, or what the shape of
    the record suggests when the field is absent or ["Unknown"]. *)
Definition resolve_event_type (hook_data : pyval) : res pyval :=
  (event_type <- get hook_data "event_type" (JStr (u "Unknown")) ;;
   if eq_str event_type (u "Unknown") then
     is_stop <- in_ "stop_hook_active" hook_data ;;
     if is_stop then Ok (JStr (u "Stop"))
     else
       has_notification <- in_ "notification" hook_data ;;
       has_message <- in_ "message" hook_data ;;
       if has_notification || has_message then Ok (JStr (u "Notification"))
       else Ok event_type
   else Ok event_type)%res.

(** The iOS part of the Stop branch. *)
Definition push_stop (w : world) (hook_data : pyval) : M unit :=
  transcript_path <- lift (get hook_data "transcript_path" empty) ;;
  if truthy transcript_path then
    ' (last_message, _) <- lift (extract_last_message_from_jsonl w transcript_path) ;;
    if truthy last_message then
      head <- lift (slice_to 100 last_message) ;;
      send_ios_push_notification w push_title head
    else send_ios_push_notification w push_title (JStr session_ended)
  else send_ios_push_notification w push_title (JStr session_ended).

(** The body of the [try] of [main]. *)
Definition main_body (w : world) : M unit :=
  hook_data <- json_load w ;;
  event_type <- lift (resolve_event_type hook_data) ;;
  if eq_str event_type (u "Stop") then
    message <- lift (format_stop_message w hook_data) ;;
    push_stop w hook_data ;;;
    delivered <- send_to_feishu w message ;;
    if delivered : bool then emit (Printed success_result) ;;; sys_exit 0
    else emit (Printed (failure_result feishu_failed)) ;;; sys_exit 1
  else
    emit (Printed (ignored_result event_type)) ;;; sys_exit 0.

Definition main (w : world) : M unit :=
  try_Exception (main_body w)
    (fun _ msg => emit (Printed (failure_result msg)) ;;; sys_exit 1).

(** What the process leaves behind. *)
Definition trace (w : world) : list event := snd (main w).

Definition exit_code (w : world) : Z :=
  match fst (main w) with
  | Raise (SystemExit code) => code
  | Raise (Exception _ _) => 1
  | Ok _ => 0
  end.

Definition stdout (w : world) : list pyval :=
  flat_map (fun e => match e with Printed obj => [obj] | _ => [] end) (trace w).

(** The requests that left the process, on either channel. *)
Definition is_delivery (e : event) : bool :=
  match e with
  | PushCall _ _ | PushGet _ _ _ | HookPost _ _ => true
  | Printed _ => false
  end.

Definition deliveries (w : world) : list event := filter is_delivery (trace w).

End Notifier.


(** ** Vocabulary of the statements *)

Module Log.
Import Py Reader.

(** The field of a record that carries the working directory, if any: the
    first present among [cwd], [workspace], [workingDirectory] and
    [message.cwd]. *)
Definition line_cwd (fields : dict) : option pyval :=
  match lookup (u "cwd") fields with
  | Some v => Some v
  | None =>
      match lookup (u "workspace") fields with
      | Some v => Some v
      | None =>
          match lookup (u "workingDirectory") fields with
          | Some v => Some v
          | None =>
              match lookup (u "message") fields with
              | Some (JObj m) => lookup (u "cwd") m
              | _ => None
              end
          end
      end
  end.

(** The content sequence of a record: [message.content] when [message] is a
    dict and [content] a list. *)
Definition line_items (fields : dict) : list pyval :=
  match lookup (u "message") fields with
  | Some (JObj m) =>
      match lookup (u "content") m with
      | Some (JArr items) => items
      | _ => []
      end
  | _ => []
  end.

(** A qualifying item: a dict whose [type] is ["text"] and whose [text] is
    not empty. *)
Definition qualifies (content_item : pyval) : bool :=
  match content_item with
  | JObj f => eq_str (dict_get (u "type") f JNull) (u "text")
              && truthy (dict_get (u "text") f empty)
  | _ => false
  end.

Definition item_text (content_item : pyval) : pyval :=
  match content_item with
  | JObj f => dict_get (u "text") f empty
  | _ => empty
  end.

(** The records of a log, in file order. *)
Definition records (lines : list logline) : list dict :=
  flat_map (fun ln => match ln with Parsed (JObj f) => [f] | _ => [] end) lines.

(** Every content item of a log, lines in file order, items in sequence
    order. *)
Definition all_items (lines : list logline) : list pyval :=
  flat_map line_items (records lines).

(** Every working-directory value of a log, in file order. *)
Definition all_cwds (lines : list logline) : list pyval :=
  flat_map (fun f => match line_cwd f with Some v => [v] | None => [] end) (records lines).

(** A line of a valid log: blank, or a JSON object. *)
Definition well_formed (ln : logline) : bool :=
  match ln with
  | Blank | Parsed (JObj _) => true
  | _ => false
  end.

(** A line the reader gets over: blank, a JSON object, or a line on which
    [json.loads] raises [JSONDecodeError]. *)
Definition tolerable (ln : logline) : bool :=
  match ln with
  | Blank | Malformed _ | Parsed (JObj _) => true
  | Unparsed _ _ | Parsed _ => false
  end.

(** A line on which [json.loads] does not raise [JSONDecodeError]. *)
Definition decodes (ln : logline) : bool :=
  match ln with
  | Malformed _ => false
  | _ => true
  end.

Definition is_record (ln : logline) : bool :=
  match ln with
  | Parsed (JObj _) => true
  | _ => false
  end.

(** The working directory as the specification words it: the last
    non-empty value among those the lines carry. *)
Definition spec_working_directory (lines : list logline) : pyval :=
  last (filter truthy (all_cwds lines)) empty.

(** A file the reader cannot read to its end. *)
Definition unavailable (f : file) : bool :=
  match f with
  | Missing | Unopenable _ | Opened _ (Some _) => true
  | Opened _ None => false
  end.

(** Nothing in the reader raises [SystemExit]. *)
Definition no_exit {A} (r : res A) : Prop :=
  match r with
  | Raise (SystemExit _) => False
  | _ => True
  end.

End Log.

(** ** Vocabulary about events and worlds *)

Module Hook.
Import Py Reader Card Eff Notifier.
Local Open Scope res_scope.

(** The message and working directory [format_stop_message] works with: what
    the reader returns for the event's [transcript_path], or two empty
    strings when the event has none. *)
Definition stop_extract (w : world) (data : pyval) : res (pyval * pyval) :=
  transcript_path <- get data "transcript_path" empty ;;
  if truthy transcript_path
  then extract_last_message_from_jsonl w transcript_path
  else Ok (empty, empty).

(** The event with its [stop_hook_active] field set to [v]. *)
Definition with_flag (v : pyval) (data : pyval) : pyval :=
  match data with
  | JObj fields => JObj ((u "stop_hook_active", v) :: fields)
  | _ => data
  end.

(** The world with another push configuration and another Bark server. *)
Definition with_push (w : world) (enabled url : pyval) (now : pystr) (net : push_response)
  : world :=
  {| stdin := stdin w; files := files w; WEBHOOK_URL := WEBHOOK_URL w;
     IOS_PUSH_URL := url; IOS_PUSH_ENABLED := enabled; clock := now;
     push_net := net; hook_net := hook_net w |}.

Definition is_hook_post (e : event) : bool :=
  match e with HookPost _ _ => true | _ => false end.

Definition is_push_call (e : event) : bool :=
  match e with PushCall _ _ => true | _ => false end.

Definition is_push_get (e : event) : bool :=
  match e with PushGet _ _ _ => true | _ => false end.

(** The POSTs made to the webhook. *)
Definition hook_posts (w : world) : list event := filter is_hook_post (trace w).

(** The calls of [send_ios_push_notification]. *)
Definition push_calls (w : world) : list event := filter is_push_call (trace w).

(** The GET that a call of the push function may issue. *)
Definition one_get (w : world) (title : pystr) (message : pyval) (gets : list event) : Prop :=
  gets = [] \/
  exists base_url,
    gets = [PushGet base_url (u "🤖 " ++ clean title) (str message ++ nl ++ nl ++ clock w)].

End Hook.

(** ** Sample events, logs and worlds *)

Module Samples.
Import Py Reader Card Notifier Hook.

Definition s (x : string) : pyval := JStr (u x).

Definition fields_of (fields : list (string * pyval)) : dict :=
  map (fun kv => (u (fst kv), snd kv)) fields.

Definition obj (fields : list (string * pyval)) : pyval := JObj (fields_of fields).

(** A log line whose [message.content] is one text item. *)
Definition text_line (text : pyval) : logline :=
  Parsed (obj [("message",
                obj [("content", JArr [obj [("type", s "text"); ("text", text)]])])]%string).

Definition cwd_line (cwd : pyval) : logline :=
  Parsed (obj [("cwd", cwd)]%string).

(** A world whose two servers answer well, with one transcript at every
    path. *)
Definition world_of (data : pyval) (f : file) : world :=
  {| stdin := StdinJson data;
     files := fun _ => f;
     WEBHOOK_URL := s "https://open.feishu.cn/hook/x";
     IOS_PUSH_URL := s "key";
     IOS_PUSH_ENABLED := JBool true;
     clock := u "12:00:00";
     push_net := PushReplies 200 [] (Some (obj [("code", JNum 200)]%string));
     hook_net := HookReplies 200 |}.

Definition stop_fields : dict :=
  fields_of [("event_type", s "Stop"); ("session_id", s "abcdefgh-1234");
             ("transcript_path", s "/t.jsonl")]%string.

Definition stop_event : pyval := JObj stop_fields.

Definition active_fields : dict :=
  fields_of [("session_id", s "abcdefgh-1234"); ("stop_hook_active", JBool true);
             ("transcript_path", s "/t.jsonl")]%string.

Definition stop_event_active : pyval := JObj active_fields.

Definition no_log_fields : dict :=
  fields_of [("session_id", s "abcdefgh-1234"); ("stop_hook_active", JBool true)]%string.

Definition stop_event_no_log : pyval := JObj no_log_fields.

Definition null_id_fields : dict :=
  fields_of [("event_type", s "Stop"); ("session_id", JNull)]%string.

Definition stop_event_null_id : pyval := JObj null_id_fields.

Definition tool_event : pyval :=
  obj [("event_type", s "ToolUse"); ("session_id", s "abcdefgh-1234")]%string.

Definition notification_event : pyval :=
  obj [("session_id", s "abcdefgh-1234"); ("message", s "waiting")]%string.

(** Scenario A: two text lines, the second with the error marker. *)
Definition log_api_error : file :=
  Opened [text_line (s "first"); text_line (s "API Error: boom")] None.

(** A log with a corrupt line and a blank one between two records. *)
Definition lines_with_garbage : list logline :=
  [text_line (s "first"); Malformed (u "Expecting value"); Blank;
   cwd_line (s "/home/u/proj/"); text_line (s "second")].

Definition log_with_garbage : file := Opened lines_with_garbage None.

(** Two records, then a line that holds the number 42, then a record. *)
Definition lines_with_number : list logline :=
  [text_line (s "first"); cwd_line (s "/p"); Parsed (JNum 42); text_line (s "second")].

(** Two records, then a line that holds an integer of 5000 digits, then a
    record. *)
Definition lines_with_long_integer : list logline :=
  [text_line (s "first"); cwd_line (s "/p");
   Unparsed DigitLimit (u "Exceeds the limit (4300 digits) for integer string conversion");
   text_line (s "second")].

(** A working directory followed by a line whose [cwd] is empty. *)
Definition lines_cwd_then_empty : list logline :=
  [cwd_line (s "/a"); cwd_line (JStr [])].

Definition log_cwd_then_empty : file := Opened lines_cwd_then_empty None.

Definition log_project : file :=
  Opened [cwd_line (s "/home/u/proj"); text_line (s "done")] None.

(** Messages of 1001 characters: one blank then a thousand [a], and a
    thousand and one [b]. *)
Definition long_blank_message : pystr := 32%N :: repeat 97%N 1000.
Definition long_message : pystr := repeat 98%N 1001.

Definition log_long_blank : file := Opened [text_line (JStr long_blank_message)] None.
Definition log_long : file := Opened [text_line (JStr long_message)] None.

(** A file whose read fails after its first line. *)
Definition log_read_error : file :=
  Opened [text_line (s "first")] (Some (u "Input/output error")).

End Samples.

(** ** Configuration: [load_config] and the globals read from it *)

Module Config.
Import Py.

(** A configuration file as [load_config] meets it. *)
Inductive config_file :=
| NoConfig                     (* [config_path.exists()] is false *)
| BrokenConfig (why : pystr)   (* [open] or [json.load] raises *)
| ConfigJson (v : pyval).      (* [json.load] returns [v] *)

(** What [load_config] reads: the two candidate files, the one of the user
    first, and three variables of the process environment. *)
Record environment := {
  user_config : config_file;        (* [~/.cc-notifier/config.json] *)
  script_config : config_file;      (* [config.json] beside the script *)
  env_webhook : option pystr;       (* [FEISHU_WEBHOOK_URL] *)
  env_ios_url : option pystr;       (* [IOS_PUSH_URL] *)
  env_ios_enabled : option pystr    (* [IOS_PUSH_ENABLED] *)
}.

Definition key_webhook : pystr := u "feishu_webhook_url".
Definition key_ios_url : pystr := u "ios_push_url".
Definition key_ios_enabled : pystr := u "ios_push_enabled".

Definition defaults : dict :=
  [ (key_webhook, JStr []); (key_ios_url, JStr []); (key_ios_enabled, JBool false) ].

(** [d[k] = v] *)
Fixpoint dict_set (k : pystr) (v : pyval) (d : dict) : dict :=
  match d with
  | [] => [(k, v)]
  | (k', v') :: d' =>
      if Str.eqb k' k then (k, v) :: d' else (k', v') :: dict_set k v d'
  end.

(** One element of a sequence given to [dict.update]: it must itself be a
    sequence of length 2 (a list of two values, a string of two characters,
    a dict of two keys), which gives the key and the value. *)
Definition pair_of (element : pyval) : option (pyval * pyval) :=
  match element with
  | JArr [k; v] => Some (k, v)
  | JStr [a; b] => Some (JStr [a], JStr [b])
  | JObj [(k1, _); (k2, _)] => Some (JStr k1, JStr k2)
  | _ => None
  end.

(** [config.update(elements)] for a sequence: the pairs are stored one after
    the other, and the first element that is no pair, or whose key is a list
    or a dict, raises; what was stored before stays.  The flag tells whether
    the update came to its end.  A key that is no string (a number, a
    boolean, [None]) is stored by Python under that key, which the script
    never reads: the entry is left out here. *)
Fixpoint update_pairs (config : dict) (elements : list pyval) : dict * bool :=
  match elements with
  | [] => (config, true)
  | element :: rest =>
      match pair_of element with
      | Some (JStr k, v) => update_pairs (dict_set k v config) rest
      | Some (JArr _, _) | Some (JObj _, _) => (config, false)
      | Some (_, _) => update_pairs config rest
      | None => (config, false)
      end
  end.

(** [config.update(file_config)] inside the [try]. *)
Definition update (config : dict) (file_config : pyval) : dict * bool :=
  match file_config with
  | JObj d => (fold_left (fun c kv => dict_set (fst kv) (snd kv) c) d config, true)
  | JArr elements => update_pairs config elements
  | JStr s => update_pairs config (map (fun c => JStr [c]) s)
  | _ => (config, false)
  end.

(** One turn of [for config_path in config_paths]; the flag is the [break]. *)
Definition try_file (config : dict) (f : config_file) : dict * bool :=
  match f with
  | ConfigJson v => update config v
  | _ => (config, false)
  end.

Fixpoint load_files (config : dict) (paths : list config_file) : dict :=
  match paths with
  | [] => config
  | f :: rest =>
      let (config', loaded) := try_file config f in
      if loaded then config' else load_files config' rest
  end.

(** [if value := os.environ.get(name)]: the variable when it is set and not
    empty. *)
Definition set_env (o : option pystr) : option pystr :=
  match o with
  | Some (c :: s) => Some (c :: s)
  | _ => None
  end.

Definition load_config (e : environment) : dict :=
  let config := load_files defaults [user_config e; script_config e] in
  let config :=
    match set_env (env_webhook e) with
    | Some env_webhook => dict_set key_webhook (JStr env_webhook) config
    | None => config
    end in
  let config :=
    match set_env (env_ios_url e) with
    | Some env_ios_url => dict_set key_ios_url (JStr env_ios_url) config
    | None => config
    end in
  match set_env (env_ios_enabled e) with
  | Some env_ios_enabled =>
      dict_set key_ios_enabled (JBool (Str.eqb (lower env_ios_enabled) (u "true"))) config
  | None => config
  end.

(** [CONFIG[k]] *)
Definition subscript (config : dict) (k : pystr) : res pyval :=
  match lookup k config with
  | Some v => Ok v
  | None => Raise (Exception KeyError (quoted k))
  end.

(** The module-level assignments [CONFIG = load_config()],
    [WEBHOOK_URL = CONFIG[...]], ...: the world in which the functions of the
    script then run. *)
Definition configure (e : environment) (w : world) : res world :=
  let CONFIG := load_config e in
  (webhook_url <- subscript CONFIG key_webhook ;;
   ios_push_url <- subscript CONFIG key_ios_url ;;
   ios_push_enabled <- subscript CONFIG key_ios_enabled ;;
   Ok {| stdin := stdin w; files := files w;
         WEBHOOK_URL := webhook_url;
         IOS_PUSH_URL := ios_push_url;
         IOS_PUSH_ENABLED := ios_push_enabled;
         clock := clock w; push_net := push_net w; hook_net := hook_net w |})%res.

End Config.

(** ** The card of a Notification event: [format_notification_message] *)

Module Notice.
Import Py Reader.
Local Open Scope res_scope.

Definition upper_cp (c : N) : N :=
  if ((97 <=? c) && (c <=? 122))%N then (c - 32)%N else c.

Definition is_cased (c : N) : bool :=
  (((65 <=? c) && (c <=? 90)) || ((97 <=? c) && (c <=? 122)))%N.

(** [str.title()] on the Basic Latin block: a letter that follows a letter is
    lowered, any other letter is raised. *)
Fixpoint title_from (previous_is_cased : bool) (s : pystr) : pystr :=
  match s with
  | [] => []
  | c :: rest =>
      (if previous_is_cased then lower_cp c else upper_cp c) :: title_from (is_cased c) rest
  end.

Definition title (s : pystr) : pystr := title_from false s.

Definition skipped_keys : list pystr := [u "session_id"; u "timestamp"].

(** Whether the loop shows an entry of the notification object. *)
Definition shown (entry : pystr * pyval) : bool :=
  negb (existsb (Str.eqb (fst entry)) skipped_keys) && truthy (snd entry).

(** The line of one entry. *)
Definition entry_line (entry : pystr * pyval) : pystr :=
  u "**" ++ title (fst entry) ++ u ":** " ++ str (snd entry) ++ nl.

(** [for key, value in notification_data.items(): ...] *)
Fixpoint notification_lines (entries : dict) (content : pystr) : pystr :=
  match entries with
  | [] => content
  | entry :: rest =>
      notification_lines rest (if shown entry then content ++ entry_line entry else content)
  end.

Definition notice_title : pystr := u "📢 Claude Code 通知".

(** The returned dict; its header has no [template]. *)
Definition notice_card (content : pystr) : pyval :=
  JObj
    [ (u "msg_type", JStr (u "interactive"));
      (u "card",
        JObj
          [ (u "schema", JStr (u "2.0"));
            (u "header",
              JObj
                [ (u "title",
                    JObj [ (u "tag", JStr (u "plain_text"));
                           (u "content", JStr notice_title) ]);
                  (u "padding", Card.padding) ]);
            (u "body",
              JObj
                [ (u "direction", JStr (u "vertical"));
                  (u "padding", Card.padding);
                  (u "elements",
                    JArr
                      [ JObj [ (u "tag", JStr (u "markdown"));
                               (u "content", JStr content);
                               (u "text_align", JStr (u "left"));
                               (u "text_size", JStr (u "normal"));
                               (u "margin", JStr (u "0px 0px 0px 0px")) ] ]) ]) ]) ].

(** The content before the fallback. *)
Definition notice_content (message_content notification_data : pyval) : pystr :=
  if truthy message_content then u "**内容:** " ++ str message_content ++ nl
  else if truthy notification_data then
    match notification_data with
    | JObj entries => notification_lines entries []
    | _ => []
    end
  else [].

Definition format_notification_message (data : pyval) : res pyval :=
  session_id <- get data "session_id" (JStr (u "Unknown Session")) ;;
  message_content <- get data "message" empty ;;
  notification_data <- get data "notification" (JObj []) ;;
  let content := notice_content message_content notification_data in
  content <-
    (if truthy (JStr content) then Ok content
     else sid <- slice_to 8 session_id ;; Ok (u "Session: " ++ str sid ++ u "...")) ;;
  Ok (notice_card (strip content)).

End Notice.

(** ** The setup wizard: [setup.py] *)

Module Setup.
Import Py.

(** [validate_url] *)
Definition validate_url (url : pystr) : bool :=
  startswith (u "http://") url || startswith (u "https://") url.

(** The loop of [get_input_with_default] when the default is empty: answers
    that are blank are refused. *)
Fixpoint ask_required (inputs : list pystr) : option (pystr * list pystr) :=
  match inputs with
  | [] => None
  | line :: rest =>
      match strip line with
      | [] => ask_required rest
      | answer => Some (answer, rest)
      end
  end.

(** [get_input_with_default(prompt, default)] over the lines that [input()]
    will return; the result is the answer and the lines left, or nothing when
    the input ends ([input()] raises [EOFError]).  The prompts are not
    modelled. *)
Definition get_input_with_default (default : pystr) (inputs : list pystr)
  : option (pystr * list pystr) :=
  match default with
  | [] => ask_required inputs
  | _ =>
      match inputs with
      | [] => None
      | line :: rest =>
          match strip line with
          | [] => Some (default, rest)
          | answer => Some (answer, rest)
          end
      end
  end.

(** [answer.lower() in ['y', 'yes', '是']] *)
Definition said_yes (answer : pystr) : bool :=
  existsb (Str.eqb (lower answer)) [u "y"; u "yes"; u "是"].

(** The [config] dict of [main]. *)
Definition make_config (feishu_url ios_push_url : pystr) (ios_push_enabled : bool) : pyval :=
  JObj [ (Config.key_webhook, JStr feishu_url);
         (Config.key_ios_url, JStr ios_push_url);
         (Config.key_ios_enabled, JBool ios_push_enabled) ].

(** The questions of [main] that fill [config]: the webhook, the Bark
    address, and, when a Bark address was given, whether to enable it. *)
Definition ask_config (inputs : list pystr) : option (pyval * list pystr) :=
  match get_input_with_default [] inputs with
  | None => None
  | Some (feishu_url, inputs) =>
      match get_input_with_default [] inputs with
      | None => None
      | Some (ios_push_url, inputs) =>
          if truthy (JStr ios_push_url) then
            match get_input_with_default (u "y") inputs with
            | None => None
            | Some (enable_ios, inputs) =>
                Some (make_config feishu_url ios_push_url (said_yes enable_ios), inputs)
            end
          else Some (make_config feishu_url ios_push_url false, inputs)
      end
  end.

(** The event [main] pipes into the notifier as a test. *)
Definition test_data : pyval :=
  JObj [ (u "event_type", JStr (u "Stop"));
         (u "session_id", JStr (u "test-session-123"));
         (u "stop_hook_active", JBool false);
         (u "transcript_path", JStr []) ].

End Setup.

(** ** More vocabulary *)

Module Obs.
Import Py Reader Card Eff Notifier.

(** The [success] field of a printed result. *)
Definition success_of (obj : pyval) : option pyval :=
  match obj with
  | JObj d => lookup (u "success") d
  | _ => None
  end.

Definition is_object (v : pyval) : bool :=
  match v with JObj _ => true | _ => false end.

(** A text that starts, or ends, with a character [strip] removes. *)
Definition starts_blank (s : pystr) : bool :=
  match s with
  | c :: _ => isspace c
  | [] => false
  end.

Definition ends_blank (s : pystr) : bool := starts_blank (rev s).

Definition is_slash (c : N) : bool := (slash =? c)%N.

(** The requests that leave the process. *)
Definition is_request (e : event) : bool :=
  match e with
  | PushGet _ _ _ | HookPost _ _ => true
  | _ => false
  end.

Definition robot : N := 129302%N.

(** Whether stdin holds a JSON object. *)
Definition object_input (w : world) : bool :=
  match stdin w with
  | StdinJson (JObj _) => true
  | _ => false
  end.

(** The test at the head of [send_ios_push_notification]. *)
Definition push_off (w : world) : bool :=
  negb (truthy (IOS_PUSH_ENABLED w)) || negb (truthy (IOS_PUSH_URL w)).

(** An environment without the three variables. *)
Definition no_env (e : Config.environment) : bool :=
  match Config.set_env (Config.env_webhook e), Config.set_env (Config.env_ios_url e),
        Config.set_env (Config.env_ios_enabled e) with
  | None, None, None => true
  | _, _, _ => false
  end.

(** A configuration file that [load_config] cannot use. *)
Definition unusable (f : Config.config_file) : bool :=
  match f with
  | Config.ConfigJson _ => false
  | _ => true
  end.

(** The environment with another file beside the script. *)
Definition with_script (f : Config.config_file) (e : Config.environment)
  : Config.environment :=
  {| Config.user_config := Config.user_config e; Config.script_config := f;
     Config.env_webhook := Config.env_webhook e;
     Config.env_ios_url := Config.env_ios_url e;
     Config.env_ios_enabled := Config.env_ios_enabled e |}.

(** A user file that enables the push and names a webhook, and an
    environment that names another webhook. *)
Definition sample_environment : Config.environment :=
  {| Config.user_config :=
       Config.ConfigJson (Setup.make_config (u "https://open.feishu.cn/hook/file") (u "key") true);
     Config.script_config := Config.NoConfig;
     Config.env_webhook := Some (u "https://open.feishu.cn/hook/env");
     Config.env_ios_url := None;
     Config.env_ios_enabled := Some (u "1") |}.

(** The event with its [notification] field set to [v]. *)
Definition with_notification (v : pyval) (fields : dict) : dict :=
  (u "notification", v) :: fields.

(** The event names no type of its own. *)
Definition untyped (fields : dict) : bool :=
  match lookup (u "event_type") fields with
  | None => true
  | Some event_type => eq_str event_type (u "Unknown")
  end.

(** [None], a bool or a number: a value that [v[:8]] refuses. *)
Definition atom (v : pyval) : bool :=
  match v with
  | JNull | JBool _ | JNum _ => true
  | _ => false
  end.

(** A line that [input().strip()] turns into the empty string. *)
Definition blank_line (line : pystr) : bool :=
  match strip line with
  | [] => true
  | _ => false
  end.

(** The exceptions of a value that is no dict are not the one the inner
    [try] catches. *)
Definition escapes {A} (r : res A) : Prop :=
  match r with
  | Raise (Exception c _) => class_eqb c JSONDecodeError = false
  | _ => False
  end.


End Obs.
(** * Properties *)

(** ** Sanity checks of the string model *)

Example u_ascii : u "API Error:" = [65; 80; 73; 32; 69; 114; 114; 111; 114; 58]%N.
Proof. reflexivity. Qed.

Example u_cjk : u "任务完成" = [20219; 21153; 23436; 25104]%N.
Proof. reflexivity. Qed.

Example u_emoji : u "📂" = [128194]%N.
Proof. reflexivity. Qed.

Example basename_ex : basename (rstrip_slash (u "/home/u/proj/")) = u "proj".
Proof. reflexivity. Qed.

Example strip_ex : strip (u "  a b " ++ nl) = u "a b".
Proof. reflexivity. Qed.

Example of_Z_ex : of_Z (-42) = u "-42".
Proof. reflexivity. Qed.

Example repr_ex :
  Py.str (JArr [JNum 1; JStr (u "a"); JObj [(u "k", JNull)]]) = u "[1, 'a', {'k': None}]".
Proof. reflexivity. Qed.


(** ** Lists and strings *)

Lemma last_cons_default {A} (x : A) (l : list A) (d : A) :
  last (x :: l) d = last l x.
Proof.
  revert x d. induction l as [|y l IH]; intros x d; [reflexivity|].
  change (last (x :: y :: l) d) with (last (y :: l) d).
  now rewrite (IH y d), (IH y x).
Qed.

Lemma last_app_default {A} (a b : list A) (d : A) :
  last (a ++ b) d = last b (last a d).
Proof.
  revert d. induction a as [|x a IH]; intros d; [reflexivity|].
  rewrite <- app_comm_cons, !last_cons_default. apply IH.
Qed.

Lemma lstrip_by_head f c s : f c = false -> lstrip_by f (c :: s) = c :: s.
Proof. intros H. simpl. now rewrite H. Qed.

Lemma lstrip_by_app_stop f p c q :
  f c = false -> lstrip_by f (p ++ c :: q) = lstrip_by f p ++ c :: q.
Proof.
  intros H. induction p as [|x p IH]; simpl.
  - now rewrite H.
  - destruct (f x); [exact IH | reflexivity].
Qed.

(** Stripping on the right stops at a character that is kept. *)
Lemma rstrip_by_app_stop f a c b :
  f c = false -> rstrip_by f (a ++ c :: b) = a ++ c :: rstrip_by f b.
Proof.
  intros H. unfold rstrip_by.
  rewrite rev_app_distr. simpl rev. rewrite <- app_assoc. simpl app.
  rewrite lstrip_by_app_stop by exact H.
  rewrite rev_app_distr. simpl rev. rewrite rev_involutive.
  now rewrite <- app_assoc.
Qed.

Lemma rstrip_by_nil f : rstrip_by f [] = [].
Proof. reflexivity. Qed.

(** A text that starts and ends with characters that are not blank is left
    as it is by [strip]. *)
Lemma strip_fixed c s d :
  isspace c = false -> isspace d = false -> strip (c :: s ++ [d]) = c :: s ++ [d].
Proof.
  intros Hc Hd. unfold strip. rewrite lstrip_by_head by exact Hc.
  change (c :: s ++ [d]) with ((c :: s) ++ d :: []).
  now rewrite rstrip_by_app_stop by exact Hd.
Qed.

(** ** The reader *)

Module ReaderFacts.
Import Py Reader Log Obs.
Local Open Scope res_scope.

Lemma well_formed_tolerable lines :
  forallb well_formed lines = true -> forallb tolerable lines = true.
Proof.
  rewrite !forallb_forall. intros H ln Hin. specialize (H ln Hin).
  destruct ln as [| | |[]]; simpl in *; congruence.
Qed.

Lemma pick_cwd_dict fields cwd :
  pick_cwd (JObj fields) cwd =
  Ok (match line_cwd fields with Some v => v | None => cwd end).
Proof.
  unfold pick_cwd, line_cwd, in_, get, has_key, dict_get, rbind.
  destruct (lookup (u "cwd") fields); [reflexivity|].
  destruct (lookup (u "workspace") fields); [reflexivity|].
  destruct (lookup (u "workingDirectory") fields); [reflexivity|].
  destruct (lookup (u "message") fields) as [[]|]; try reflexivity.
  destruct (lookup (u "cwd") fields0); reflexivity.
Qed.

Lemma scan_content_last items text :
  scan_content items text = last (map item_text (filter qualifies items)) text.
Proof.
  revert text. induction items as [|it items IH]; intros text; [reflexivity|].
  simpl scan_content. rewrite IH. simpl filter.
  assert (E : text_of_item it = if qualifies it then Some (item_text it) else None).
  { destruct it; try reflexivity. unfold text_of_item, qualifies, item_text.
    destruct (eq_str _ _); [|reflexivity].
    destruct (truthy _); reflexivity. }
  rewrite E. destruct (qualifies it); [|reflexivity].
  simpl map. now rewrite last_cons_default.
Qed.

(** A record never makes the reader raise; this is what it does to the two
    accumulators. *)
Lemma process_record_dict fields text cwd :
  process_record (JObj fields) (text, cwd) =
  Ok (scan_content (line_items fields) text,
      match line_cwd fields with Some v => v | None => cwd end).
Proof.
  unfold process_record. rewrite pick_cwd_dict.
  unfold line_items, in_, item, has_key, rbind.
  destruct (lookup (u "message") fields) as [[]|]; try reflexivity.
  destruct (lookup (u "content") fields0) as [[]|]; reflexivity.
Qed.

Lemma process_line_record fields text cwd :
  process_line (Parsed (JObj fields)) (text, cwd) =
  Ok (scan_content (line_items fields) text,
      match line_cwd fields with Some v => v | None => cwd end).
Proof.
  change (process_line (Parsed (JObj fields)) (text, cwd))
    with (try_except JSONDecodeError (process_record (JObj fields) (text, cwd))
            (fun _ => Ok (text, cwd))).
  now rewrite process_record_dict.
Qed.

Lemma process_line_skip ln acc :
  is_record ln = false -> tolerable ln = true -> process_line ln acc = Ok acc.
Proof.
  destruct ln as [| | |[]]; simpl; intros; try congruence; reflexivity.
Qed.

Lemma scan_lines_app l1 l2 acc :
  scan_lines (l1 ++ l2) acc = (acc' <- scan_lines l1 acc ;; scan_lines l2 acc').
Proof.
  revert acc. induction l1 as [|ln l1 IH]; intros acc; [reflexivity|].
  simpl. destruct (process_line ln acc); simpl; [apply IH | reflexivity].
Qed.

(** The scan of a log without lines that are JSON but no object. *)
Lemma scan_lines_tolerable lines text cwd :
  forallb tolerable lines = true ->
  scan_lines lines (text, cwd) =
  Ok (last (map item_text (filter qualifies (all_items lines))) text,
      last (all_cwds lines) cwd).
Proof.
  revert text cwd. induction lines as [|ln lines IH]; intros text cwd H; [reflexivity|].
  simpl in H. apply andb_true_iff in H as [Hln H].
  destruct ln as [| | |data].
  - simpl. now rewrite IH.
  - simpl. now rewrite IH.
  - discriminate.
  - destruct data; try discriminate.
    change (scan_lines (Parsed (JObj fields) :: lines) (text, cwd))
      with (acc' <- process_line (Parsed (JObj fields)) (text, cwd) ;; scan_lines lines acc').
    rewrite process_line_record. simpl rbind. rewrite IH by exact H.
    unfold all_items, all_cwds. simpl records. simpl flat_map.
    rewrite filter_app, map_app, !last_app_default, scan_content_last.
    f_equal. destruct (line_cwd fields); reflexivity.
Qed.

(** Lines that are not records contribute nothing. *)
Lemma records_filter lines : records (filter is_record lines) = records lines.
Proof.
  induction lines as [|ln lines IH]; [reflexivity|].
  destruct ln as [| | |[]]; simpl; try exact IH. now rewrite IH.
Qed.

Lemma tolerable_filter lines : forallb tolerable (filter is_record lines) = true.
Proof.
  induction lines as [|ln lines IH]; [reflexivity|].
  destruct ln as [| | |[]]; simpl; exact IH.
Qed.

Lemma no_exit_bind {A B} (r : res A) (k : A -> res B) :
  no_exit r -> (forall a, no_exit (k a)) -> no_exit (r' <- r ;; k r').
Proof. destruct r as [a|[]]; simpl; auto. Qed.

Lemma no_exit_in k v : no_exit (in_ k v).
Proof. destruct v; exact I. Qed.

Lemma no_exit_get v k d : no_exit (get v k d).
Proof. destruct v; exact I. Qed.

Lemma no_exit_item v k : no_exit (item v k).
Proof. destruct v; try exact I. simpl. destruct (lookup _ _); exact I. Qed.

Lemma no_exit_pick_cwd data cwd : no_exit (pick_cwd data cwd).
Proof.
  unfold pick_cwd.
  repeat (apply no_exit_bind; [apply no_exit_in|]; intros [|]; [apply no_exit_get|]).
  apply no_exit_bind; [apply no_exit_get|].
  intros [| | | | |m]; try exact I. destruct (has_key _ _); exact I.
Qed.

Lemma no_exit_process_record data acc : no_exit (process_record data acc).
Proof.
  destruct acc as [text cwd]. unfold process_record.
  apply no_exit_bind; [apply no_exit_pick_cwd|]. intros cwd'.
  apply no_exit_bind; [apply no_exit_in|]. intros [|]; simpl; [|exact I].
  apply no_exit_bind; [apply no_exit_item|].
  intros [| | | | |m]; try exact I. destruct (lookup _ _) as [[]|]; exact I.
Qed.

Lemma no_exit_process_line ln acc : no_exit (process_line ln acc).
Proof.
  destruct ln as [| why | failure why |data]; simpl; try exact I.
  { destruct failure; exact I. }
  pose proof (no_exit_process_record data acc) as H.
  unfold try_except. destruct (process_record data acc) as [r|[c msg|code]]; try exact H.
  destruct (class_eqb c JSONDecodeError); exact I.
Qed.

Lemma no_exit_scan_lines lines acc : no_exit (scan_lines lines acc).
Proof.
  revert acc. induction lines as [|ln lines IH]; intros acc; [exact I|].
  simpl. apply no_exit_bind; [apply no_exit_process_line | exact IH].
Qed.

Lemma no_exit_extract_body w transcript_path : no_exit (extract_body w transcript_path).
Proof.
  destruct transcript_path; try exact I. simpl.
  destruct (files w s) as [| why | lines read_error]; try exact I.
  apply no_exit_bind; [apply no_exit_scan_lines|].
  intros acc. destruct read_error; exact I.
Qed.

(** The reader never raises to its caller. *)
Lemma extract_never_raises w transcript_path :
  exists text cwd, extract_last_message_from_jsonl w transcript_path = Ok (text, cwd).
Proof.
  unfold extract_last_message_from_jsonl.
  pose proof (no_exit_extract_body w transcript_path) as H.
  destruct (extract_body w transcript_path) as [[text cwd]|[c msg|code]]; simpl.
  - now exists text, cwd.
  - now exists empty, empty.
  - destruct H.
Qed.

(** The reader on a file that opens and reads to the end. *)
Lemma extract_opened w path lines :
  files w path = Opened lines None ->
  extract_last_message_from_jsonl w (JStr path) =
  try_except_Exception (scan_lines lines (empty, empty)) (fun _ _ => Ok (empty, empty)).
Proof.
  intros H. unfold extract_last_message_from_jsonl, extract_body. rewrite H.
  destruct (scan_lines lines (empty, empty)) as [acc|e]; reflexivity.
Qed.

(** A line on which [json.loads] raises [JSONDecodeError] counts for
    nothing, whatever the other lines are. *)
Lemma scan_lines_decodes lines acc :
  scan_lines (filter decodes lines) acc = scan_lines lines acc.
Proof.
  revert acc. induction lines as [|ln lines IH]; intros acc; [reflexivity|].
  destruct ln as [| why | failure why | data]; cbn [filter decodes].
  - cbn [scan_lines]. destruct (process_line Blank acc); cbn [rbind]; [apply IH | reflexivity].
  - rewrite IH. reflexivity.
  - cbn [scan_lines].
    destruct (process_line (Unparsed failure why) acc); cbn [rbind]; [apply IH | reflexivity].
  - cbn [scan_lines].
    destruct (process_line (Parsed data) acc); cbn [rbind]; [apply IH | reflexivity].
Qed.

(** What a JSON value that is no object raises is not caught by the inner
    [try]. *)
Lemma process_record_non_object v acc :
  is_object v = false -> escapes (process_record v acc).
Proof.
  destruct acc as [text cwd].
  destruct v as [| | | txt | items |]; try discriminate; intros _;
    unfold process_record, pick_cwd, in_, get, type_error, no_attribute; cbn [rbind].
  - reflexivity.
  - reflexivity.
  - reflexivity.
  - destruct (contains (u "cwd") txt); cbn [rbind]; [reflexivity|].
    destruct (contains (u "workspace") txt); cbn [rbind]; [reflexivity|].
    destruct (contains (u "workingDirectory") txt); cbn [rbind]; reflexivity.
  - destruct (existsb (fun x => eq_str x (u "cwd")) items); cbn [rbind]; [reflexivity|].
    destruct (existsb (fun x => eq_str x (u "workspace")) items); cbn [rbind]; [reflexivity|].
    destruct (existsb (fun x => eq_str x (u "workingDirectory")) items); cbn [rbind];
      reflexivity.
Qed.

Lemma process_line_non_object v acc :
  is_object v = false ->
  exists c msg, process_line (Parsed v) acc = Raise (Exception c msg).
Proof.
  intros H. pose proof (process_record_non_object v acc H) as E.
  change (process_line (Parsed v) acc)
    with (try_except JSONDecodeError (process_record v acc) (fun _ => Ok acc)).
  unfold escapes in E. unfold try_except.
  destruct (process_record v acc) as [r|[c msg|code]]; try contradiction.
  rewrite E. now exists c, msg.
Qed.

Lemma scan_lines_non_object lines v acc :
  In (Parsed v) lines -> is_object v = false ->
  exists c msg, scan_lines lines acc = Raise (Exception c msg).
Proof.
  revert acc. induction lines as [|ln lines IH]; intros acc Hin Hv; [destruct Hin|].
  simpl scan_lines.
  destruct Hin as [->|Hin].
  - destruct (process_line_non_object v acc Hv) as (c & msg & ->). now exists c, msg.
  - pose proof (no_exit_process_line ln acc) as Hx.
    destruct (process_line ln acc) as [acc'|[c msg|code]]; cbn [rbind].
    + now apply IH.
    + now exists c, msg.
    + destruct Hx.
Qed.

(** The other failures of [json.loads] pass the inner [try] as well. *)
Lemma process_line_unparsed failure why acc :
  process_line (Unparsed failure why) acc = Raise (Exception (failure_class failure) why).
Proof. destruct failure; reflexivity. Qed.

Lemma process_line_intolerable ln acc :
  tolerable ln = false -> exists c msg, process_line ln acc = Raise (Exception c msg).
Proof.
  destruct ln as [| why | failure why | data]; try discriminate; intros H.
  - rewrite process_line_unparsed. now eexists _, _.
  - apply process_line_non_object. destruct data; try reflexivity. discriminate H.
Qed.

(** One line the reader does not get over makes the scan raise. *)
Lemma scan_lines_intolerable lines acc :
  forallb tolerable lines = false ->
  exists c msg, scan_lines lines acc = Raise (Exception c msg).
Proof.
  revert acc. induction lines as [|ln lines IH]; intros acc H; [discriminate|].
  cbn [forallb] in H. cbn [scan_lines].
  destruct (tolerable ln) eqn:Hln.
  - pose proof (no_exit_process_line ln acc) as Hx.
    destruct (process_line ln acc) as [acc'|[c msg|code]]; cbn [rbind].
    + now apply IH.
    + now exists c, msg.
    + destruct Hx.
  - destruct (process_line_intolerable ln acc Hln) as (c & msg & ->). now exists c, msg.
Qed.

End ReaderFacts.

(** ** The card builder *)

Module CardFacts.
Import Py Reader Card Log Hook ReaderFacts.
Local Open Scope res_scope.

(** [lower] never produces a capital [A]. *)
Lemma lower_cp_not_A c : (65 =? lower_cp c)%N = false.
Proof.
  unfold lower_cp.
  destruct ((65 <=? c) && (c <=? 90))%N eqn:E; apply N.eqb_neq.
  - apply andb_true_iff in E as [E _]. apply N.leb_le in E. lia.
  - intros <-. discriminate E.
Qed.

Lemma contains_capital_in_lower k s : contains (65%N :: k) (lower s) = false.
Proof.
  induction s as [|c s IH]; [reflexivity|].
  change (contains (65%N :: k) (lower (c :: s)))
    with (((65 =? lower_cp c)%N && startswith k (lower s)) || contains (65%N :: k) (lower s)).
  now rewrite lower_cp_not_A, IH.
Qed.

(** The keyword keeps its capitals while the message has lost them:
    the flag is never set. *)
Lemma is_error_never_true v b : is_error_of v = Ok b -> b = false.
Proof.
  unfold is_error_of. destruct (truthy v); [|congruence].
  destruct v; try discriminate.
  change error_keywords with [65%N :: u "PI Error:"].
  simpl existsb. rewrite contains_capital_in_lower. simpl. congruence.
Qed.

Lemma no_exit_is_error v : no_exit (is_error_of v).
Proof. unfold is_error_of. destruct (truthy v); [|exact I]. destruct v; exact I. Qed.

Lemma no_exit_slice n v : no_exit (slice_to n v).
Proof. destruct v; exact I. Qed.

Lemma no_exit_message_part sid tp lm : no_exit (message_part sid tp lm).
Proof.
  unfold message_part. destruct (truthy lm).
  - destruct lm; try exact I. destruct (_ <? _)%nat; exact I.
  - apply no_exit_bind; [apply no_exit_slice | intros; exact I].
Qed.

Lemma no_exit_label cwd : no_exit (label_of cwd).
Proof.
  unfold label_of. destruct (truthy cwd); [|exact I].
  destruct cwd; try exact I. destruct (truthy _); exact I.
Qed.

Lemma no_exit_compose sid flag tp lm cwd : no_exit (compose sid flag tp lm cwd).
Proof.
  unfold compose. apply no_exit_bind; [apply no_exit_message_part|]. intros part.
  apply no_exit_bind; [apply no_exit_label | intros; exact I].
Qed.

Lemma no_exit_extract w tp : no_exit (extract_last_message_from_jsonl w tp).
Proof. destruct (extract_never_raises w tp) as [t [c ->]]. exact I. Qed.

Lemma no_exit_format w data : no_exit (format_stop_message w data).
Proof.
  unfold format_stop_message.
  do 3 (apply no_exit_bind; [apply no_exit_get | intros ?]).
  apply no_exit_bind.
  { destruct (truthy _); [apply no_exit_extract | exact I]. }
  intros [lm cwd].
  apply no_exit_bind; [apply no_exit_is_error | intros b].
  apply no_exit_bind; [apply no_exit_compose | intros content].
  destruct b; exact I.
Qed.

(** Reading the card back. *)
Lemma title_of_card t th c : title_of (card t th c) = Some (JStr t).
Proof. reflexivity. Qed.

Lemma template_of_card t th c : template_of (card t th c) = Some (JStr th).
Proof. reflexivity. Qed.

Lemma body_of_card t th c : body_of (card t th c) = Some (JStr c).
Proof. reflexivity. Qed.

(** What a successful run of [format_stop_message] went through. *)
Lemma format_stop_message_inv w fields p :
  format_stop_message w (JObj fields) = Ok p ->
  exists last_message cwd is_error content,
    stop_extract w (JObj fields) = Ok (last_message, cwd) /\
    is_error_of last_message = Ok is_error /\
    compose (dict_get (u "session_id") fields (JStr (u "Unknown Session")))
            (dict_get (u "stop_hook_active") fields (JBool false))
            (dict_get (u "transcript_path") fields empty)
            last_message cwd = Ok content /\
    p = card (if is_error then title_failed else title_completed)
             (if is_error then u "red" else u "green")
             (strip content).
Proof.
  unfold format_stop_message, stop_extract, get. cbn [rbind].
  destruct (if truthy (dict_get (u "transcript_path") fields empty)
            then extract_last_message_from_jsonl w (dict_get (u "transcript_path") fields empty)
            else Ok (empty, empty)) as [[lm cwd]|e]; [|discriminate].
  cbn [rbind].
  destruct (is_error_of lm) as [b|e] eqn:Eb; [|discriminate]. cbn [rbind].
  destruct (compose _ _ _ lm cwd) as [content|e] eqn:Ec; [|discriminate]. cbn [rbind].
  intros H. exists lm, cwd, b, content. repeat split; [exact Eb | exact Ec |].
  destruct b; congruence.
Qed.

Lemma format_stop_message_dict w data p :
  format_stop_message w data = Ok p -> exists fields, data = JObj fields.
Proof.
  destruct data; try discriminate. intros _. now eexists.
Qed.

Lemma compose_inv sid flag tp lm cwd content :
  compose sid flag tp lm cwd = Ok content ->
  exists label part,
    label_of cwd = Ok label /\
    message_part sid tp lm = Ok part /\
    content = label ++ (if truthy flag then warning_line else []) ++ part.
Proof.
  unfold compose.
  destruct (message_part sid tp lm) as [part|e]; [|discriminate]. cbn [rbind].
  destruct (label_of cwd) as [label|e]; [|discriminate]. cbn [rbind].
  intros H. exists label, part. repeat split. now injection H as <-.
Qed.

Lemma project_label_head name : exists t, project_label name = 60%N :: t.
Proof.
  unfold project_label.
  assert (E : exists t, u "<font size=2>📂 项目: " = 60%N :: t)
    by (eexists; vm_compute; reflexivity).
  destruct E as [t ->]. rewrite <- app_comm_cons. now eexists.
Qed.

Lemma path_label_head cwd : exists t, path_label cwd = 60%N :: t.
Proof.
  unfold path_label.
  assert (E : exists t, u "<font size=2>📂 路径: " = 60%N :: t)
    by (eexists; vm_compute; reflexivity).
  destruct E as [t ->]. rewrite <- app_comm_cons. now eexists.
Qed.

(** A label is empty or starts with [<]. *)
Lemma label_of_head cwd label :
  label_of cwd = Ok label ->
  (truthy cwd = false /\ label = []) \/ (exists t, label = 60%N :: t).
Proof.
  unfold label_of. destruct (truthy cwd); [|left; split; congruence].
  destruct cwd as [| | | c | |]; try discriminate.
  generalize (basename (rstrip_slash c)). intros name.
  destruct (truthy (JStr name)); intros H; right; injection H as <-.
  - apply project_label_head.
  - apply path_label_head.
Qed.

Lemma warning_text_shape : exists t, warning_text = 42%N :: t ++ [24577%N].
Proof. exists (removelast (tl warning_text)). vm_compute. reflexivity. Qed.

Lemma continuation_marker_shape : exists t, continuation_marker = t ++ [42%N].
Proof.
  exists (removelast continuation_marker). vm_compute. reflexivity.
Qed.

(** A content that starts with a character that is kept and ends with the
    marker is left as it is by [strip]. *)
Lemma strip_keeps c t : isspace c = false ->
  strip (c :: t ++ continuation_marker) = c :: t ++ continuation_marker.
Proof.
  intros Hc. destruct continuation_marker_shape as [m ->].
  rewrite app_assoc. now apply strip_fixed.
Qed.

Lemma message_part_long sid tp msg :
  (1000 < List.length msg)%nat ->
  message_part sid tp (JStr msg) = Ok (Str.take 1000 msg ++ continuation_marker).
Proof.
  intros H. unfold message_part.
  destruct msg as [|c msg]; [inversion H|].
  cbv beta iota delta [truthy].
  now rewrite (proj2 (Nat.ltb_lt _ _) H).
Qed.

(** With the warning line in it, the body keeps the label and the warning
    text at its head, whatever [strip] removes at the end. *)
Lemma strip_after_warning label part :
  label = [] \/ (exists t, label = 60%N :: t) ->
  exists rest, strip (label ++ warning_line ++ part) = label ++ warning_text ++ rest.
Proof.
  intros Hlabel. destruct warning_text_shape as [wt Hw].
  exists (rstrip_by isspace (nl ++ nl ++ part)).
  assert (E : label ++ warning_line ++ part
              = (label ++ 42%N :: wt) ++ 24577%N :: (nl ++ nl ++ part)).
  { unfold warning_line. rewrite Hw.
    repeat (rewrite <- app_assoc || rewrite <- app_comm_cons). reflexivity. }
  rewrite E. unfold strip.
  assert (Hl : lstrip_by isspace ((label ++ 42%N :: wt) ++ 24577%N :: (nl ++ nl ++ part))
               = (label ++ 42%N :: wt) ++ 24577%N :: (nl ++ nl ++ part)).
  { destruct Hlabel as [->|[t ->]]; apply lstrip_by_head; reflexivity. }
  rewrite Hl, rstrip_by_app_stop by reflexivity.
  rewrite Hw. repeat (rewrite <- app_assoc || rewrite <- app_comm_cons). reflexivity.
Qed.

(** Setting the flag of an event changes neither whether the card is built
    nor its title and theme. *)
Lemma format_with_flag w fields p v :
  format_stop_message w (JObj fields) = Ok p ->
  exists p',
    format_stop_message w (with_flag v (JObj fields)) = Ok p' /\
    title_of p' = title_of p /\ template_of p' = template_of p.
Proof.
  intros Hf.
  destruct (format_stop_message_inv _ _ Hf) as (lm & cwd & b & content & He & Hb & Hc & ->).
  destruct (compose_inv _ _ _ _ _ Hc) as (label & part & Hl & Hp & ->).
  unfold stop_extract, get in He. cbn [rbind] in He.
  unfold format_stop_message, with_flag, get. cbn [rbind].
  change (dict_get (u "session_id") ((u "stop_hook_active", v) :: fields))
    with (dict_get (u "session_id") fields).
  change (dict_get (u "transcript_path") ((u "stop_hook_active", v) :: fields))
    with (dict_get (u "transcript_path") fields).
  rewrite He. cbn [rbind]. rewrite Hb. cbn [rbind].
  unfold compose. rewrite Hp. cbn [rbind]. rewrite Hl. cbn [rbind].
  exists (card (if b then title_failed else title_completed)
            (if b then u "red" else u "green")
            (strip (label ++ (if truthy v then warning_line else []) ++ part))).
  rewrite !title_of_card, !template_of_card.
  split; [destruct b; reflexivity | split; reflexivity].
Qed.

End CardFacts.

(** ** Delivery and [main] *)

Module MainFacts.
Import Py Reader Card Eff Notifier Log Hook ReaderFacts CardFacts.
Local Open Scope eff_scope.

Lemma eqb_eq a b : Str.eqb a b = true -> a = b.
Proof.
  revert b. induction a as [|x a IH]; intros [|y b]; simpl; try congruence.
  intros H. apply andb_true_iff in H as [H1 H2].
  apply N.eqb_eq in H1. f_equal; auto.
Qed.

Lemma eq_str_eq v t : eq_str v t = true -> v = JStr t.
Proof. destruct v; simpl; try congruence. intros H. f_equal. now apply eqb_eq. Qed.

Lemma bind_lift_ok {A B} (a : A) (k : A -> M B) : bind (lift (Ok a)) k = k a.
Proof. unfold bind, lift. destruct (k a). reflexivity. Qed.

Lemma bind_lift_raise {A B} e (k : A -> M B) : bind (lift (Raise e)) k = (Raise e, []).
Proof. reflexivity. Qed.

Lemma bind_emit {B} e (k : unit -> M B) : bind (emit e) k = (fst (k tt), e :: snd (k tt)).
Proof. unfold bind, emit. destruct (k tt). reflexivity. Qed.

Lemma bind_value {A B} (m : M A) (k : A -> M B) a t :
  m = (Ok a, t) -> bind m k = (fst (k a), t ++ snd (k a)).
Proof. intros ->. unfold bind. destruct (k a). reflexivity. Qed.

(** The push function never raises, and all it does after being entered is
    at most one GET. *)
Lemma send_ios_total w title message :
  exists gets,
    send_ios_push_notification w title message = (Ok tt, PushCall title message :: gets) /\
    one_get w title message gets.
Proof.
  unfold send_ios_push_notification, one_get. rewrite bind_emit.
  destruct (negb (truthy (IOS_PUSH_ENABLED w)) || negb (truthy (IOS_PUSH_URL w))).
  { exists []. split; [reflexivity | now left]. }
  unfold push_body.
  destruct (IOS_PUSH_URL w) as [| | | url | |];
    try (exists []; split; [reflexivity | now left]).
  set (base := if startswith (u "http") url then _ else _).
  assert (Hb : exists b, base = Ok b).
  { subst base. destruct (startswith _ _); eexists; reflexivity. }
  destruct Hb as [b ->]. rewrite bind_lift_ok, bind_emit.
  destruct (push_net w) as [why | status text json].
  { eexists [_]. split; [reflexivity | right; eexists; reflexivity]. }
  destruct (negb (status =? 200)%Z).
  { eexists [_]. split; [reflexivity | right; eexists; reflexivity]. }
  destruct json as [result|].
  - rewrite bind_lift_ok.
    destruct result; eexists [_]; (split; [reflexivity | right; eexists; reflexivity]).
  - eexists [_]. split; [reflexivity | right; eexists; reflexivity].
Qed.

Lemma one_get_push_gets w title message gets :
  one_get w title message gets -> forallb is_push_get gets = true.
Proof. intros [->|[b ->]]; reflexivity. Qed.

(** The webhook function never raises, and all it does is at most one
    POST, of the card it was given. *)
Lemma send_to_feishu_total w message :
  exists delivered posts,
    send_to_feishu w message = (Ok delivered, posts) /\
    (posts = [] \/ exists url, posts = [HookPost url message]).
Proof.
  unfold send_to_feishu.
  destruct (negb (truthy (WEBHOOK_URL w))).
  { exists false, []. split; [reflexivity | now left]. }
  destruct (WEBHOOK_URL w) as [| | | url | |];
    try (exists false, []; split; [reflexivity | now left]).
  rewrite bind_emit.
  destruct (hook_net w) as [why | status].
  { exists false, [HookPost url message]. split; [reflexivity | right; now eexists]. }
  destruct ((400 <=? status) && (status <? 600))%Z.
  - exists false, [HookPost url message]. split; [reflexivity | right; now eexists].
  - exists true, [HookPost url message]. split; [reflexivity | right; now eexists].
Qed.

(** With a webhook address configured, the POST is made. *)
Lemma send_to_feishu_posts w message url :
  WEBHOOK_URL w = JStr url -> url <> [] ->
  snd (send_to_feishu w message) = [HookPost url message].
Proof.
  intros Hu Hne. unfold send_to_feishu. rewrite Hu.
  destruct url as [|c url]; [now elim Hne|]. cbn [truthy negb].
  rewrite bind_emit.
  destruct (hook_net w) as [why | status]; [reflexivity|].
  destruct ((400 <=? status) && (status <? 600))%Z; reflexivity.
Qed.

Lemma hook_posts_only posts message :
  posts = [] \/ (exists url, posts = [HookPost url message]) ->
  filter is_hook_post posts = posts /\ filter is_push_call posts = [].
Proof. intros [->|[url ->]]; split; reflexivity. Qed.

Lemma push_gets_only gets :
  forallb is_push_get gets = true ->
  filter is_hook_post gets = [] /\ filter is_push_call gets = [] /\
  flat_map (fun e => match e with Printed obj => [obj] | _ => [] end) gets = [].
Proof.
  induction gets as [|e gets IH]; [intros; repeat split|].
  simpl. intros H. apply andb_true_iff in H as [He H].
  destruct e; try discriminate. simpl. now apply IH.
Qed.

(** Neither the webhook nor the card depends on the push configuration. *)
Lemma send_to_feishu_with_push w enabled url now net message :
  send_to_feishu (with_push w enabled url now net) message = send_to_feishu w message.
Proof. reflexivity. Qed.

Lemma format_with_push w enabled url now net data :
  format_stop_message (with_push w enabled url now net) data = format_stop_message w data.
Proof. reflexivity. Qed.

Lemma stop_extract_with_push w enabled url now net data :
  stop_extract (with_push w enabled url now net) data = stop_extract w data.
Proof. reflexivity. Qed.

Lemma no_exit_resolve data : no_exit (resolve_event_type data).
Proof.
  unfold resolve_event_type.
  apply no_exit_bind; [apply no_exit_get|]. intros et.
  destruct (eq_str et _); [|exact I].
  apply no_exit_bind; [apply no_exit_in|]. intros [|]; [exact I|].
  apply no_exit_bind; [apply no_exit_in|]. intros b1.
  apply no_exit_bind; [apply no_exit_in|]. intros b2.
  destruct (b1 || b2); exact I.
Qed.

(** Once the card is built, the iOS part of the Stop branch hands one title
    and one message to the push function and does not raise. *)
Lemma push_stop_ok w fields p :
  format_stop_message w (JObj fields) = Ok p ->
  exists message gets,
    push_stop w (JObj fields) = (Ok tt, PushCall push_title message :: gets) /\
    one_get w push_title message gets /\
    (message = JStr session_ended \/
     exists text cwd,
       stop_extract w (JObj fields) = Ok (text, cwd) /\
       truthy text = true /\ slice_to 100 text = Ok message).
Proof.
  intros Hf.
  destruct (format_stop_message_inv _ _ Hf) as (lm & cwd & b & content & He & Hb & _ & _).
  pose proof He as He'.
  unfold stop_extract, get in He'. cbn [rbind] in He'.
  unfold push_stop, get. rewrite bind_lift_ok.
  destruct (truthy (dict_get (u "transcript_path") fields empty)).
  - rewrite He', bind_lift_ok.
    destruct (truthy lm) eqn:Hlm.
    + unfold is_error_of in Hb. rewrite Hlm in Hb.
      destruct lm as [| | | msg | |]; try discriminate.
      unfold slice_to. rewrite bind_lift_ok.
      destruct (send_ios_total w push_title (JStr (Str.take 100 msg))) as [gets [H1 H2]].
      exists (JStr (Str.take 100 msg)), gets. repeat split; try assumption.
      right. exists (JStr msg), cwd. repeat split; assumption.
    + destruct (send_ios_total w push_title (JStr session_ended)) as [gets [H1 H2]].
      exists (JStr session_ended), gets. repeat split; try assumption. now left.
  - destruct (send_ios_total w push_title (JStr session_ended)) as [gets [H1 H2]].
    exists (JStr session_ended), gets. repeat split; try assumption. now left.
Qed.

(** *** The runs of [main] *)

Lemma main_stdin_bad w why :
  stdin w = StdinBad why ->
  main w = (Raise (SystemExit 1), [Printed (failure_result why)]).
Proof. intros H. unfold main, main_body, json_load. rewrite H. reflexivity. Qed.

Lemma main_resolve_fails w data c msg :
  stdin w = StdinJson data ->
  resolve_event_type data = Raise (Exception c msg) ->
  main w = (Raise (SystemExit 1), [Printed (failure_result msg)]).
Proof.
  intros H1 H2. unfold main, main_body, json_load. rewrite H1.
  change (ret data) with (lift (Ok data)). rewrite bind_lift_ok, H2. reflexivity.
Qed.

Lemma main_ignored w data event_type :
  stdin w = StdinJson data ->
  resolve_event_type data = Ok event_type ->
  eq_str event_type (u "Stop") = false ->
  main w = (Raise (SystemExit 0), [Printed (ignored_result event_type)]).
Proof.
  intros H1 H2 H3. unfold main, main_body, json_load. rewrite H1.
  change (ret data) with (lift (Ok data)). rewrite bind_lift_ok, H2, bind_lift_ok, H3.
  reflexivity.
Qed.

Lemma main_format_fails w data c msg :
  stdin w = StdinJson data ->
  resolve_event_type data = Ok (JStr (u "Stop")) ->
  format_stop_message w data = Raise (Exception c msg) ->
  main w = (Raise (SystemExit 1), [Printed (failure_result msg)]).
Proof.
  intros H1 H2 H3. unfold main, main_body, json_load. rewrite H1.
  change (ret data) with (lift (Ok data)). rewrite bind_lift_ok, H2, bind_lift_ok.
  change (eq_str (JStr (u "Stop")) (u "Stop")) with true. cbv iota.
  rewrite H3. reflexivity.
Qed.

Lemma main_stop w data p message gets delivered posts :
  stdin w = StdinJson data ->
  resolve_event_type data = Ok (JStr (u "Stop")) ->
  format_stop_message w data = Ok p ->
  push_stop w data = (Ok tt, PushCall push_title message :: gets) ->
  send_to_feishu w p = (Ok delivered, posts) ->
  main w =
  (Raise (SystemExit (if delivered then 0 else 1)),
   (PushCall push_title message :: gets) ++ posts ++
   [Printed (if delivered then success_result else failure_result feishu_failed)]).
Proof.
  intros H1 H2 H3 H4 H5. unfold main, main_body, json_load. rewrite H1.
  change (ret data) with (lift (Ok data)). rewrite bind_lift_ok, H2, bind_lift_ok.
  change (eq_str (JStr (u "Stop")) (u "Stop")) with true. cbv iota.
  rewrite H3, bind_lift_ok.
  rewrite (bind_value _ H4), (bind_value _ H5).
  destruct delivered; reflexivity.
Qed.

(** Every run of [main] either prints one result and does nothing else, or
    is a Stop run that reached the deliveries. *)
Lemma main_cases w :
  (exists code obj, main w = (Raise (SystemExit code), [Printed obj])) \/
  (exists fields p message gets delivered posts,
     stdin w = StdinJson (JObj fields) /\
     resolve_event_type (JObj fields) = Ok (JStr (u "Stop")) /\
     format_stop_message w (JObj fields) = Ok p /\
     push_stop w (JObj fields) = (Ok tt, PushCall push_title message :: gets) /\
     one_get w push_title message gets /\
     (message = JStr session_ended \/
      exists text cwd,
        stop_extract w (JObj fields) = Ok (text, cwd) /\
        truthy text = true /\ slice_to 100 text = Ok message) /\
     send_to_feishu w p = (Ok delivered, posts) /\
     (posts = [] \/ exists url, posts = [HookPost url p]) /\
     main w =
     (Raise (SystemExit (if delivered then 0 else 1)),
      (PushCall push_title message :: gets) ++ posts ++
      [Printed (if delivered then success_result else failure_result feishu_failed)])).
Proof.
  destruct (stdin w) as [data|why] eqn:Hs.
  2:{ left. do 2 eexists. eapply main_stdin_bad; eassumption. }
  pose proof (no_exit_resolve data) as Hx.
  destruct (resolve_event_type data) as [et|[c msg|code]] eqn:Hr; [| |destruct Hx].
  2:{ left. do 2 eexists. eapply main_resolve_fails; eassumption. }
  destruct (eq_str et (u "Stop")) eqn:Het.
  2:{ left. do 2 eexists. eapply main_ignored; eassumption. }
  apply eq_str_eq in Het. subst et.
  pose proof (no_exit_format w data) as Hx'.
  destruct (format_stop_message w data) as [p|[c msg|code]] eqn:Hf; [| |destruct Hx'].
  2:{ left. do 2 eexists. eapply main_format_fails; eassumption. }
  destruct (format_stop_message_dict _ _ Hf) as [fields ->].
  destruct (push_stop_ok _ _ Hf) as (message & gets & Hp & Hg & Hm).
  destruct (send_to_feishu_total w p) as (delivered & posts & Hd & Hposts).
  right. exists fields, p, message, gets, delivered, posts.
  repeat (split; [first [assumption | reflexivity]|]).
  eapply main_stop; eassumption.
Qed.

End MainFacts.

(** ** The reader against its specification *)

Module ReaderSpec.
Import Py Reader Log ReaderFacts Samples.
Local Open Scope res_scope.

(** C9.  For every log path the reader is total and never raises to its
    caller; when the path names no existing file, or opening or reading the
    file fails, it returns the pair of empty strings. *)
Theorem extract_total_with_fallback (w : world) (transcript_path : pyval) :
  (exists text cwd,
     extract_last_message_from_jsonl w transcript_path = Ok (text, cwd)) /\
  (forall path,
     transcript_path = JStr path ->
     unavailable (files w path) = true ->
     extract_last_message_from_jsonl w transcript_path = Ok (empty, empty)).
Proof.
  split; [apply extract_never_raises|].
  intros path -> H.
  unfold extract_last_message_from_jsonl, extract_body.
  destruct (files w path) as [| why | lines [why|]]; try discriminate; try reflexivity.
  pose proof (no_exit_scan_lines lines (empty, empty)) as Hx.
  destruct (scan_lines lines (empty, empty)) as [acc|[c msg|code]];
    [reflexivity | reflexivity | destruct Hx].
Qed.

Lemma extract_total_with_fallback_witness :
  extract_last_message_from_jsonl (world_of stop_event log_read_error) (s "/t.jsonl")
  = Ok (empty, empty).
Proof.
  apply (proj2 (extract_total_with_fallback (world_of stop_event log_read_error)
                  (s "/t.jsonl")) (u "/t.jsonl") eq_refl).
  reflexivity.
Defined.

(** C3, as the code has it.  The lines the reader skips are the lines on
    which [json.loads] raises [JSONDecodeError]: on every log the result is
    the result on the log without them, and such a line neither stops the
    scan of the lines after it nor loses what the lines before it have
    accumulated.  When all the other lines are blank lines and JSON objects,
    the result is the last qualifying text and the last working directory
    of all the objects, which is what the scan of the objects alone gives.
    When some line is JSON but no object, or makes [json.loads] raise
    another exception, the reader gives up and returns the pair of empty
    strings. *)
Theorem malformed_lines_are_skipped (w : world) (path : pystr) (lines : list logline) :
  files w path = Opened lines None ->
  (forall w',
     files w' path = Opened (filter decodes lines) None ->
     extract_last_message_from_jsonl w (JStr path)
     = extract_last_message_from_jsonl w' (JStr path)) /\
  (forall before why after acc,
     lines = before ++ Malformed why :: after ->
     scan_lines lines acc = (acc' <- scan_lines before acc ;; scan_lines after acc')) /\
  (forallb tolerable lines = true ->
   scan_lines (filter is_record lines) (empty, empty)
   = Ok (last (map item_text (filter qualifies (all_items lines))) empty,
         last (all_cwds lines) empty) /\
   extract_last_message_from_jsonl w (JStr path)
   = Ok (last (map item_text (filter qualifies (all_items lines))) empty,
         last (all_cwds lines) empty)) /\
  (forallb tolerable lines = false ->
   extract_last_message_from_jsonl w (JStr path) = Ok (empty, empty)).
Proof.
  intros Hf. split; [|split; [|split]].
  - intros w' Hf'.
    rewrite (extract_opened _ _ Hf), (extract_opened _ _ Hf').
    now rewrite scan_lines_decodes.
  - intros before why after acc ->. rewrite scan_lines_app.
    destruct (scan_lines before acc); reflexivity.
  - intros Ht. split.
    + rewrite scan_lines_tolerable by apply tolerable_filter.
      unfold all_items, all_cwds. rewrite records_filter. reflexivity.
    + rewrite (extract_opened _ _ Hf), scan_lines_tolerable by exact Ht. reflexivity.
  - intros Ht. rewrite (extract_opened _ _ Hf).
    destruct (scan_lines_intolerable lines (empty, empty) Ht) as (c & msg & ->).
    reflexivity.
Qed.

Lemma malformed_lines_are_skipped_witness :
  extract_last_message_from_jsonl (world_of stop_event log_with_garbage) (s "/t.jsonl")
  = Ok (s "second", s "/home/u/proj/").
Proof.
  destruct (malformed_lines_are_skipped (world_of stop_event log_with_garbage)
              (u "/t.jsonl") (lines := lines_with_garbage) eq_refl)
    as (_ & _ & H & _).
  destruct (H eq_refl) as [_ H2].
  etransitivity; [exact H2|]. vm_compute. reflexivity.
Defined.

(** C3, as stated, fails: a line that does not parse as a record is not
    always skipped.  After two records, a line that holds the number 42, or
    an integer too long for [json.loads], makes the reader return the pair
    of empty strings; the text and the working directory already found are
    lost and the record after the line is not read, where the valid lines
    alone give ["second"] and ["/p"]. *)
Lemma corrupt_line_discards_results :
  extract_last_message_from_jsonl
    (world_of stop_event (Opened lines_with_number None)) (s "/t.jsonl")
  = Ok (empty, empty) /\
  extract_last_message_from_jsonl
    (world_of stop_event (Opened lines_with_long_integer None)) (s "/t.jsonl")
  = Ok (empty, empty) /\
  extract_last_message_from_jsonl
    (world_of stop_event (Opened (filter is_record lines_with_number) None)) (s "/t.jsonl")
  = Ok (s "second", s "/p") /\
  filter is_record lines_with_long_integer = filter is_record lines_with_number.
Proof.
  split; [vm_compute; reflexivity|]. split; [vm_compute; reflexivity|].
  split; vm_compute; reflexivity.
Qed.

(** C4.  In a valid log the reader returns the text of the last qualifying
    item, lines taken in file order and items in sequence order, whatever
    the earlier items hold; an item with an empty text leaves the
    accumulator alone. *)
Theorem last_text_item_wins (w : world) (path : pystr) (lines : list logline) :
  files w path = Opened lines None ->
  forallb well_formed lines = true ->
  exists text cwd,
    extract_last_message_from_jsonl w (JStr path) = Ok (text, cwd) /\
    text = last (map item_text (filter qualifies (all_items lines))) empty /\
    (forall before it after,
       all_items lines = before ++ it :: after ->
       qualifies it = true ->
       filter qualifies after = [] ->
       text = item_text it).
Proof.
  intros Hf Hv. do 2 eexists. split; [|split].
  - rewrite (extract_opened _ _ Hf).
    rewrite scan_lines_tolerable by now apply well_formed_tolerable.
    reflexivity.
  - reflexivity.
  - intros before it after E Hq Hn.
    rewrite E, filter_app. simpl filter. rewrite Hq, Hn, map_app, last_app_default.
    reflexivity.
Qed.

Lemma last_text_item_wins_witness :
  exists cwd,
    extract_last_message_from_jsonl (world_of stop_event log_api_error) (s "/t.jsonl")
    = Ok (s "API Error: boom", cwd).
Proof.
  destruct (last_text_item_wins (world_of stop_event log_api_error) (u "/t.jsonl")
              (lines := [text_line (s "first"); text_line (s "API Error: boom")])
              eq_refl eq_refl)
    as [text [cwd [H1 [H2 _]]]].
  exists cwd. etransitivity; [exact H1|]. rewrite H2. reflexivity.
Defined.

(** C2, as the code has it.  In a log whose lines are all JSON objects the
    returned working directory is the value of the last line in which one of
    the recognized fields is present, read from the first present among
    [cwd], [workspace], [workingDirectory] and [message.cwd]; the value is
    taken as it is, empty or not, and only a line with none of these fields
    leaves the accumulator alone. *)
Theorem last_present_cwd_wins (w : world) (path : pystr) (lines : list logline) :
  files w path = Opened lines None ->
  forallb well_formed lines = true ->
  exists text,
    extract_last_message_from_jsonl w (JStr path) = Ok (text, last (all_cwds lines) empty).
Proof.
  intros Hf Hv. eexists.
  rewrite (extract_opened _ _ Hf).
  rewrite scan_lines_tolerable by now apply well_formed_tolerable.
  reflexivity.
Qed.

Lemma last_present_cwd_wins_witness :
  exists text,
    extract_last_message_from_jsonl (world_of stop_event log_project) (s "/t.jsonl")
    = Ok (text, s "/home/u/proj").
Proof.
  destruct (last_present_cwd_wins (world_of stop_event log_project) (u "/t.jsonl")
              (lines := [cwd_line (s "/home/u/proj"); text_line (s "done")])
              eq_refl eq_refl)
    as [text H].
  exists text. exact H.
Defined.

(** C2, as stated, fails: after a line with [cwd] ["/a"], a line whose [cwd]
    is the empty string resets the working directory, where the
    specification keeps ["/a"]. *)
Lemma empty_cwd_overwrites :
  extract_last_message_from_jsonl (world_of stop_event log_cwd_then_empty) (s "/t.jsonl")
  = Ok (empty, JStr []) /\
  spec_working_directory lines_cwd_then_empty = s "/a".
Proof. split; reflexivity. Qed.

(** A line that is JSON but no object (here the number 42) is not skipped:
    the reader raises inside its outer [try] and falls back to the pair of
    empty strings. *)
Example non_object_line_falls_back :
  extract_last_message_from_jsonl
    (world_of stop_event (Opened [text_line (s "first"); Parsed (JNum 42)] None))
    (s "/t.jsonl")
  = Ok (empty, empty).
Proof. vm_compute. reflexivity. Qed.

End ReaderSpec.

(** ** The card against its specification *)

Module CardSpec.
Import Py Reader Card Log Hook ReaderFacts CardFacts Samples.
Local Open Scope res_scope.

(** C1.  The message ["API Error: boom"] holds the configured keyword, and
    its lowercase form holds the lowercase form of the keyword; the code
    compares the lowercased message with the keyword as written, capitals
    included, and leaves [is_error] false. *)
Theorem is_error_misses_api_error :
  is_error_of (s "API Error: boom") = Ok false /\
  existsb (fun kw => contains (lower kw) (lower (u "API Error: boom"))) error_keywords = true /\
  is_error_of empty = Ok false.
Proof.
  split; [vm_compute; reflexivity|].
  split; vm_compute; reflexivity.
Qed.

(** The same defect on every message: no string sets the flag. *)
Lemma is_error_always_false msg : is_error_of (JStr msg) = Ok false.
Proof.
  destruct (is_error_of (JStr msg)) as [b|e] eqn:E.
  - now rewrite (is_error_never_true _ E).
  - unfold is_error_of in E. destruct (truthy (JStr msg)); discriminate.
Qed.

(** Scenario A of the specification ends with the green card. *)
Example scenario_a_is_green :
  (p <- format_stop_message (world_of stop_event log_api_error) stop_event ;;
   Ok (title_of p, template_of p, body_of p))
  = Ok (Some (JStr title_completed), Some (s "green"), Some (s "API Error: boom")).
Proof. vm_compute. reflexivity. Qed.

(** C5, as the code has it.  For an extracted message of more than 1000
    characters the content is the project label, the warning line, the first
    1000 characters of the message and the continuation marker, and the body
    is that content stripped; the portion has length 1000 and is a prefix of
    the message.  The body holds the portion whole when a label or a
    warning line stands before it or when the message does not start with a
    blank. *)
Theorem long_message_is_truncated (w : world) (fields : dict) (p : pyval)
    (msg : pystr) (cwd : pyval) :
  format_stop_message w (JObj fields) = Ok p ->
  stop_extract w (JObj fields) = Ok (JStr msg, cwd) ->
  (1000 < List.length msg)%nat ->
  exists label,
    label_of cwd = Ok label /\
    let warning :=
      if truthy (dict_get (u "stop_hook_active") fields (JBool false))
      then warning_line else [] in
    let portion := Str.take 1000 msg in
    body_of p = Some (JStr (strip (label ++ warning ++ portion ++ continuation_marker))) /\
    List.length portion = 1000%nat /\
    (exists rest, msg = portion ++ rest) /\
    (label ++ warning <> [] \/ (exists c rest, msg = c :: rest /\ isspace c = false) ->
     body_of p = Some (JStr (label ++ warning ++ portion ++ continuation_marker))).
Proof.
  intros Hf He Hlen.
  destruct (format_stop_message_inv _ _ Hf) as (lm & cwd' & b & content & He' & _ & Hc & ->).
  rewrite He in He'. injection He' as <- <-.
  destruct (compose_inv _ _ _ _ _ Hc) as (label & part & Hl & Hp & ->).
  rewrite (@message_part_long _ _ _ Hlen) in Hp.
  assert (H1 : List.length (Str.take 1000 msg) = 1000%nat).
  { unfold Str.take. apply firstn_length_le. lia. }
  assert (H2 : exists rest, msg = Str.take 1000 msg ++ rest).
  { exists (skipn 1000 msg). unfold Str.take. symmetry. apply firstn_skipn. }
  assert (H3 : forall c rest, msg = c :: rest -> exists t, Str.take 1000 msg = c :: t).
  { intros c rest ->. exists (firstn 999 rest). reflexivity. }
  clear Hf Hc He Hlen.
  revert Hp H1 H2 H3. generalize (Str.take 1000 msg). intros portion Hp H1 H2 H3.
  injection Hp as <-.
  exists label. split; [exact Hl|]. cbv zeta. rewrite body_of_card.
  assert (Hkeep : forall warning,
             warning = warning_line \/ warning = [] ->
             label ++ warning <> [] \/
               (exists c rest, msg = c :: rest /\ isspace c = false) ->
             strip (label ++ warning ++ portion ++ continuation_marker)
             = label ++ warning ++ portion ++ continuation_marker).
  { intros warning Hwarn H.
    assert (Hhead : exists c t, label ++ warning ++ portion = c :: t /\ isspace c = false).
    { destruct (label_of_head _ Hl) as [[_ ->]|[t ->]].
      - rewrite app_nil_l in *. destruct Hwarn as [-> | ->].
        + destruct warning_text_shape as [t Ht]. unfold warning_line. rewrite Ht.
          repeat (rewrite <- app_assoc || rewrite <- app_comm_cons).
          eexists _, _. split; reflexivity.
        + rewrite app_nil_l. destruct H as [H|(c & rest & E & Hc')]; [now elim H|].
          destruct (H3 _ _ E) as [t ->]. exists c, t. split; [reflexivity | exact Hc'].
      - rewrite <- app_comm_cons. eexists _, _. split; reflexivity. }
    destruct Hhead as (c & t & E & Hc').
    replace (label ++ warning ++ portion ++ continuation_marker)
      with ((label ++ warning ++ portion) ++ continuation_marker)
      by (now rewrite <- !app_assoc).
    rewrite E. now apply strip_keeps. }
  destruct (truthy (dict_get (u "stop_hook_active") fields (JBool false))); cbv iota;
    (split; [reflexivity|]; split; [exact H1|]; split; [exact H2|];
     intros H; do 2 f_equal; apply Hkeep; [auto | exact H]).
Qed.

Lemma long_message_is_truncated_witness :
  exists p,
    format_stop_message (world_of stop_event log_long) stop_event = Ok p /\
    List.length (Str.take 1000 long_message) = 1000%nat /\
    exists rest, long_message = Str.take 1000 long_message ++ rest.
Proof.
  assert (Hf : exists p, format_stop_message (world_of stop_event log_long) stop_event = Ok p).
  { eexists. vm_compute. reflexivity. }
  destruct Hf as [p Hf]. exists p. split; [exact Hf|].
  assert (He : stop_extract (world_of stop_event log_long) (JObj stop_fields)
               = Ok (JStr long_message, empty)) by (vm_compute; reflexivity).
  assert (Hlen : (1000 < List.length long_message)%nat) by (vm_compute; lia).
  destruct (@long_message_is_truncated _ stop_fields p long_message empty Hf He Hlen)
    as (label & _ & _ & H1 & H2 & _).
  split; [exact H1 | exact H2].
Defined.

(** C5, as stated, fails: a message of 1001 characters that starts with a
    blank, in an event without warning and without working directory, leaves
    999 characters before the marker in the body, which is too short to hold
    a portion of 1000 characters in front of the marker. *)
Lemma leading_blank_is_trimmed :
  stop_extract (world_of stop_event log_long_blank) stop_event
    = Ok (JStr long_blank_message, empty) /\
  List.length long_blank_message = 1001%nat /\
  (p <- format_stop_message (world_of stop_event log_long_blank) stop_event ;; Ok (body_of p))
    = Ok (Some (JStr (repeat 97%N 999 ++ continuation_marker))) /\
  ~ (exists before portion,
       repeat 97%N 999 ++ continuation_marker = before ++ portion ++ continuation_marker /\
       List.length portion = 1000%nat).
Proof.
  split; [vm_compute; reflexivity|].
  split; [vm_compute; reflexivity|].
  split; [vm_compute; reflexivity|].
  intros (before & portion & E & L).
  apply (f_equal (@List.length N)) in E.
  rewrite !length_app, repeat_length, L in E. lia.
Qed.

(** C6, as the code has it.  The title and the theme of the card follow the
    error flag alone (failure title and red when it is set, completion title
    and green when it is not) and stay the same when the warning flag of the
    event is changed.  The warning flag only puts the warning line in front
    of the message part; the project label, when a working directory was
    read, stands before the warning line, so the body begins with the
    warning line only when there is no label. *)
Theorem title_follows_classification (w : world) (fields : dict) (p : pyval) :
  format_stop_message w (JObj fields) = Ok p ->
  exists last_message cwd is_error label part,
    stop_extract w (JObj fields) = Ok (last_message, cwd) /\
    is_error_of last_message = Ok is_error /\
    title_of p = Some (JStr (if is_error then title_failed else title_completed)) /\
    template_of p = Some (JStr (if is_error then u "red" else u "green")) /\
    (forall v, exists p',
        format_stop_message w (with_flag v (JObj fields)) = Ok p' /\
        title_of p' = title_of p /\ template_of p' = template_of p) /\
    label_of cwd = Ok label /\
    message_part (dict_get (u "session_id") fields (JStr (u "Unknown Session")))
                 (dict_get (u "transcript_path") fields empty) last_message = Ok part /\
    let flag := dict_get (u "stop_hook_active") fields (JBool false) in
    body_of p = Some (JStr (strip (label ++ (if truthy flag then warning_line else []) ++ part))) /\
    (truthy flag = true ->
     exists rest, body_of p = Some (JStr (label ++ warning_text ++ rest))) /\
    (truthy cwd = false -> label = []).
Proof.
  intros Hf.
  pose proof (fun v => @format_with_flag w fields p v Hf) as Hflag.
  destruct (format_stop_message_inv _ _ Hf) as (lm & cwd & b & content & He & Hb & Hc & ->).
  destruct (compose_inv _ _ _ _ _ Hc) as (label & part & Hl & Hp & ->).
  exists lm, cwd, b, label, part.
  repeat (split; [first [assumption | reflexivity]|]).
  split.
  - intros Ht. rewrite body_of_card, Ht.
    destruct (@strip_after_warning label part) as [rest Hr].
    { destruct (label_of_head _ Hl) as [[_ ->]|H]; [now left | now right]. }
    exists rest. now rewrite Hr.
  - intros Hcwd. destruct (label_of_head _ Hl) as [[_ ->]|[t ->]]; [reflexivity|].
    unfold label_of in Hl. rewrite Hcwd in Hl. discriminate.
Qed.

(** Scenario B: no log path, warning flag set. *)
Lemma title_follows_classification_witness :
  exists p rest,
    format_stop_message (world_of stop_event_no_log Missing) stop_event_no_log = Ok p /\
    title_of p = Some (JStr title_completed) /\
    body_of p = Some (JStr (warning_text ++ rest)).
Proof.
  assert (Hf : exists p,
             format_stop_message (world_of stop_event_no_log Missing) stop_event_no_log = Ok p).
  { eexists. vm_compute. reflexivity. }
  destruct Hf as [p Hf].
  destruct (@title_follows_classification (world_of stop_event_no_log Missing) no_log_fields p Hf)
    as (lm & cwd & b & label & part & He & Hb & Ht & _ & _ & Hl & _ & _ & Hw & Hn).
  injection He as <- <-.
  rewrite (is_error_never_true _ Hb) in Ht.
  destruct (Hw eq_refl) as [rest Hr]. rewrite (Hn eq_refl) in Hr.
  rewrite app_nil_l in Hr.
  exists p, rest. split; [exact Hf|]. split; [exact Ht | exact Hr].
Defined.

(** C6, as stated, fails in its last part: with the warning flag set and a
    working directory in the log, the body begins with the project label
    and the warning line comes second. *)
Lemma label_precedes_warning :
  truthy (dict_get (u "stop_hook_active") active_fields (JBool false)) = true /\
  (p <- format_stop_message (world_of stop_event_active log_project) stop_event_active ;;
   Ok (title_of p, body_of p))
  = Ok (Some (JStr title_completed),
        Some (JStr (project_label (u "proj") ++ warning_line ++ u "done"))) /\
  startswith warning_text (project_label (u "proj") ++ warning_line ++ u "done") = false.
Proof.
  split; [vm_compute; reflexivity|].
  split; vm_compute; reflexivity.
Qed.

End CardSpec.

(** ** [main] against its specification *)

Module MainSpec.
Import Py Reader Card Eff Notifier Log Hook Obs ReaderFacts CardFacts MainFacts Samples.

(** What a Stop run that reached the deliveries leaves behind. *)
Lemma stop_run_observables w code title message gets posts p result :
  main w = (Raise (SystemExit code), (PushCall title message :: gets) ++ posts ++ [Printed result]) ->
  forallb is_push_get gets = true ->
  posts = [] \/ (exists url, posts = [HookPost url p]) ->
  stdout w = [result] /\ exit_code w = code /\ hook_posts w = posts /\
  push_calls w = [PushCall title message].
Proof.
  intros Hm Hg Hp.
  destruct (push_gets_only _ Hg) as (G1 & G2 & G3).
  destruct (hook_posts_only Hp) as (P1 & P2).
  unfold stdout, exit_code, hook_posts, push_calls, trace. rewrite Hm.
  cbn [fst snd]. rewrite !filter_app, !flat_map_app.
  cbn [filter flat_map is_hook_post is_push_call app].
  rewrite G1, G2, G3, P1, P2.
  destruct Hp as [->|[url ->]]; repeat split; reflexivity.
Qed.

Lemma resolve_named fields kind :
  lookup (u "event_type") fields = Some kind ->
  eq_str kind (u "Unknown") = false ->
  resolve_event_type (JObj fields) = Ok kind.
Proof.
  intros Hl Hu. unfold resolve_event_type, get, dict_get. rewrite Hl. cbn [rbind].
  now rewrite Hu.
Qed.

Lemma resolve_untyped_other fields :
  untyped fields = true ->
  has_key (u "stop_hook_active") fields = false ->
  resolve_event_type (JObj fields)
  = Ok (JStr (if has_key (u "notification") fields || has_key (u "message") fields
              then u "Notification" else u "Unknown")).
Proof.
  unfold untyped, resolve_event_type, get, in_, dict_get. intros Hu Hk.
  destruct (lookup (u "event_type") fields) as [et|]; cbn [rbind].
  - rewrite Hu. cbn [rbind]. rewrite Hk. cbn [rbind].
    destruct (has_key (u "notification") fields || has_key (u "message") fields);
      [reflexivity|].
    now rewrite (eq_str_eq _ _ Hu).
  - change (eq_str (JStr (u "Unknown")) (u "Unknown")) with true. cbv iota.
    cbn [rbind]. rewrite Hk. cbn [rbind].
    destruct (has_key (u "notification") fields || has_key (u "message") fields);
      reflexivity.
Qed.

Lemma ignored_run w data kind :
  stdin w = StdinJson data ->
  resolve_event_type data = Ok kind ->
  eq_str kind (u "Stop") = false ->
  deliveries w = [] /\
  stdout w =
    [JObj [ (u "success", JBool true);
            (u "message", JStr (u "忽略事件类型：" ++ str kind)) ]] /\
  exit_code w = 0%Z.
Proof.
  intros Hs Hr He.
  pose proof (main_ignored _ Hs Hr He) as Hm.
  unfold deliveries, stdout, exit_code, trace. rewrite Hm. repeat split.
Qed.

(** C8.  The kind is read off the event itself.  An event that names its
    kind in [event_type], be it ["Notification"] or a kind the script does
    not know, anything but ["Stop"] and ["Unknown"], is ignored under that
    name.  An event that names no kind (no [event_type], or ["Unknown"]) and
    has no key [stop_hook_active] is ignored as ["Notification"] when it has
    the key [notification] or [message], and as ["Unknown"] when it has
    neither.  Ignored means: no delivery on either channel, one success
    object on stdout whose message names the kind, and exit code 0; for a
    kind that is a string the run leaves nothing but that object, whose
    message ends with the name as it was given. *)
Theorem other_events_are_ignored (w : world) (fields : dict) :
  stdin w = StdinJson (JObj fields) ->
  (forall kind,
     lookup (u "event_type") fields = Some kind ->
     eq_str kind (u "Unknown") = false ->
     eq_str kind (u "Stop") = false ->
     deliveries w = [] /\
     stdout w =
       [JObj [ (u "success", JBool true);
               (u "message", JStr (u "忽略事件类型：" ++ str kind)) ]] /\
     exit_code w = 0%Z) /\
  (forall name,
     lookup (u "event_type") fields = Some (JStr name) ->
     Str.eqb name (u "Unknown") = false ->
     Str.eqb name (u "Stop") = false ->
     trace w =
       [Printed (JObj [ (u "success", JBool true);
                        (u "message", JStr (u "忽略事件类型：" ++ name)) ])]) /\
  (untyped fields = true ->
   has_key (u "stop_hook_active") fields = false ->
   deliveries w = [] /\
   stdout w =
     [JObj [ (u "success", JBool true);
             (u "message",
               JStr (u "忽略事件类型："
                     ++ (if has_key (u "notification") fields || has_key (u "message") fields
                         then u "Notification" else u "Unknown"))) ]] /\
   exit_code w = 0%Z).
Proof.
  intros Hs. split; [|split].
  - intros kind Hl Hu Hn. exact (ignored_run _ Hs (resolve_named _ Hl Hu) Hn).
  - intros name Hl Hu Hn. unfold trace.
    now rewrite (@main_ignored w (JObj fields) (JStr name) Hs (resolve_named _ Hl Hu) Hn).
  - intros Hu Hk. pose proof (resolve_untyped_other _ Hu Hk) as Hr.
    destruct (has_key (u "notification") fields || has_key (u "message") fields).
    + exact (ignored_run _ Hs Hr eq_refl).
    + exact (ignored_run _ Hs Hr eq_refl).
Qed.

Lemma other_events_are_ignored_witness :
  (deliveries (world_of notification_event Missing) = [] /\
   stdout (world_of notification_event Missing)
     = [JObj [ (u "success", JBool true);
               (u "message", JStr (u "忽略事件类型：Notification")) ]] /\
   exit_code (world_of notification_event Missing) = 0%Z) /\
  (deliveries (world_of tool_event Missing) = [] /\
   stdout (world_of tool_event Missing)
     = [JObj [ (u "success", JBool true);
               (u "message", JStr (u "忽略事件类型：ToolUse")) ]] /\
   exit_code (world_of tool_event Missing) = 0%Z).
Proof.
  split.
  - apply (proj2 (proj2 (@other_events_are_ignored (world_of notification_event Missing)
             (fields_of [("session_id", s "abcdefgh-1234"); ("message", s "waiting")]%string)
             eq_refl))); reflexivity.
  - apply (proj1 (@other_events_are_ignored (world_of tool_event Missing)
             (fields_of [("event_type", s "ToolUse"); ("session_id", s "abcdefgh-1234")]%string)
             eq_refl) (s "ToolUse")); reflexivity.
Defined.

(** Scenario C: the kind ["ToolUse"]. *)
Example tool_use_is_ignored :
  trace (world_of tool_event Missing) = [Printed (ignored_result (s "ToolUse"))] /\
  exit_code (world_of tool_event Missing) = 0%Z.
Proof. split; vm_compute; reflexivity. Qed.

(** C7, as the code has it.  For a Stop event whose card is built, the
    result on stdout and the exit code follow the delivery to the webhook
    alone: a success object and code 0 when [send_to_feishu] delivers, the
    failure object and code 1 when it does not; the POST is made exactly as
    [send_to_feishu] makes it.  When building the card raises, the handler
    of [main] prints a failure with the text of the exception and exits
    with code 1, and nothing is delivered.  For every Stop event, whatever
    the push channel is configured to and whatever its server answers, the
    result, the exit code and the POSTs to the webhook are the same. *)
Theorem stop_result_follows_webhook (w : world) (fields : dict) :
  stdin w = StdinJson (JObj fields) ->
  resolve_event_type (JObj fields) = Ok (JStr (u "Stop")) ->
  (forall p,
     format_stop_message w (JObj fields) = Ok p ->
     exists delivered posts,
       send_to_feishu w p = (Ok delivered, posts) /\
       hook_posts w = posts /\
       (forall url, WEBHOOK_URL w = JStr url -> url <> [] ->
                    hook_posts w = [HookPost url p]) /\
       stdout w = [if delivered then success_result else failure_result feishu_failed] /\
       exit_code w = (if delivered then 0 else 1)%Z) /\
  (forall c msg,
     format_stop_message w (JObj fields) = Raise (Exception c msg) ->
     trace w = [Printed (failure_result msg)] /\ exit_code w = 1%Z) /\
  (forall enabled url now net,
     stdout (with_push w enabled url now net) = stdout w /\
     exit_code (with_push w enabled url now net) = exit_code w /\
     hook_posts (with_push w enabled url now net) = hook_posts w).
Proof.
  intros Hs Hr.
  assert (Hrun : forall w', stdin w' = StdinJson (JObj fields) ->
            forall p, format_stop_message w' (JObj fields) = Ok p ->
            exists delivered posts,
              send_to_feishu w' p = (Ok delivered, posts) /\
              hook_posts w' = posts /\
              (forall url, WEBHOOK_URL w' = JStr url -> url <> [] ->
                           hook_posts w' = [HookPost url p]) /\
              stdout w' = [if delivered then success_result
                           else failure_result feishu_failed] /\
              exit_code w' = (if delivered then 0 else 1)%Z).
  { intros w' Hs' p Hf.
    destruct (push_stop_ok _ _ Hf) as (message & gets & Hp & Hg & _).
    destruct (send_to_feishu_total w' p) as (delivered & posts & Hd & Hposts).
    pose proof (main_stop _ Hs' Hr Hf Hp Hd) as Hm.
    destruct (@stop_run_observables _ _ _ _ _ _ p _ Hm (@one_get_push_gets _ _ _ _ Hg) Hposts) as (O1 & O2 & O3 & _).
    exists delivered, posts. repeat split; try assumption.
    intros url Hu Hne. rewrite O3.
    pose proof (@send_to_feishu_posts w' p url Hu Hne) as Hsnd.
    rewrite Hd in Hsnd. exact Hsnd. }
  split; [exact (Hrun w Hs)|]. split.
  { intros c msg Hf. pose proof (main_format_fails _ Hs Hr Hf) as Hm.
    unfold trace, exit_code. rewrite Hm. split; reflexivity. }
  intros enabled url now net.
  set (w' := with_push w enabled url now net).
  assert (Hs' : stdin w' = StdinJson (JObj fields)) by exact Hs.
  pose proof (no_exit_format w (JObj fields)) as Hx.
  destruct (format_stop_message w (JObj fields)) as [p|[c msg|code]] eqn:Hf;
    [| |destruct Hx].
  - assert (Hf' : format_stop_message w' (JObj fields) = Ok p) by exact Hf.
    destruct (Hrun w Hs p Hf) as (d & posts & Hd & O1 & _ & O2 & O3).
    destruct (Hrun w' Hs' p Hf') as (d' & posts' & Hd' & O1' & _ & O2' & O3').
    change (send_to_feishu w' p) with (send_to_feishu w p) in Hd'.
    rewrite Hd in Hd'. injection Hd' as <- <-.
    rewrite O1, O2, O3, O1', O2', O3'. repeat split.
  - assert (Hf' : format_stop_message w' (JObj fields) = Raise (Exception c msg)) by exact Hf.
    pose proof (main_format_fails _ Hs Hr Hf) as Hm.
    pose proof (main_format_fails _ Hs' Hr Hf') as Hm'.
    unfold stdout, exit_code, hook_posts, trace. rewrite Hm, Hm'. repeat split.
Qed.

(** Scenario D with a push server that refuses the connection: the
    webhook answers 200 and the run succeeds. *)
Lemma stop_result_follows_webhook_witness :
  stdout (world_of stop_event log_api_error) = [success_result] /\
  exit_code (world_of stop_event log_api_error) = 0%Z /\
  stdout (with_push (world_of stop_event log_api_error) (JBool true) (s "key") (u "12:00:00")
            (PushRaises (u "Connection refused")))
  = stdout (world_of stop_event log_api_error).
Proof.
  destruct (@stop_result_follows_webhook (world_of stop_event log_api_error) stop_fields
              eq_refl eq_refl) as (H1 & _ & H2).
  assert (Hf : exists p,
             format_stop_message (world_of stop_event log_api_error) (JObj stop_fields) = Ok p).
  { eexists. vm_compute. reflexivity. }
  destruct Hf as [p Hf].
  destruct (H1 p Hf) as (delivered & posts & Hd & _ & _ & O1 & O2).
  vm_compute in Hd. injection Hd as <- _.
  split; [exact O1|]. split; [exact O2|]. apply H2.
Defined.

(** Scenario D: the webhook answers 500. *)
Example webhook_failure_exits_1 :
  let w := {| stdin := StdinJson stop_event; files := fun _ => log_api_error;
              WEBHOOK_URL := s "https://open.feishu.cn/hook/x";
              IOS_PUSH_URL := s "key"; IOS_PUSH_ENABLED := JBool true;
              clock := u "12:00:00";
              push_net := PushReplies 200 [] (Some (obj [("code", JNum 200)]%string));
              hook_net := HookReplies 500 |} in
  stdout w = [failure_result feishu_failed] /\ exit_code w = 1%Z.
Proof. split; vm_compute; reflexivity. Qed.

(** C7, as stated, fails: a Stop event whose [session_id] is [null] and
    that names no transcript makes [format_stop_message] raise on
    [session_id[:8]]; the handler of [main] prints a failure and exits with
    code 1 although the webhook is configured and answers 200, and the
    webhook is not called. *)
Lemma null_session_id_fails_before_delivery :
  resolve_event_type stop_event_null_id = Ok (JStr (u "Stop")) /\
  fst (send_to_feishu (world_of stop_event_null_id Missing) (card title_completed (u "green") []))
    = Ok true /\
  trace (world_of stop_event_null_id Missing)
    = [Printed (failure_result (u "'NoneType' object is not subscriptable"))] /\
  exit_code (world_of stop_event_null_id Missing) = 1%Z.
Proof.
  split; [vm_compute; reflexivity|].
  split; [vm_compute; reflexivity|].
  split; vm_compute; reflexivity.
Qed.

(** C10.  Whenever [main] hands a title and a message to the push channel,
    the title is the literal ["任务完成"], whatever the extracted message
    holds; the message is the first 100 characters of the extracted message
    or the session-ended string, and the title of the GET is the same
    literal behind the robot sign.  A Stop event whose card is built hands
    over exactly one such pair. *)
Theorem push_title_is_fixed (w : world) :
  (forall title message,
     In (PushCall title message) (trace w) ->
     title = u "任务完成" /\
     (message = JStr (u "Session 已结束") \/
      exists data text cwd,
        stdin w = StdinJson data /\
        stop_extract w data = Ok (text, cwd) /\
        truthy text = true /\ slice_to 100 text = Ok message)) /\
  (forall base_url formatted_title formatted_message,
     In (PushGet base_url formatted_title formatted_message) (trace w) ->
     formatted_title = u "🤖 任务完成") /\
  (forall fields p,
     stdin w = StdinJson (JObj fields) ->
     resolve_event_type (JObj fields) = Ok (JStr (u "Stop")) ->
     format_stop_message w (JObj fields) = Ok p ->
     exists message, push_calls w = [PushCall (u "任务完成") message]).
Proof.
  split; [|split].
  - intros title message Hin.
    destruct (main_cases w) as [(code & obj & Hm)|
      (fields & p & m & gets & d & posts & Hs & Hr & Hf & Hp & Hg & Hmsg & Hd & Hposts & Hm)];
      unfold trace in Hin; rewrite Hm in Hin; cbn [snd] in Hin.
    + destruct Hin as [Hin|[]]. discriminate.
    + rewrite <- app_comm_cons in Hin. destruct Hin as [Hin|Hin].
      * injection Hin as <- <-. split; [reflexivity|].
        destruct Hmsg as [->|(text & cwd & H1 & H2 & H3)]; [now left|].
        right. exists (JObj fields), text, cwd. repeat split; assumption.
      * exfalso. apply in_app_or in Hin as [Hin|Hin].
        { destruct Hg as [->|[b ->]]; [destruct Hin|].
          destruct Hin as [Hin|[]]. discriminate. }
        apply in_app_or in Hin as [Hin|Hin].
        { destruct Hposts as [->|[url ->]]; [destruct Hin|].
          destruct Hin as [Hin|[]]. discriminate. }
        destruct Hin as [Hin|[]]. discriminate.
  - intros base ft fm Hin.
    destruct (main_cases w) as [(code & obj & Hm)|
      (fields & p & m & gets & d & posts & Hs & Hr & Hf & Hp & Hg & Hmsg & Hd & Hposts & Hm)];
      unfold trace in Hin; rewrite Hm in Hin; cbn [snd] in Hin.
    + destruct Hin as [Hin|[]]. discriminate.
    + rewrite <- app_comm_cons in Hin. destruct Hin as [Hin|Hin]; [discriminate|].
      apply in_app_or in Hin as [Hin|Hin].
      { destruct Hg as [->|[b ->]]; [destruct Hin|].
        destruct Hin as [Hin|[]]. injection Hin as _ <- _. reflexivity. }
      exfalso. apply in_app_or in Hin as [Hin|Hin].
      { destruct Hposts as [->|[url ->]]; [destruct Hin|].
        destruct Hin as [Hin|[]]. discriminate. }
      destruct Hin as [Hin|[]]. discriminate.
  - intros fields p Hs Hr Hf.
    destruct (push_stop_ok _ _ Hf) as (message & gets & Hp & Hg & _).
    destruct (send_to_feishu_total w p) as (delivered & posts & Hd & Hposts).
    pose proof (main_stop _ Hs Hr Hf Hp Hd) as Hm.
    destruct (@stop_run_observables _ _ _ _ _ _ p _ Hm (@one_get_push_gets _ _ _ _ Hg) Hposts) as (_ & _ & _ & O).
    exists message. exact O.
Qed.

Lemma push_title_is_fixed_witness :
  In (PushCall (u "任务完成") (s "API Error: boom")) (trace (world_of stop_event log_api_error)) /\
  u "任务完成" = u "任务完成".
Proof.
  assert (Hin : In (PushCall (u "任务完成") (s "API Error: boom"))
                  (trace (world_of stop_event log_api_error))).
  { vm_compute. left. reflexivity. }
  split; [exact Hin|].
  exact (proj1 (proj1 (push_title_is_fixed (world_of stop_event log_api_error)) _ _ Hin)).
Defined.

End MainSpec.

(** * Further properties of the script *)

(** ** Strings *)

Module StrFacts.
Import Obs.

Lemma lstrip_by_kept f s :
  match lstrip_by f s with
  | c :: _ => f c = false
  | [] => True
  end.
Proof.
  induction s as [|c s IH]; [exact I|].
  simpl. destruct (f c) eqn:E; [exact IH | exact E].
Qed.

Lemma lstrip_by_length f s : (List.length (lstrip_by f s) <= List.length s)%nat.
Proof.
  induction s as [|c s IH]; [apply le_n|].
  simpl. destruct (f c); simpl; lia.
Qed.

Lemma rstrip_by_length f s : (List.length (rstrip_by f s) <= List.length s)%nat.
Proof.
  unfold rstrip_by. rewrite length_rev.
  pose proof (lstrip_by_length f (rev s)) as H. now rewrite length_rev in H.
Qed.

Lemma strip_length s : (List.length (strip s) <= List.length s)%nat.
Proof.
  unfold strip.
  pose proof (rstrip_by_length isspace (lstrip_by isspace s)).
  pose proof (lstrip_by_length isspace s). lia.
Qed.

Lemma strip_starts s : starts_blank (strip s) = false.
Proof.
  unfold strip. pose proof (lstrip_by_kept isspace s) as H.
  destruct (lstrip_by isspace s) as [|c t]; [reflexivity|].
  change (c :: t) with ([] ++ c :: t).
  now rewrite rstrip_by_app_stop by exact H.
Qed.

Lemma strip_ends s : ends_blank (strip s) = false.
Proof.
  unfold ends_blank, strip, rstrip_by. rewrite rev_involutive.
  pose proof (lstrip_by_kept isspace (rev (lstrip_by isspace s))) as H.
  destruct (lstrip_by isspace (rev (lstrip_by isspace s))); [reflexivity | exact H].
Qed.

Lemma lstrip_by_fixed f s :
  match s with c :: _ => f c = false | [] => True end -> lstrip_by f s = s.
Proof. destruct s as [|c s]; [reflexivity|]. intros H. simpl. now rewrite H. Qed.

Lemma rstrip_by_fixed f s :
  match rev s with c :: _ => f c = false | [] => True end -> rstrip_by f s = s.
Proof.
  intros H. unfold rstrip_by. rewrite (lstrip_by_fixed f (rev s) H).
  apply rev_involutive.
Qed.

(** A text without blank at either end is left as it is by [strip]. *)
Lemma strip_fixed_point s :
  starts_blank s = false -> ends_blank s = false -> strip s = s.
Proof.
  intros H1 H2. unfold strip.
  rewrite (lstrip_by_fixed isspace s).
  - apply rstrip_by_fixed. unfold ends_blank, starts_blank in H2.
    destruct (rev s); [exact I | exact H2].
  - unfold starts_blank in H1. destruct s; [exact I | exact H1].
Qed.

Lemma strip_idempotent s : strip (strip s) = strip s.
Proof. apply strip_fixed_point; [apply strip_starts | apply strip_ends]. Qed.

Lemma lstrip_by_suffix f s : exists pre, s = pre ++ lstrip_by f s.
Proof.
  induction s as [|c s [pre IH]]; [now exists []|].
  simpl. destruct (f c).
  - exists (c :: pre). simpl. now rewrite <- IH.
  - now exists [].
Qed.

Lemma rstrip_by_prefix f s : exists post, s = rstrip_by f s ++ post.
Proof.
  unfold rstrip_by. destruct (lstrip_by_suffix f (rev s)) as [pre H].
  exists (rev pre). rewrite <- rev_app_distr, <- H. symmetry. apply rev_involutive.
Qed.

(** [strip] only removes: what it returns is a part of what it gets. *)
Lemma strip_part s : exists pre post, s = pre ++ strip s ++ post.
Proof.
  unfold strip. destruct (lstrip_by_suffix isspace s) as [pre H].
  destruct (rstrip_by_prefix isspace (lstrip_by isspace s)) as [post H'].
  exists pre, post. now rewrite <- H', <- H.
Qed.

Lemma rstrip_slash_kept s :
  match rev (rstrip_slash s) with
  | c :: _ => is_slash c = false
  | [] => True
  end.
Proof.
  unfold rstrip_slash, rstrip_by. rewrite rev_involutive.
  apply (lstrip_by_kept (N.eqb slash)).
Qed.

Lemma lstrip_by_nil_iff f s : lstrip_by f s = [] <-> forallb f s = true.
Proof.
  induction s as [|c s IH]; [split; reflexivity|].
  simpl. destruct (f c); [exact IH | split; discriminate].
Qed.

Lemma rstrip_slash_nil_iff s : rstrip_slash s = [] <-> forallb is_slash s = true.
Proof.
  unfold rstrip_slash, rstrip_by. split.
  - intros H. apply (f_equal (@rev N)) in H. rewrite rev_involutive in H. simpl in H.
    apply lstrip_by_nil_iff in H. rewrite forallb_forall in *.
    intros x Hx. apply H. now apply -> in_rev.
  - intros H.
    assert (H' : forallb (N.eqb slash) (rev s) = true).
    { rewrite forallb_forall in *. intros x Hx. apply H. now apply in_rev. }
    apply lstrip_by_nil_iff in H'. now rewrite H'.
Qed.

(** [basename]: the text splits into a directory part, empty or ending with
    a slash, and the name, which has no slash. *)
Lemma basename_aux_split s cur :
  forallb (fun c => negb (is_slash c)) cur = true ->
  exists dir,
    rev cur ++ s = dir ++ basename_aux s cur /\
    (dir = [] \/ exists d, dir = d ++ [slash]) /\
    forallb (fun c => negb (is_slash c)) (basename_aux s cur) = true.
Proof.
  revert cur. induction s as [|c s IH]; intros cur Hcur.
  - exists []. simpl. rewrite app_nil_r. repeat split; [now left|].
    rewrite forallb_forall in *. intros x Hx. apply Hcur. now apply in_rev.
  - simpl. destruct (c =? slash)%N eqn:E.
    + apply N.eqb_eq in E. subst c.
      destruct (IH [] eq_refl) as (dir & H1 & H2 & H3).
      exists (rev cur ++ slash :: dir). repeat split; [| |exact H3].
      * simpl in H1. rewrite <- app_assoc. simpl. do 2 f_equal. exact H1.
      * right. destruct H2 as [->|[d ->]].
        { exists (rev cur). reflexivity. }
        { exists (rev cur ++ slash :: d). rewrite <- app_assoc. reflexivity. }
    + destruct (IH (c :: cur)) as (dir & H1 & H2 & H3).
      { simpl. rewrite Hcur, andb_true_r. unfold is_slash.
        rewrite N.eqb_sym. now rewrite E. }
      exists dir. repeat split; [|exact H2|exact H3].
      simpl in H1. rewrite <- app_assoc in H1. exact H1.
Qed.

Lemma basename_split s :
  exists dir,
    s = dir ++ basename s /\
    (dir = [] \/ exists d, dir = d ++ [slash]) /\
    forallb (fun c => negb (is_slash c)) (basename s) = true.
Proof. exact (basename_aux_split s [] eq_refl). Qed.

End StrFacts.

(** ** More on the reader and on the card *)

Module ReaderCardMore.
Import Py Reader Card Log Hook Obs ReaderFacts CardFacts StrFacts Samples.
Local Open Scope res_scope.

Lemma message_part_str sid tp msg :
  msg <> [] ->
  message_part sid tp (JStr msg)
  = Ok (if (1000 <? List.length msg)%nat then Str.take 1000 msg ++ continuation_marker
        else msg).
Proof.
  intros H. unfold message_part. destruct msg as [|c msg]; [now elim H|].
  cbv beta iota delta [truthy]. destruct (1000 <? _)%nat; reflexivity.
Qed.

(** X1.  A line that is JSON but no object (a number, a string, a list,
    [null]) anywhere in the transcript makes the reader give up the whole
    file: it returns the pair of empty strings, whatever the other lines
    hold. *)
Theorem non_object_line_aborts (w : world) (path : pystr) (lines : list logline)
    (read_error : option pystr) (v : pyval) :
  files w path = Opened lines read_error ->
  In (Parsed v) lines ->
  is_object v = false ->
  extract_last_message_from_jsonl w (JStr path) = Ok (empty, empty).
Proof.
  intros Hf Hin Hv.
  unfold extract_last_message_from_jsonl, extract_body. rewrite Hf.
  destruct (scan_lines_non_object lines v (empty, empty) Hin Hv) as (c & msg & ->).
  reflexivity.
Qed.

Lemma non_object_line_aborts_witness :
  extract_last_message_from_jsonl
    (world_of stop_event
       (Opened [text_line (s "first"); Parsed (JArr []); text_line (s "second")] None))
    (s "/t.jsonl")
  = Ok (empty, empty).
Proof.
  apply (@non_object_line_aborts _ (u "/t.jsonl")
           [text_line (s "first"); Parsed (JArr []); text_line (s "second")] None (JArr [])).
  - reflexivity.
  - right. left. reflexivity.
  - reflexivity.
Defined.

(** X2.  The body of every card that [format_stop_message] builds has no
    blank character at its start and none at its end, and it is a part of the
    composed content. *)
Theorem stop_body_is_stripped (w : world) (data p : pyval) :
  format_stop_message w data = Ok p ->
  exists body,
    body_of p = Some (JStr body) /\
    starts_blank body = false /\ ends_blank body = false /\
    strip body = body.
Proof.
  intros Hf. destruct (format_stop_message_dict _ _ Hf) as [fields ->].
  destruct (format_stop_message_inv _ _ Hf) as (lm & cwd & b & content & _ & _ & _ & ->).
  exists (strip content). rewrite body_of_card.
  repeat split; [apply strip_starts | apply strip_ends | apply strip_idempotent].
Qed.

Lemma stop_body_is_stripped_witness :
  exists body,
    (p <- format_stop_message (world_of stop_event log_long_blank) stop_event ;; Ok (body_of p))
    = Ok (Some (JStr body)) /\
    starts_blank body = false.
Proof.
  assert (Hf : exists p,
             format_stop_message (world_of stop_event log_long_blank) stop_event = Ok p).
  { eexists. vm_compute. reflexivity. }
  destruct Hf as [p Hf].
  destruct (stop_body_is_stripped _ _ Hf) as (body & Hb & H1 & _).
  exists body. rewrite Hf. cbn [rbind]. rewrite Hb. split; [reflexivity | exact H1].
Defined.

Lemma starts_blank_app a b : a <> [] -> starts_blank (a ++ b) = starts_blank a.
Proof. destruct a; [congruence | reflexivity]. Qed.

Lemma ends_blank_app a b : b <> [] -> ends_blank (a ++ b) = ends_blank b.
Proof.
  intros H. unfold ends_blank. rewrite rev_app_distr. apply starts_blank_app.
  intros E. apply H. rewrite <- (rev_involutive b), E. reflexivity.
Qed.

(** A content whose message has no blank at either end is left as it is by
    [strip]: what stands before the message starts with [<] or [*]. *)
Lemma strip_whole cwd label (flag : bool) msg :
  label_of cwd = Ok label ->
  msg <> [] -> starts_blank msg = false -> ends_blank msg = false ->
  strip (label ++ (if flag then warning_line else []) ++ msg)
  = label ++ (if flag then warning_line else []) ++ msg.
Proof.
  intros Hl Hne Hs He. apply strip_fixed_point.
  - destruct (label_of_head _ Hl) as [[_ ->]|[t ->]]; [|reflexivity].
    rewrite app_nil_l. destruct flag; [|exact Hs].
    unfold warning_line. destruct warning_text_shape as [t ->]. reflexivity.
  - rewrite app_assoc. rewrite ends_blank_app by exact Hne. exact He.
Qed.

(** X3.  For an extracted message that is a non-empty string the body is
    never longer than the label, the warning line, 1000 characters and the
    continuation marker together.  For a message of at most 1000
    characters, 1000 included, the body has no marker: it is the label, the
    warning line and the message, stripped as one text.  Such a message is
    thus shown whole when it has no blank at either end; blanks at its end
    are always lost, and blanks at its start are lost when nothing stands
    before it. *)
Theorem stop_body_is_bounded (w : world) (fields : dict) (p : pyval)
    (msg : pystr) (cwd : pyval) (label : pystr) :
  format_stop_message w (JObj fields) = Ok p ->
  stop_extract w (JObj fields) = Ok (JStr msg, cwd) ->
  msg <> [] ->
  label_of cwd = Ok label ->
  exists body,
    body_of p = Some (JStr body) /\
    (List.length body
     <= List.length label + List.length warning_line + 1000
        + List.length continuation_marker)%nat /\
    ((List.length msg <= 1000)%nat ->
     body = strip (label
                   ++ (if truthy (dict_get (u "stop_hook_active") fields (JBool false))
                       then warning_line else [])
                   ++ msg)) /\
    ((List.length msg <= 1000)%nat ->
     starts_blank msg = false -> ends_blank msg = false ->
     body = label
            ++ (if truthy (dict_get (u "stop_hook_active") fields (JBool false))
                then warning_line else [])
            ++ msg).
Proof.
  intros Hf He Hne Hl.
  destruct (format_stop_message_inv _ _ Hf) as (lm & cwd' & b & content & He' & _ & Hc & ->).
  rewrite He in He'. injection He' as <- <-.
  destruct (compose_inv _ _ _ _ _ Hc) as (label' & part & Hl' & Hp & ->).
  rewrite Hl in Hl'. injection Hl' as <-.
  exists (strip (label
                 ++ (if truthy (dict_get (u "stop_hook_active") fields (JBool false))
                     then warning_line else [])
                 ++ part)).
  rewrite body_of_card. split; [reflexivity|].
  rewrite (@message_part_str _ _ _ Hne) in Hp.
  assert (Ht : (List.length (Str.take 1000 msg) <= 1000)%nat).
  { unfold Str.take. apply firstn_le_length. }
  pose proof (fun Hs Hb =>
    @strip_whole cwd label (truthy (dict_get (u "stop_hook_active") fields (JBool false)))
      msg Hl Hne Hs Hb) as Hwhole.
  clear Hf Hc He.
  revert Hp Ht. generalize (Str.take 1000 msg). intros portion Hp Ht.
  assert (Hw : (List.length
                  (if truthy (dict_get (u "stop_hook_active") fields (JBool false))
                   then warning_line else [])
                <= List.length warning_line)%nat).
  { destruct (truthy _); simpl; lia. }
  pose proof (strip_length
    (label
     ++ (if truthy (dict_get (u "stop_hook_active") fields (JBool false))
         then warning_line else [])
     ++ part)) as Hs.
  rewrite !length_app in Hs.
  destruct (1000 <? List.length msg)%nat eqn:E; injection Hp as <-.
  - apply Nat.ltb_lt in E. rewrite length_app in Hs. split; [|split]; lia.
  - apply Nat.ltb_ge in E. split; [lia|]. split; [reflexivity|].
    intros _ Hsb Heb. exact (Hwhole Hsb Heb).
Qed.

(** A message of exactly 1000 characters. *)
Lemma stop_body_is_bounded_witness :
  exists p,
    format_stop_message
      (world_of stop_event (Opened [text_line (JStr (repeat 98%N 1000))] None)) stop_event
    = Ok p /\
    body_of p = Some (JStr (strip ([] ++ [] ++ repeat 98%N 1000))).
Proof.
  set (w := world_of stop_event (Opened [text_line (JStr (repeat 98%N 1000))] None)).
  assert (Hf : exists p, format_stop_message w stop_event = Ok p).
  { eexists. vm_compute. reflexivity. }
  destruct Hf as [p Hf]. exists p. split; [exact Hf|].
  assert (He : stop_extract w (JObj stop_fields) = Ok (JStr (repeat 98%N 1000), empty))
    by (vm_compute; reflexivity).
  assert (Hne : repeat 98%N 1000 <> []) by (vm_compute; discriminate).
  destruct (@stop_body_is_bounded w stop_fields p (repeat 98%N 1000) empty [] Hf He Hne eq_refl)
    as (body & Hb & _ & H & _).
  rewrite Hb. do 2 f_equal. apply H. rewrite repeat_length. apply le_n.
Defined.

(** X4.  On a POSIX system, where [os.path.basename] is the one of
    [posixpath], the project label names the last segment of the working
    directory: trailing slashes are dropped, the name holds no slash and is
    what follows the last slash left.  Only a working directory made of
    slashes alone has no such name, and then the label shows the directory
    as it is.  (On Windows [os.path.basename] also splits at backslashes and
    drive letters; nothing is stated for it.) *)
Theorem label_names_last_segment (cwd : pystr) :
  cwd <> [] ->
  (forallb is_slash cwd = true /\ label_of (JStr cwd) = Ok (path_label cwd)) \/
  (exists dir name,
     forallb is_slash cwd = false /\
     rstrip_slash cwd = dir ++ name /\
     (dir = [] \/ exists d, dir = d ++ [slash]) /\
     name <> [] /\
     forallb (fun c => negb (is_slash c)) name = true /\
     label_of (JStr cwd) = Ok (project_label name)).
Proof.
  intros Hne. unfold label_of.
  destruct cwd as [|c0 cwd0]; [now elim Hne|]. cbv beta iota delta [truthy].
  set (cwd := c0 :: cwd0) in *.
  destruct (basename_split (rstrip_slash cwd)) as (dir & H1 & H2 & H3).
  destruct (basename (rstrip_slash cwd)) as [|n name] eqn:En.
  - left. split; [|reflexivity].
    apply rstrip_slash_nil_iff.
    rewrite app_nil_r in H1.
    destruct H2 as [->|[d Hd]]; [exact H1|].
    exfalso. pose proof (rstrip_slash_kept cwd) as Hk.
    rewrite H1, Hd, rev_app_distr in Hk. simpl in Hk.
    unfold is_slash in Hk. now rewrite N.eqb_refl in Hk.
  - right. exists dir, (n :: name). repeat split; try assumption; try discriminate.
    destruct (forallb is_slash cwd) eqn:Ea; [|reflexivity].
    apply rstrip_slash_nil_iff in Ea. rewrite Ea in H1.
    destruct dir; discriminate.
Qed.

Lemma label_names_last_segment_witness :
  label_of (s "/home/u/proj//") = Ok (project_label (u "proj")) /\
  label_of (s "//") = Ok (path_label (u "//")).
Proof.
  split.
  - destruct (@label_names_last_segment (u "/home/u/proj//")) as [[H _]|(d & n & _ & _ & _ & _ & _ & H)].
    + vm_compute. discriminate.
    + vm_compute in H. discriminate.
    + vm_compute. reflexivity.
  - destruct (@label_names_last_segment (u "//")) as [[_ H]|(d & n & H & _)].
    + vm_compute. discriminate.
    + exact H.
    + vm_compute in H. discriminate.
Defined.

End ReaderCardMore.

(** ** More on delivery and on [main] *)

Module MainMore.
Import Py Reader Card Eff Notifier Log Hook Obs.
Import ReaderFacts CardFacts MainFacts StrFacts Samples.

(** The three ways a run of [main] ends. *)
Lemma main_outcomes w :
  (exists msg, main w = (Raise (SystemExit 1), [Printed (failure_result msg)])) \/
  (exists event_type, main w = (Raise (SystemExit 0), [Printed (ignored_result event_type)])) \/
  (exists message gets (delivered : bool) posts p,
     forallb is_push_get gets = true /\
     (posts = [] \/ exists url, posts = [HookPost url p]) /\
     main w =
     (Raise (SystemExit (if delivered then 0 else 1)%Z),
      (PushCall push_title message :: gets) ++ posts ++
      [Printed (if delivered then success_result else failure_result feishu_failed)])).
Proof.
  destruct (stdin w) as [data|why] eqn:Hs.
  2:{ left. eexists. eapply main_stdin_bad; eassumption. }
  pose proof (no_exit_resolve data) as Hx.
  destruct (resolve_event_type data) as [et|[c msg|code]] eqn:Hr; [| |destruct Hx].
  2:{ left. eexists. eapply main_resolve_fails; eassumption. }
  destruct (eq_str et (u "Stop")) eqn:Het.
  2:{ right. left. eexists. eapply main_ignored; eassumption. }
  apply eq_str_eq in Het. subst et.
  pose proof (no_exit_format w data) as Hx'.
  destruct (format_stop_message w data) as [p|[c msg|code]] eqn:Hf; [| |destruct Hx'].
  2:{ left. eexists. eapply main_format_fails; eassumption. }
  destruct (format_stop_message_dict _ _ Hf) as [fields ->].
  destruct (push_stop_ok _ _ Hf) as (message & gets & Hp & Hg & _).
  destruct (send_to_feishu_total w p) as (delivered & posts & Hd & Hposts).
  right. right. exists message, gets, delivered, posts, p.
  split; [exact (@one_get_push_gets _ _ _ _ Hg)|]. split; [exact Hposts|].
  eapply main_stop; eassumption.
Qed.

Lemma filter_delivery_gets gets :
  forallb is_push_get gets = true -> filter is_delivery gets = gets.
Proof.
  induction gets as [|e gets IH]; [reflexivity|].
  simpl. intros H. apply andb_true_iff in H as [He H].
  destruct e; try discriminate. simpl. now rewrite IH.
Qed.

(** X5.  Every run of [main] prints exactly one result object, after all
    its deliveries, and exits with code 0 or 1; the code is 0 exactly when
    the object says success. *)
Theorem main_prints_one_result (w : world) :
  exists obj,
    trace w = deliveries w ++ [Printed obj] /\
    stdout w = [obj] /\
    ((exit_code w = 0%Z /\ success_of obj = Some (JBool true)) \/
     (exit_code w = 1%Z /\ success_of obj = Some (JBool false))).
Proof.
  destruct (main_outcomes w) as [[msg Hm]|[[et Hm]|
    (message & gets & delivered & posts & p & Hg & Hp & Hm)]].
  - exists (failure_result msg).
    unfold deliveries, stdout, exit_code, trace. rewrite Hm.
    repeat split. right. split; reflexivity.
  - exists (ignored_result et).
    unfold deliveries, stdout, exit_code, trace. rewrite Hm.
    repeat split. left. split; reflexivity.
  - exists (if delivered then success_result else failure_result feishu_failed).
    destruct (push_gets_only _ Hg) as (_ & _ & G3).
    unfold deliveries, stdout, exit_code, trace. rewrite Hm. cbn [fst snd].
    rewrite !filter_app, !flat_map_app.
    cbn [filter flat_map is_delivery app]. rewrite (filter_delivery_gets _ Hg), G3.
    assert (Hposts : filter is_delivery posts = posts /\
              flat_map (fun e => match e with Printed obj => [obj] | _ => [] end) posts = []).
    { destruct Hp as [->|[url ->]]; split; reflexivity. }
    destruct Hposts as [-> ->]. rewrite app_nil_r.
    split; [now rewrite <- app_assoc|]. split; [reflexivity|].
    destruct delivered; [left | right]; split; reflexivity.
Qed.

(** X6.  Input that is not a JSON object, be it no JSON at all or a JSON
    value of another kind, is fatal: the process prints a failure, exits
    with code 1 and delivers nothing. *)
Theorem bad_input_is_fatal (w : world) :
  object_input w = false ->
  exists msg,
    trace w = [Printed (failure_result msg)] /\ exit_code w = 1%Z /\ deliveries w = [].
Proof.
  unfold object_input. intros H.
  destruct (stdin w) as [v|why] eqn:Hs.
  - destruct v; try discriminate;
      (eexists; unfold deliveries, exit_code, trace;
       rewrite (@main_resolve_fails w _ AttributeError _ Hs eq_refl); repeat split).
  - exists why. unfold deliveries, exit_code, trace.
    rewrite (main_stdin_bad _ Hs). repeat split.
Qed.

Lemma bad_input_is_fatal_witness :
  exists msg,
    trace (world_of (JArr [stop_event]) Missing) = [Printed (failure_result msg)] /\
    exit_code (world_of (JArr [stop_event]) Missing) = 1%Z.
Proof.
  destruct (@bad_input_is_fatal (world_of (JArr [stop_event]) Missing) eq_refl)
    as (msg & H1 & H2 & _).
  exists msg. split; assumption.
Defined.

Lemma resolve_untyped_stop fields :
  untyped fields = true ->
  has_key (u "stop_hook_active") fields = true ->
  resolve_event_type (JObj fields) = Ok (JStr (u "Stop")).
Proof.
  unfold untyped, resolve_event_type, get, in_, dict_get. intros Hu Hk.
  destruct (lookup (u "event_type") fields) as [et|]; cbn [rbind].
  - rewrite Hu. cbn [rbind]. now rewrite Hk.
  - change (eq_str (JStr (u "Unknown")) (u "Unknown")) with true. cbv iota.
    cbn [rbind]. now rewrite Hk.
Qed.

(** X7.  An event that names no type of its own (no [event_type], or
    ["Unknown"]) and has the key [stop_hook_active] is a Stop event, whatever
    the value under the key and whether or not it also has [message] or
    [notification]: the ignore branch is not taken, and when the card is
    built the push function is called once. *)
Theorem stop_is_inferred_from_key (w : world) (fields : dict) :
  stdin w = StdinJson (JObj fields) ->
  untyped fields = true ->
  has_key (u "stop_hook_active") fields = true ->
  resolve_event_type (JObj fields) = Ok (JStr (u "Stop")) /\
  (forall event_type, stdout w <> [ignored_result event_type]) /\
  (forall p, format_stop_message w (JObj fields) = Ok p ->
             exists message, push_calls w = [PushCall push_title message]).
Proof.
  intros Hs Hu Hk. pose proof (resolve_untyped_stop _ Hu Hk) as Hr.
  split; [exact Hr|].
  pose proof (no_exit_format w (JObj fields)) as Hx.
  destruct (format_stop_message w (JObj fields)) as [p|[c msg|code]] eqn:Hf;
    [| |destruct Hx].
  - destruct (push_stop_ok _ _ Hf) as (message & gets & Hp & Hg & _).
    destruct (send_to_feishu_total w p) as (delivered & posts & Hd & Hposts).
    pose proof (main_stop _ Hs Hr Hf Hp Hd) as Hm.
    destruct (@MainSpec.stop_run_observables _ _ _ _ _ _ p _ Hm
                (@one_get_push_gets _ _ _ _ Hg) Hposts) as (O1 & _ & _ & O4).
    split.
    + intros et. rewrite O1. destruct delivered; discriminate.
    + intros p' Hp'. injection Hp' as <-. now exists message.
  - pose proof (main_format_fails _ Hs Hr Hf) as Hm. split.
    + intros et. unfold stdout, trace. rewrite Hm. discriminate.
    + intros p' Hp'. discriminate.
Qed.

Lemma stop_is_inferred_from_key_witness :
  resolve_event_type
    (obj [("stop_hook_active", JBool false); ("message", s "waiting")]%string)
  = Ok (JStr (u "Stop")).
Proof.
  apply (proj1 (@stop_is_inferred_from_key
           (world_of (obj [("stop_hook_active", JBool false); ("message", s "waiting")]%string)
              Missing)
           (fields_of [("stop_hook_active", JBool false); ("message", s "waiting")]%string)
           eq_refl eq_refl eq_refl)).
Defined.

(** X8.  A type that the event names itself, other than ["Unknown"], is
    final: unless it is ["Stop"] the event is ignored, even when it has the
    key [stop_hook_active]. *)
Theorem named_type_is_final (w : world) (fields : dict) (event_type : pyval) :
  stdin w = StdinJson (JObj fields) ->
  lookup (u "event_type") fields = Some event_type ->
  eq_str event_type (u "Unknown") = false ->
  resolve_event_type (JObj fields) = Ok event_type /\
  (eq_str event_type (u "Stop") = false ->
   trace w = [Printed (ignored_result event_type)] /\ exit_code w = 0%Z).
Proof.
  intros Hs Hl Hu.
  assert (Hr : resolve_event_type (JObj fields) = Ok event_type).
  { unfold resolve_event_type, get, dict_get. rewrite Hl. cbn [rbind]. now rewrite Hu. }
  split; [exact Hr|]. intros Hn.
  unfold trace, exit_code. rewrite (main_ignored _ Hs Hr Hn). split; reflexivity.
Qed.

Lemma named_type_is_final_witness :
  trace (world_of (obj [("event_type", s "SubagentStop");
                        ("stop_hook_active", JBool true)]%string) Missing)
  = [Printed (ignored_result (s "SubagentStop"))].
Proof.
  apply (proj2 (@named_type_is_final
           (world_of (obj [("event_type", s "SubagentStop");
                           ("stop_hook_active", JBool true)]%string) Missing)
           (fields_of [("event_type", s "SubagentStop");
                       ("stop_hook_active", JBool true)]%string)
           (s "SubagentStop") eq_refl eq_refl eq_refl) eq_refl).
Defined.

End MainMore.

(** ** More on the two channels *)

Module DeliveryMore.
Import Py Reader Card Eff Notifier Log Hook Obs.
Import ReaderFacts CardFacts MainFacts StrFacts Samples.

Lemma send_to_feishu_unset w message :
  truthy (WEBHOOK_URL w) = false -> send_to_feishu w message = (Ok false, []).
Proof. intros H. unfold send_to_feishu. now rewrite H. Qed.

Lemma no_post_without_webhook (w : world) :
  truthy (WEBHOOK_URL w) = false ->
  hook_posts w = [] /\
  stdout w <> [success_result] /\
  (forall fields p,
     stdin w = StdinJson (JObj fields) ->
     resolve_event_type (JObj fields) = Ok (JStr (u "Stop")) ->
     format_stop_message w (JObj fields) = Ok p ->
     stdout w = [failure_result feishu_failed] /\ exit_code w = 1%Z).
Proof.
  intros Hu.
  assert (Hstop : forall fields p,
            stdin w = StdinJson (JObj fields) ->
            resolve_event_type (JObj fields) = Ok (JStr (u "Stop")) ->
            format_stop_message w (JObj fields) = Ok p ->
            stdout w = [failure_result feishu_failed] /\ exit_code w = 1%Z /\
            hook_posts w = []).
  { intros fields p Hs Hr Hf.
    destruct (push_stop_ok _ _ Hf) as (message & gets & Hp & Hg & _).
    pose proof (main_stop _ Hs Hr Hf Hp (send_to_feishu_unset w p Hu)) as Hm.
    destruct (@MainSpec.stop_run_observables _ _ _ _ _ _ p _ Hm
                (@one_get_push_gets _ _ _ _ Hg) (or_introl eq_refl)) as (O1 & O2 & O3 & _).
    repeat split; assumption. }
  destruct (main_cases w) as [(code & obj & Hm)|
    (fields & p & m & gets & d & posts & Hs & Hr & Hf & _)].
  - split; [|split].
    + unfold hook_posts, trace. rewrite Hm. reflexivity.
    + unfold stdout, trace. rewrite Hm. cbn [snd flat_map app].
      intros E. injection E as ->.
      destruct (MainMore.main_outcomes w) as [[msg Hm']|[[et Hm']|
        (message & gets & delivered & posts & p & _ & _ & Hm')]];
        rewrite Hm in Hm'; discriminate.
    + intros fields p Hs Hr Hf. destruct (Hstop fields p Hs Hr Hf) as (H1 & H2 & _).
      now split.
  - destruct (Hstop fields p Hs Hr Hf) as (H1 & H2 & H3).
    split; [exact H3|]. split; [rewrite H1; discriminate|].
    intros fields' p' Hs' Hr' Hf'.
    destruct (Hstop fields' p' Hs' Hr' Hf') as (H1' & H2' & _). now split.
Qed.

(** X9.  Without a webhook address no POST is ever made and the process
    never reports a delivery: a Stop event whose card is built ends with the
    failure object and code 1, whatever the push channel did. *)
Theorem no_webhook_no_success (w : world) :
  truthy (WEBHOOK_URL w) = false ->
  hook_posts w = [] /\
  stdout w <> [success_result] /\
  (forall fields p,
     stdin w = StdinJson (JObj fields) ->
     resolve_event_type (JObj fields) = Ok (JStr (u "Stop")) ->
     format_stop_message w (JObj fields) = Ok p ->
     stdout w = [failure_result feishu_failed] /\ exit_code w = 1%Z).
Proof. exact (no_post_without_webhook w). Qed.

(** The test event of the setup wizard, with the push channel alone
    configured. *)
Lemma no_webhook_no_success_witness :
  let w := {| stdin := StdinJson Setup.test_data; files := fun _ => Missing;
              WEBHOOK_URL := JStr [];
              IOS_PUSH_URL := s "key"; IOS_PUSH_ENABLED := JBool true;
              clock := u "12:00:00";
              push_net := PushReplies 200 [] (Some (obj [("code", JNum 200)]%string));
              hook_net := HookReplies 200 |} in
  hook_posts w = [] /\ stdout w <> [success_result].
Proof.
  intros w. destruct (@no_webhook_no_success w eq_refl) as (H1 & H2 & _).
  split; assumption.
Defined.

(** X10.  When the session id of a Stop event is a string (or absent) and
    the reader has returned strings, the card is always built; the run then
    ends with the success object and code 0 or with the webhook failure and
    code 1, never in the handler of [main]. *)
Theorem typed_stop_builds_card (w : world) (fields : dict) (sid msg cwd : pystr) :
  dict_get (u "session_id") fields (JStr (u "Unknown Session")) = JStr sid ->
  stop_extract w (JObj fields) = Ok (JStr msg, JStr cwd) ->
  (exists p, format_stop_message w (JObj fields) = Ok p) /\
  (stdin w = StdinJson (JObj fields) ->
   resolve_event_type (JObj fields) = Ok (JStr (u "Stop")) ->
   (stdout w = [success_result] /\ exit_code w = 0%Z) \/
   (stdout w = [failure_result feishu_failed] /\ exit_code w = 1%Z)).
Proof.
  intros Hsid He.
  assert (Hf : exists p, format_stop_message w (JObj fields) = Ok p).
  { pose proof He as He'. unfold stop_extract, get in He'. cbn [rbind] in He'.
    unfold format_stop_message, get. cbn [rbind]. rewrite He'. cbn [rbind].
    rewrite Hsid.
    assert (Hb : exists b, is_error_of (JStr msg) = Ok b).
    { unfold is_error_of. destruct (truthy (JStr msg)); eexists; reflexivity. }
    destruct Hb as [b ->]. cbn [rbind].
    assert (Hc : exists content,
               compose (JStr sid) (dict_get (u "stop_hook_active") fields (JBool false))
                 (dict_get (u "transcript_path") fields empty) (JStr msg) (JStr cwd)
               = Ok content).
    { unfold compose.
      assert (Hp : exists part,
                 message_part (JStr sid) (dict_get (u "transcript_path") fields empty)
                   (JStr msg) = Ok part).
      { unfold message_part. destruct (truthy (JStr msg)).
        - destruct (_ <? _)%nat; eexists; reflexivity.
        - cbn [slice_to rbind]. eexists; reflexivity. }
      destruct Hp as [part ->]. cbn [rbind].
      assert (Hl : exists label, label_of (JStr cwd) = Ok label).
      { unfold label_of. destruct (truthy (JStr cwd)); [|eexists; reflexivity].
        destruct (truthy (JStr (basename (rstrip_slash cwd)))); eexists; reflexivity. }
      destruct Hl as [label ->]. cbn [rbind]. eexists; reflexivity. }
    destruct Hc as [content ->]. cbn [rbind].
    destruct b; eexists; reflexivity. }
  split; [exact Hf|]. intros Hs Hr. destruct Hf as [p Hf].
  destruct (push_stop_ok _ _ Hf) as (message & gets & Hp & Hg & _).
  destruct (send_to_feishu_total w p) as (delivered & posts & Hd & Hposts).
  pose proof (main_stop _ Hs Hr Hf Hp Hd) as Hm.
  destruct (@MainSpec.stop_run_observables _ _ _ _ _ _ p _ Hm
              (@one_get_push_gets _ _ _ _ Hg) Hposts) as (O1 & O2 & _).
  destruct delivered; [left | right]; split; assumption.
Qed.

Lemma typed_stop_builds_card_witness :
  exists p, format_stop_message (world_of stop_event log_project) stop_event = Ok p.
Proof.
  apply (proj1 (@typed_stop_builds_card (world_of stop_event log_project) stop_fields
                  (u "abcdefgh-1234") (u "done") (u "/home/u/proj") eq_refl eq_refl)).
Defined.

Lemma send_ios_off w title message :
  push_off w = true ->
  send_ios_push_notification w title message = (Ok tt, [PushCall title message]).
Proof.
  unfold push_off, send_ios_push_notification. intros H. rewrite bind_emit, H.
  reflexivity.
Qed.

Lemma push_stop_off w data :
  push_off w = true -> filter is_push_get (snd (push_stop w data)) = [].
Proof.
  intros H. unfold push_stop.
  destruct (get data "transcript_path" empty) as [tp|e]; [|reflexivity].
  rewrite bind_lift_ok.
  destruct (truthy tp); [|now rewrite send_ios_off].
  destruct (extract_last_message_from_jsonl w tp) as [[lm c]|e]; [|reflexivity].
  rewrite bind_lift_ok.
  destruct (truthy lm); [|now rewrite send_ios_off].
  destruct (slice_to 100 lm) as [head|e]; [|reflexivity].
  rewrite bind_lift_ok. now rewrite send_ios_off.
Qed.

Lemma no_get_when_off w :
  push_off w = true -> filter is_push_get (trace w) = [].
Proof.
  intros H.
  destruct (main_cases w) as [(code & obj & Hm)|
    (fields & p & m & gets & d & posts & Hs & Hr & Hf & Hp & Hg & _ & Hd & Hposts & Hm)];
    unfold trace; rewrite Hm; [reflexivity|].
  pose proof (push_stop_off w (JObj fields) H) as Hoff. rewrite Hp in Hoff.
  cbn [snd filter is_push_get] in Hoff.
  cbn [snd]. rewrite !filter_app. cbn [filter is_push_get]. rewrite Hoff.
  destruct Hposts as [->|[url ->]]; reflexivity.
Qed.

(** X11.  When the push channel is disabled or has no address, no run of
    [main] issues a GET. *)
Theorem push_off_is_silent (w : world) :
  push_off w = true -> filter is_push_get (trace w) = [].
Proof. exact (no_get_when_off w). Qed.

Lemma push_off_is_silent_witness :
  filter is_push_get
    (trace (with_push (world_of stop_event log_api_error) (JBool false) (s "key")
              (u "12:00:00") (PushRaises (u "Connection refused"))))
  = [].
Proof. apply push_off_is_silent. reflexivity. Defined.

(** X12.  [send_to_feishu] never raises, and it returns [True] exactly when
    the webhook address is a non-empty string, the POST came back, and the
    status is not in 400..599; it then has made one POST, with the card it
    was given. *)
Theorem feishu_delivers_iff (w : world) (message : pyval) :
  exists delivered posts,
    send_to_feishu w message = (Ok delivered, posts) /\
    (delivered = true <->
     exists url status,
       WEBHOOK_URL w = JStr url /\ url <> [] /\
       hook_net w = HookReplies status /\
       ((400 <=? status) && (status <? 600))%Z = false) /\
    (delivered = true -> exists url, posts = [HookPost url message]).
Proof.
  unfold send_to_feishu.
  destruct (WEBHOOK_URL w) as [| b | n | url | l | d] eqn:Hu.
  - exists false, []. split; [reflexivity|]. split; [|discriminate].
    split; [discriminate|]. intros (url & st & E & _). discriminate.
  - exists false, []. split; [destruct b; reflexivity|]. split; [|discriminate].
    split; [discriminate|]. intros (url & st & E & _). discriminate.
  - exists false, []. split; [destruct (negb (truthy (JNum n))); reflexivity|].
    split; [|discriminate].
    split; [discriminate|]. intros (url & st & E & _). discriminate.
  - destruct url as [|c url].
    { exists false, []. split; [reflexivity|]. split; [|discriminate].
      split; [discriminate|]. intros (url & st & E & Hne & _).
      injection E as <-. now elim Hne. }
    cbn [truthy negb]. rewrite bind_emit.
    destruct (hook_net w) as [why | status] eqn:Hn.
    { exists false, [HookPost (c :: url) message]. split; [reflexivity|].
      split; [|discriminate].
      split; [discriminate|]. intros (url' & st & _ & _ & E & _). discriminate. }
    destruct ((400 <=? status) && (status <? 600))%Z eqn:Est.
    + exists false, [HookPost (c :: url) message]. split; [reflexivity|].
      split; [|discriminate].
      split; [discriminate|]. intros (url' & st & _ & _ & E & Est').
      injection E as <-. rewrite Est in Est'. discriminate.
    + exists true, [HookPost (c :: url) message]. split; [reflexivity|]. split.
      * split; [|reflexivity]. intros _. exists (c :: url), status.
        repeat split; [discriminate | exact Est].
      * intros _. now eexists.
  - exists false, []. split; [destruct l; reflexivity|]. split; [|discriminate].
    split; [discriminate|]. intros (url & st & E & _). discriminate.
  - exists false, []. split; [destruct d; reflexivity|]. split; [|discriminate].
    split; [discriminate|]. intros (url & st & E & _). discriminate.
Qed.

Lemma in_strip x t : In x (strip t) -> In x t.
Proof.
  intros H. destruct (strip_part t) as (pre & post & E). rewrite E.
  apply in_or_app. right. apply in_or_app. now left.
Qed.

Lemma filter_all {A} (f : A -> bool) l : forallb f l = true -> filter f l = l.
Proof.
  induction l as [|x l IH]; [reflexivity|].
  simpl. intros H. apply andb_true_iff in H as [Hx H]. now rewrite Hx, IH.
Qed.

Lemma count_occ_absent l x :
  forallb (fun c => negb (existsb (N.eqb c) title_emoji)) l = true ->
  existsb (N.eqb x) title_emoji = true ->
  count_occ N.eq_dec l x = 0%nat.
Proof.
  intros Hl Hx. apply count_occ_not_In. intros Hin.
  rewrite forallb_forall in Hl. specialize (Hl x Hin).
  rewrite Hx in Hl. discriminate.
Qed.

(** X13.  The title given to Bark is cleaned of the signs listed in the
    script and of blanks at its ends; cleaning a clean title changes
    nothing, and the robot sign put in front is the only one in the
    formatted title. *)
Theorem clean_title_has_no_sign (title : pystr) :
  forallb (fun c => negb (existsb (N.eqb c) title_emoji)) (clean title) = true /\
  starts_blank (clean title) = false /\ ends_blank (clean title) = false /\
  clean (clean title) = clean title /\
  count_occ N.eq_dec (u "🤖 " ++ clean title) robot = 1%nat.
Proof.
  assert (H : forallb (fun c => negb (existsb (N.eqb c) title_emoji)) (clean title) = true).
  { apply forallb_forall. intros x Hx. unfold clean in Hx. apply in_strip in Hx.
    apply filter_In in Hx. exact (proj2 Hx). }
  split; [exact H|]. split; [apply strip_starts|]. split; [apply strip_ends|]. split.
  - unfold clean at 1. rewrite (filter_all _ _ H). unfold clean. apply strip_idempotent.
  - rewrite count_occ_app, (count_occ_absent _ robot H); reflexivity.
Qed.

End DeliveryMore.

(** ** The configuration *)

Module ConfigMore.
Import Py Reader Card Eff Notifier Log Hook Obs Config.
Import ReaderFacts CardFacts MainFacts StrFacts Samples.

Lemma eqb_refl a : Str.eqb a a = true.
Proof. induction a as [|x a IH]; [reflexivity|]. simpl. now rewrite N.eqb_refl. Qed.

Lemma eqb_trans_false a b c : Str.eqb a b = true -> Str.eqb b c = false -> Str.eqb a c = false.
Proof. intros H. apply eqb_eq in H. now subst. Qed.

Lemma lookup_dict_set_same k v d : lookup k (dict_set k v d) = Some v.
Proof.
  induction d as [|[k' v'] d IH]; simpl.
  - now rewrite eqb_refl.
  - destruct (Str.eqb k' k) eqn:E; simpl.
    + now rewrite eqb_refl.
    + now rewrite E.
Qed.

Lemma lookup_dict_set_other q k v d :
  Str.eqb k q = false -> lookup q (dict_set k v d) = lookup q d.
Proof.
  intros Hq. induction d as [|[k' v'] d IH]; simpl.
  - now rewrite Hq.
  - destruct (Str.eqb k' k) eqn:E; simpl.
    + rewrite Hq. now rewrite (eqb_trans_false _ _ _ E Hq).
    + destruct (Str.eqb k' q); [reflexivity | exact IH].
Qed.

(** A key that is there stays there. *)
Lemma dict_set_keeps q k v d : has_key q d = true -> has_key q (dict_set k v d) = true.
Proof.
  unfold has_key. intros H. destruct (Str.eqb k q) eqn:E.
  - apply eqb_eq in E. subst. now rewrite lookup_dict_set_same.
  - now rewrite lookup_dict_set_other.
Qed.

Lemma update_pairs_keeps q elements config :
  has_key q config = true -> has_key q (fst (update_pairs config elements)) = true.
Proof.
  revert config. induction elements as [|x elements IH]; intros config H; [exact H|].
  simpl. destruct (pair_of x) as [[[| | | k | |] v]|]; try exact H; try (now apply IH).
  apply IH. now apply dict_set_keeps.
Qed.

Lemma fold_set_keeps q d config :
  has_key q config = true ->
  has_key q (fold_left (fun c kv => dict_set (fst kv) (snd kv) c) d config) = true.
Proof.
  revert config. induction d as [|kv d IH]; intros config H; [exact H|].
  simpl. apply IH. now apply dict_set_keeps.
Qed.

Lemma update_keeps q v config :
  has_key q config = true -> has_key q (fst (update config v)) = true.
Proof.
  intros H. destruct v; try exact H.
  - now apply update_pairs_keeps.
  - now apply update_pairs_keeps.
  - now apply fold_set_keeps.
Qed.

Lemma load_files_keeps q paths config :
  has_key q config = true -> has_key q (load_files config paths) = true.
Proof.
  revert config. induction paths as [|f paths IH]; intros config H; [exact H|].
  simpl. pose proof (update_keeps q) as Hu.
  destruct f as [| why | v]; simpl; try (now apply IH).
  specialize (Hu v config H). destruct (update config v) as [config' loaded].
  destruct loaded; [exact Hu | now apply IH].
Qed.

Lemma load_config_keeps q e :
  has_key q defaults = true -> has_key q (load_config e) = true.
Proof.
  intros H. unfold load_config.
  pose proof (load_files_keeps q [user_config e; script_config e] defaults H) as H0.
  set (c0 := load_files defaults [user_config e; script_config e]) in *.
  assert (H1 : has_key q (match set_env (env_webhook e) with
                          | Some x => dict_set key_webhook (JStr x) c0
                          | None => c0 end) = true).
  { destruct (set_env (env_webhook e)); [now apply dict_set_keeps | exact H0]. }
  set (c1 := match set_env (env_webhook e) with Some x => _ | None => c0 end) in *.
  assert (H2 : has_key q (match set_env (env_ios_url e) with
                          | Some x => dict_set key_ios_url (JStr x) c1
                          | None => c1 end) = true).
  { destruct (set_env (env_ios_url e)); [now apply dict_set_keeps | exact H1]. }
  set (c2 := match set_env (env_ios_url e) with Some x => _ | None => c1 end) in *.
  destruct (set_env (env_ios_enabled e)); [now apply dict_set_keeps | exact H2].
Qed.

Lemma subscript_ok config k :
  has_key k config = true -> exists v, subscript config k = Ok v /\ lookup k config = Some v.
Proof.
  unfold has_key, subscript. destruct (lookup k config) as [v|]; [|discriminate].
  intros _. now exists v.
Qed.

(** What [configure] returns, in terms of the loaded dict. *)
Lemma configure_ok e w :
  exists webhook ios enabled,
    lookup key_webhook (load_config e) = Some webhook /\
    lookup key_ios_url (load_config e) = Some ios /\
    lookup key_ios_enabled (load_config e) = Some enabled /\
    configure e w =
    Ok {| stdin := stdin w; files := files w;
          WEBHOOK_URL := webhook; IOS_PUSH_URL := ios; IOS_PUSH_ENABLED := enabled;
          clock := clock w; push_net := push_net w; hook_net := hook_net w |}.
Proof.
  destruct (subscript_ok _ _ (load_config_keeps key_webhook e eq_refl)) as (a & Ha & La).
  destruct (subscript_ok _ _ (load_config_keeps key_ios_url e eq_refl)) as (b & Hb & Lb).
  destruct (subscript_ok _ _ (load_config_keeps key_ios_enabled e eq_refl)) as (c & Hc & Lc).
  exists a, b, c. repeat split; try assumption.
  unfold configure. rewrite Ha. cbn [rbind]. rewrite Hb. cbn [rbind]. rewrite Hc.
  reflexivity.
Qed.

(** X14.  The three settings are always defined: whatever the two
    configuration files hold, be it JSON of any kind or no JSON, and
    whatever the environment, reading [CONFIG[...]] at the load of the
    module does not raise. *)
Theorem settings_are_always_defined (e : environment) (w : world) :
  exists w',
    configure e w = Ok w' /\
    stdin w' = stdin w /\ files w' = files w /\
    lookup key_webhook (load_config e) = Some (WEBHOOK_URL w') /\
    lookup key_ios_url (load_config e) = Some (IOS_PUSH_URL w') /\
    lookup key_ios_enabled (load_config e) = Some (IOS_PUSH_ENABLED w').
Proof.
  destruct (configure_ok e w) as (a & b & c & La & Lb & Lc & H).
  eexists. split; [exact H|]. repeat split; assumption.
Qed.

Lemma set_env_some o x : o = Some x -> x <> [] -> set_env o = Some x.
Proof. intros -> H. destruct x; [now elim H | reflexivity]. Qed.

(** The value of a key after the overrides of the environment. *)
Lemma load_config_webhook e x :
  set_env (env_webhook e) = Some x -> lookup key_webhook (load_config e) = Some (JStr x).
Proof.
  intros H. unfold load_config. rewrite H.
  destruct (set_env (env_ios_enabled e));
    [rewrite lookup_dict_set_other by reflexivity|];
    (destruct (set_env (env_ios_url e));
     [rewrite lookup_dict_set_other by reflexivity|]);
    apply lookup_dict_set_same.
Qed.

Lemma load_config_ios_url e x :
  set_env (env_ios_url e) = Some x -> lookup key_ios_url (load_config e) = Some (JStr x).
Proof.
  intros H. unfold load_config. rewrite H.
  destruct (set_env (env_ios_enabled e));
    [rewrite lookup_dict_set_other by reflexivity|];
    apply lookup_dict_set_same.
Qed.

Lemma load_config_ios_enabled e x :
  set_env (env_ios_enabled e) = Some x ->
  lookup key_ios_enabled (load_config e) = Some (JBool (Str.eqb (lower x) (u "true"))).
Proof. intros H. unfold load_config. rewrite H. apply lookup_dict_set_same. Qed.

Lemma configure_env e w w' :
  configure e w = Ok w' ->
  (forall url, env_webhook e = Some url -> url <> [] -> WEBHOOK_URL w' = JStr url) /\
  (forall url, env_ios_url e = Some url -> url <> [] -> IOS_PUSH_URL w' = JStr url) /\
  (forall v, env_ios_enabled e = Some v -> v <> [] ->
             IOS_PUSH_ENABLED w' = JBool (Str.eqb (lower v) (u "true"))).
Proof.
  intros Hc. destruct (configure_ok e w) as (a & b & c & La & Lb & Lc & H).
  rewrite H in Hc. injection Hc as <-. cbn [WEBHOOK_URL IOS_PUSH_URL IOS_PUSH_ENABLED].
  split; [|split].
  - intros url Hu Hne. rewrite (load_config_webhook e (set_env_some Hu Hne)) in La.
    now injection La.
  - intros url Hu Hne. rewrite (load_config_ios_url e (set_env_some Hu Hne)) in Lb.
    now injection Lb.
  - intros v Hv Hne. rewrite (load_config_ios_enabled e (set_env_some Hv Hne)) in Lc.
    now injection Lc.
Qed.

(** X15.  A variable of the environment that is set and not empty wins over
    both files: the webhook address and the Bark address are the strings of
    [FEISHU_WEBHOOK_URL] and [IOS_PUSH_URL], and the push switch is the
    boolean that tells whether [IOS_PUSH_ENABLED], lowered, is ["true"]. *)
Theorem environment_overrides_files (e : environment) (w w' : world) :
  configure e w = Ok w' ->
  (forall url, env_webhook e = Some url -> url <> [] -> WEBHOOK_URL w' = JStr url) /\
  (forall url, env_ios_url e = Some url -> url <> [] -> IOS_PUSH_URL w' = JStr url) /\
  (forall v, env_ios_enabled e = Some v -> v <> [] ->
             IOS_PUSH_ENABLED w' = JBool (Str.eqb (lower v) (u "true"))).
Proof. exact (@configure_env e w w'). Qed.

Lemma environment_overrides_files_witness :
  exists w',
    configure sample_environment (world_of stop_event Missing) = Ok w' /\
    WEBHOOK_URL w' = s "https://open.feishu.cn/hook/env".
Proof.
  destruct (configure_ok sample_environment (world_of stop_event Missing))
    as (a & b & c & _ & _ & _ & H).
  eexists. split; [exact H|].
  apply (proj1 (@environment_overrides_files sample_environment _ _ H)
           (u "https://open.feishu.cn/hook/env") eq_refl).
  discriminate.
Defined.

(** X16.  When [IOS_PUSH_ENABLED] is set to anything but ["true"] in some
    casing (["1"], ["yes"], ["on"]), the push channel is off whatever the
    files say, and no run of [main] issues a GET. *)
Theorem other_words_disable_push (e : environment) (w w' : world) (v : pystr) :
  configure e w = Ok w' ->
  env_ios_enabled e = Some v -> v <> [] ->
  Str.eqb (lower v) (u "true") = false ->
  IOS_PUSH_ENABLED w' = JBool false /\ filter is_push_get (trace w') = [].
Proof.
  intros Hc Hv Hne Hf.
  destruct (configure_env e w Hc) as (_ & _ & H).
  specialize (H v Hv Hne). rewrite Hf in H. split; [exact H|].
  apply DeliveryMore.no_get_when_off. unfold push_off. now rewrite H.
Qed.

Lemma other_words_disable_push_witness :
  exists w',
    configure sample_environment (world_of stop_event Missing) = Ok w' /\
    IOS_PUSH_ENABLED w' = JBool false.
Proof.
  destruct (configure_ok sample_environment (world_of stop_event Missing))
    as (a & b & c & _ & _ & _ & H).
  eexists. split; [exact H|].
  apply (proj1 (@other_words_disable_push sample_environment _ _ (u "1") H eq_refl
                  ltac:(discriminate) eq_refl)).
Defined.

Lemma load_files_unusable_head f paths config :
  unusable f = true -> load_files config (f :: paths) = load_files config paths.
Proof. destruct f; try discriminate; reflexivity. Qed.

(** X17.  The file of the user comes first: when it holds a JSON object the
    file beside the script is not taken into account at all, and when it is
    missing, unreadable or no JSON the file beside the script takes its
    place. *)
Theorem first_usable_file_wins (e : environment) :
  (forall d f, user_config e = ConfigJson (JObj d) ->
               load_config (with_script f e) = load_config e) /\
  (unusable (user_config e) = true ->
   load_config e
   = load_config {| user_config := script_config e; script_config := NoConfig;
                    env_webhook := env_webhook e; env_ios_url := env_ios_url e;
                    env_ios_enabled := env_ios_enabled e |}).
Proof.
  split.
  - intros d f H. unfold load_config, with_script. cbn [user_config script_config
      env_webhook env_ios_url env_ios_enabled]. rewrite H. reflexivity.
  - intros H. unfold load_config. cbn [user_config script_config
      env_webhook env_ios_url env_ios_enabled].
    rewrite (load_files_unusable_head _ _ _ H).
    assert (E : load_files defaults [script_config e]
                = load_files defaults [script_config e; NoConfig]).
    { simpl. destruct (try_file defaults (script_config e)) as [c l].
      destruct l; reflexivity. }
    now rewrite E.
Qed.

Lemma first_usable_file_wins_witness :
  load_config (with_script (ConfigJson (Setup.make_config (u "https://other") [] false))
                 sample_environment)
  = load_config sample_environment.
Proof.
  apply (proj1 (first_usable_file_wins sample_environment)
           [ (key_webhook, s "https://open.feishu.cn/hook/file");
             (key_ios_url, s "key"); (key_ios_enabled, JBool true) ]).
  reflexivity.
Defined.

Lemma lookup_absent k d : ~ In k (map fst d) -> lookup k d = None.
Proof.
  induction d as [|[k' v] d IH]; [reflexivity|].
  simpl. intros H. destruct (Str.eqb k' k) eqn:E.
  - apply eqb_eq in E. elim H. now left.
  - apply IH. intros Hin. apply H. now right.
Qed.

Lemma lookup_fold_set q d config :
  NoDup (map fst d) ->
  lookup q (fold_left (fun c kv => dict_set (fst kv) (snd kv) c) d config)
  = match lookup q d with
    | Some v => Some v
    | None => lookup q config
    end.
Proof.
  revert config. induction d as [|[k v] d IH]; intros config Hnd; [reflexivity|].
  inversion Hnd as [|? ? Hk Hd]; subst.
  cbn [fold_left fst snd]. rewrite (IH _ Hd).
  cbn [lookup]. destruct (Str.eqb k q) eqn:E.
  - apply eqb_eq in E. subst q. rewrite (lookup_absent _ _ Hk).
    apply lookup_dict_set_same.
  - destruct (lookup q d); [reflexivity|]. now apply lookup_dict_set_other.
Qed.

Lemma load_config_no_env e :
  no_env e = true -> load_config e = load_files defaults [user_config e; script_config e].
Proof.
  unfold no_env, load_config.
  destruct (set_env (env_webhook e)); [discriminate|].
  destruct (set_env (env_ios_url e)); [discriminate|].
  destruct (set_env (env_ios_enabled e)); [discriminate|]. reflexivity.
Qed.

(** X18.  With no variable set, a file of the user that is a JSON object
    is read back key by key: a key of the file has the value of the file, of
    whatever type, and a key the file lacks keeps its default (empty
    addresses, push off). *)
Theorem file_values_are_read_back (e : environment) (d : dict) (k : pystr) :
  user_config e = ConfigJson (JObj d) ->
  NoDup (map fst d) ->
  no_env e = true ->
  lookup k (load_config e)
  = match lookup k d with
    | Some v => Some v
    | None => lookup k defaults
    end.
Proof.
  intros Hu Hnd He. rewrite (load_config_no_env _ He).
  cbn [load_files]. rewrite Hu. cbn [try_file update].
  now apply lookup_fold_set.
Qed.

Lemma file_values_are_read_back_witness :
  lookup key_ios_enabled
    (load_config {| user_config := ConfigJson (JObj [(key_webhook, s "https://x")]);
                    script_config := NoConfig; env_webhook := None;
                    env_ios_url := Some []; env_ios_enabled := None |})
  = Some (JBool false).
Proof.
  apply (@file_values_are_read_back
           {| user_config := ConfigJson (JObj [(key_webhook, s "https://x")]);
              script_config := NoConfig; env_webhook := None;
              env_ios_url := Some []; env_ios_enabled := None |}
           [(key_webhook, s "https://x")] key_ios_enabled eq_refl).
  - repeat constructor. intros [].
  - reflexivity.
Defined.

Lemma no_requests t :
  filter is_push_get t = [] -> filter is_hook_post t = [] -> filter is_request t = [].
Proof.
  induction t as [|x t IH]; [reflexivity|].
  destruct x; simpl; try discriminate; exact IH.
Qed.

(** X19.  With no usable file and no variable set the notifier runs on its
    defaults: it makes no request on either channel and never reports a
    delivery. *)
Theorem unconfigured_is_offline (e : environment) (w w' : world) :
  unusable (user_config e) = true ->
  unusable (script_config e) = true ->
  no_env e = true ->
  configure e w = Ok w' ->
  WEBHOOK_URL w' = JStr [] /\ IOS_PUSH_URL w' = JStr [] /\
  IOS_PUSH_ENABLED w' = JBool false /\
  filter is_request (trace w') = [] /\ stdout w' <> [success_result].
Proof.
  intros Hu Hs He Hc.
  assert (Hd : load_config e = defaults).
  { rewrite (load_config_no_env _ He).
    now rewrite (load_files_unusable_head _ _ _ Hu), (load_files_unusable_head _ _ _ Hs). }
  destruct (configure_ok e w) as (a & b & c & La & Lb & Lc & H).
  rewrite Hd in La, Lb, Lc. rewrite H in Hc.
  injection La as <-. injection Lb as <-. injection Lc as <-. injection Hc as <-.
  cbn [WEBHOOK_URL IOS_PUSH_URL IOS_PUSH_ENABLED].
  repeat (split; [reflexivity|]).
  match goal with |- filter is_request (trace ?x) = [] /\ _ => set (w0 := x) end.
  destruct (@DeliveryMore.no_post_without_webhook w0 eq_refl) as (P & S & _).
  split; [|exact S].
  apply no_requests; [now apply DeliveryMore.no_get_when_off | exact P].
Qed.

Lemma unconfigured_is_offline_witness :
  exists w',
    configure {| user_config := NoConfig; script_config := BrokenConfig (u "Expecting value");
                 env_webhook := None; env_ios_url := None; env_ios_enabled := Some [] |}
      (world_of Setup.test_data Missing) = Ok w' /\
    filter is_request (trace w') = [].
Proof.
  set (e := {| user_config := NoConfig; script_config := BrokenConfig (u "Expecting value");
               env_webhook := None; env_ios_url := None; env_ios_enabled := Some [] |}).
  destruct (configure_ok e (world_of Setup.test_data Missing))
    as (a & b & c & _ & _ & _ & H).
  eexists. split; [exact H|].
  apply (@unconfigured_is_offline e _ _ eq_refl eq_refl eq_refl H).
Defined.

End ConfigMore.

(** ** The card of a Notification event *)

Module NoticeMore.
Import Str Py Reader Card Notice Obs Samples.
Import StrFacts.
Local Open Scope res_scope.

(** The loop appends one line per shown entry, in the order of the dict. *)
Lemma notification_lines_acc entries content :
  notification_lines entries content
  = content ++ flat_map entry_line (filter shown entries).
Proof.
  revert content. induction entries as [|e rest IH]; intros content.
  - cbn [notification_lines filter flat_map]. now rewrite app_nil_r.
  - cbn [notification_lines filter]. rewrite IH. destruct (shown e).
    + cbn [flat_map]. now rewrite <- app_assoc.
    + reflexivity.
Qed.

Lemma entry_line_head e : exists t, entry_line e = 42%N :: t.
Proof.
  unfold entry_line.
  assert (H : exists t, u "**" = 42%N :: t) by (eexists; vm_compute; reflexivity).
  destruct H as [t ->].
  exists (t ++ title (fst e) ++ u ":** " ++ str (snd e) ++ nl).
  now rewrite <- app_comm_cons.
Qed.

Lemma shown_lines_head entries :
  filter shown entries <> [] ->
  exists t, flat_map entry_line (filter shown entries) = 42%N :: t.
Proof.
  destruct (filter shown entries) as [|e r]; [congruence|]. intros _.
  cbn [flat_map]. destruct (entry_line_head e) as [t ->].
  exists (t ++ flat_map entry_line r). now rewrite <- app_comm_cons.
Qed.

Lemma notice_content_head m n :
  notice_content m n = [] \/ exists t, notice_content m n = 42%N :: t.
Proof.
  unfold notice_content. destruct (truthy m).
  - right.
    assert (H : exists t, u "**内容:** " = 42%N :: t) by (eexists; vm_compute; reflexivity).
    destruct H as [t ->]. exists (t ++ str m ++ nl). now rewrite <- app_comm_cons.
  - destruct (truthy n); [|now left].
    destruct n as [| | | | |entries]; try now left.
    rewrite notification_lines_acc, app_nil_l.
    destruct (filter shown entries) as [|e r] eqn:E; [now left|].
    right. rewrite <- E. apply shown_lines_head. congruence.
Qed.

Lemma lstrip_by_snoc f l c :
  f c = false -> exists l', lstrip_by f (l ++ [c]) = l' ++ [c].
Proof.
  intros H. induction l as [|a l IH].
  - exists []. cbn. now rewrite H.
  - cbn [app lstrip_by]. destruct (f a); [exact IH|]. now exists (a :: l).
Qed.

Lemma strip_head c t : isspace c = false -> exists t', strip (c :: t) = c :: t'.
Proof.
  intros H. unfold strip. rewrite lstrip_by_head by exact H.
  unfold rstrip_by. cbn [rev].
  destruct (lstrip_by_snoc isspace (rev t) c H) as [l' ->].
  rewrite rev_app_distr. cbn [rev app]. now exists (rev l').
Qed.

Lemma notice_card_shape c t :
  isspace c = false ->
  title_of (notice_card (strip (c :: t))) = Some (JStr notice_title) /\
  template_of (notice_card (strip (c :: t))) = None /\
  exists body, body_of (notice_card (strip (c :: t))) = Some (JStr body) /\
               body <> [] /\ strip body = body.
Proof.
  intros H. destruct (strip_head c t H) as [t' E].
  pose proof (strip_idempotent (c :: t)) as I.
  revert E I. generalize (strip (c :: t)). intros b E I.
  split; [vm_compute; reflexivity|]. split; [vm_compute; reflexivity|].
  exists b. split; [vm_compute; reflexivity|]. split; [|exact I].
  rewrite E. discriminate.
Qed.

Lemma session_line_head x : exists t, u "Session: " ++ x ++ u "..." = 83%N :: t ++ [46%N].
Proof.
  assert (H : exists t, u "Session: " = 83%N :: t) by (eexists; vm_compute; reflexivity).
  assert (K : exists t, u "..." = t ++ [46%N])
    by (exists [46%N; 46%N]; vm_compute; reflexivity).
  destruct H as [t ->]. destruct K as [t2 ->].
  exists (t ++ x ++ t2). rewrite <- app_comm_cons. now rewrite <- !app_assoc.
Qed.

(** X20.  Whatever the event, a card that [format_notification_message]
    returns has the fixed title, no colour template, and a body that is not
    empty and has no blank at either end. *)
Theorem notification_card_is_well_formed (data card : pyval) :
  format_notification_message data = Ok card ->
  title_of card = Some (JStr notice_title) /\
  template_of card = None /\
  exists body, body_of card = Some (JStr body) /\ body <> [] /\ strip body = body.
Proof.
  unfold format_notification_message.
  destruct data as [| | | | |fields]; try (intros H; discriminate H).
  cbn [get rbind].
  generalize (dict_get (u "session_id") fields (JStr (u "Unknown Session"))).
  generalize (dict_get (u "message") fields empty).
  generalize (dict_get (u "notification") fields (JObj [])).
  intros n m sid.
  destruct (notice_content_head m n) as [E | [t E]]; rewrite E.
  - cbn [truthy]. destruct sid as [| | | x | l |]; try (intros H; discriminate H).
    + cbn [slice_to rbind]. generalize (JStr (Str.take 8 x)). intros v.
      destruct (session_line_head (str v)) as [t ->].
      intros H. injection H as <-. now apply notice_card_shape.
    + cbn [slice_to rbind]. generalize (JArr (firstn 8 l)). intros v.
      destruct (session_line_head (str v)) as [t ->].
      intros H. injection H as <-. now apply notice_card_shape.
  - cbn [truthy rbind]. intros H. injection H as <-. now apply notice_card_shape.
Qed.

Lemma notification_card_is_well_formed_witness :
  title_of (notice_card (u "**内容:** build finished")) = Some (JStr notice_title).
Proof.
  apply (@notification_card_is_well_formed
           (obj [("session_id", JNull); ("message", s "build finished ")]%string)
           (notice_card (u "**内容:** build finished"))).
  vm_compute. reflexivity.
Defined.

(** X21.  Without a message, a notification object that has an entry to
    show gives one line per shown entry, in the order of the object: the
    entries under [session_id] and [timestamp] and the entries with a falsy
    value are left out, and the session id is not looked at. *)
Theorem notification_lists_shown_entries (fields entries : dict) :
  (forall m, lookup (u "message") fields = Some m -> truthy m = false) ->
  lookup (u "notification") fields = Some (JObj entries) ->
  filter shown entries <> [] ->
  format_notification_message (JObj fields)
  = Ok (notice_card (strip (flat_map entry_line (filter shown entries)))).
Proof.
  intros Hm Hn Hs. unfold format_notification_message. cbn [get rbind].
  assert (Em : truthy (dict_get (u "message") fields empty) = false).
  { unfold dict_get. destruct (lookup (u "message") fields) as [m|]; [now apply Hm | reflexivity]. }
  assert (En : dict_get (u "notification") fields (JObj []) = JObj entries).
  { unfold dict_get. now rewrite Hn. }
  rewrite En. unfold notice_content. rewrite Em.
  assert (Et : truthy (JObj entries) = true).
  { destruct entries; [now elim Hs | reflexivity]. }
  rewrite Et, notification_lines_acc, app_nil_l.
  destruct (shown_lines_head _ Hs) as [t ->]. reflexivity.
Qed.

Lemma notification_lists_shown_entries_witness :
  format_notification_message
    (obj [("session_id", JNum 7);
          ("notification",
            obj [("timestamp", JNum 1); ("kind", s "idle"); ("detail", s "")])]%string)
  = Ok (notice_card (u "**Kind:** idle")).
Proof.
  refine (eq_trans
    (@notification_lists_shown_entries
       (fields_of [("session_id", JNum 7);
          ("notification",
            obj [("timestamp", JNum 1); ("kind", s "idle"); ("detail", s "")])]%string)
       (fields_of [("timestamp", JNum 1); ("kind", s "idle"); ("detail", s "")]%string)
       _ _ _) _).
  - intros m H. vm_compute in H. discriminate H.
  - vm_compute. reflexivity.
  - vm_compute. discriminate.
  - vm_compute. reflexivity.
Defined.

(** X22.  A notification with nothing to show falls back on the session
    id: a text gives [Session: ] and its first eight characters, followed by
    three dots; [None], a bool or a number makes the function raise
    [TypeError], since the value is sliced as it comes. *)
Theorem bare_notification_needs_text_id (fields : dict) :
  (forall m, lookup (u "message") fields = Some m -> truthy m = false) ->
  (forall entries, lookup (u "notification") fields = Some (JObj entries) ->
                   filter shown entries = []) ->
  (forall sid, dict_get (u "session_id") fields (JStr (u "Unknown Session")) = JStr sid ->
     format_notification_message (JObj fields)
     = Ok (notice_card (u "Session: " ++ Str.take 8 sid ++ u "..."))) /\
  (forall v, lookup (u "session_id") fields = Some v -> atom v = true ->
     exists msg, format_notification_message (JObj fields) = Raise (Exception TypeError msg)).
Proof.
  intros Hm Hn.
  assert (Em : truthy (dict_get (u "message") fields empty) = false).
  { unfold dict_get. destruct (lookup (u "message") fields) as [m|]; [now apply Hm | reflexivity]. }
  assert (Ec : notice_content (dict_get (u "message") fields empty)
                 (dict_get (u "notification") fields (JObj [])) = []).
  { unfold notice_content. rewrite Em. unfold dict_get.
    destruct (lookup (u "notification") fields) as [n|] eqn:En; [|reflexivity].
    destruct (truthy n); [|reflexivity].
    destruct n as [| | | | |entries]; try reflexivity.
    rewrite notification_lines_acc, app_nil_l. now rewrite (Hn entries eq_refl). }
  split.
  - intros sid Hsid. unfold format_notification_message. cbn [get rbind].
    rewrite Ec, Hsid. cbn [truthy slice_to rbind str].
    generalize (Str.take 8 sid). intros x.
    destruct (session_line_head x) as [t E]. rewrite E.
    now rewrite strip_fixed.
  - intros v Hv Ha. unfold format_notification_message. cbn [get rbind].
    rewrite Ec. unfold dict_get at 1. rewrite Hv. cbn [truthy].
    destruct v; try discriminate Ha; eexists; reflexivity.
Qed.

Lemma bare_notification_needs_text_id_witness :
  exists msg,
    format_notification_message (obj [("session_id", JNum 7); ("message", s "")]%string)
    = Raise (Exception TypeError msg).
Proof.
  refine (proj2 (@bare_notification_needs_text_id
                   (fields_of [("session_id", JNum 7); ("message", s "")]%string) _ _)
            (JNum 7) _ eq_refl).
  - intros m H. vm_compute in H. injection H as <-. reflexivity.
  - intros entries H. vm_compute in H. discriminate H.
  - vm_compute. reflexivity.
Defined.

End NoticeMore.

(** ** The setup wizard *)

Module SetupMore.
Import Str Py Notifier Obs Config Setup Samples.
Import StrFacts.

Lemma blank_line_false line : strip line <> [] -> blank_line line = false.
Proof. unfold blank_line. destruct (strip line); [congruence | reflexivity]. Qed.

Lemma ask_required_some inputs answer rest :
  ask_required inputs = Some (answer, rest) ->
  exists skipped line,
    inputs = skipped ++ line :: rest /\ forallb blank_line skipped = true /\
    answer = strip line /\ answer <> [].
Proof.
  induction inputs as [|l inputs IH]; [discriminate|].
  cbn [ask_required]. destruct (strip l) as [|c t] eqn:E.
  - intros H. destruct (IH H) as (sk & line & -> & Hb & Ha & Hn).
    exists (l :: sk), line. repeat split; try assumption.
    cbn [forallb]. unfold blank_line at 1. now rewrite E.
  - intros H. injection H as <- <-.
    exists [], l. repeat split; [now symmetry | discriminate].
Qed.

Lemma get_input_some default inputs answer rest :
  get_input_with_default default inputs = Some (answer, rest) ->
  exists skipped line,
    inputs = skipped ++ line :: rest /\ forallb blank_line skipped = true /\
    (default <> [] -> skipped = []) /\
    answer = (if blank_line line then default else strip line) /\
    answer <> [].
Proof.
  destruct default as [|d0 d].
  - cbn [get_input_with_default]. intros H.
    destruct (ask_required_some _ H) as (sk & line & E & Hb & Ha & Hn).
    exists sk, line. repeat split; try assumption; [congruence|].
    rewrite blank_line_false; [exact Ha | now rewrite <- Ha].
  - cbn [get_input_with_default]. destruct inputs as [|l inputs]; [discriminate|].
    unfold blank_line. destruct (strip l) as [|c t] eqn:E; intros H; injection H as <- <-;
      exists [], l; rewrite E; repeat split; discriminate.
Qed.


(** X23.  [get_input_with_default] never returns an empty answer: with a
    default one line is read, and a blank line gives the default; without a
    default blank lines are read over until one is not blank, so that a
    question without default cannot be skipped. *)
Theorem answer_is_never_empty (default : pystr) (inputs : list pystr)
    (answer : pystr) (rest : list pystr) :
  get_input_with_default default inputs = Some (answer, rest) ->
  exists skipped line,
    inputs = skipped ++ line :: rest /\ forallb blank_line skipped = true /\
    (default <> [] -> skipped = []) /\
    answer = (if blank_line line then default else strip line) /\
    answer <> [].
Proof. exact (@get_input_some default inputs answer rest). Qed.

Lemma answer_is_never_empty_witness :
  exists skipped line,
    [u "  "; []; u " https://x "; u "k"] = skipped ++ line :: [u "k"] /\
    forallb blank_line skipped = true /\
    (@nil N <> [] -> skipped = []) /\
    u "https://x" = (if blank_line line then [] else strip line) /\
    u "https://x" <> [].
Proof.
  apply (@answer_is_never_empty [] [u "  "; []; u " https://x "; u "k"]
           (u "https://x") [u "k"]).
  vm_compute. reflexivity.
Defined.



Lemma make_config_keys url key enabled k :
  lookup k (load_files defaults [ConfigJson (make_config url key enabled)])
  = lookup k [ (key_webhook, JStr url); (key_ios_url, JStr key);
               (key_ios_enabled, JBool enabled) ].
Proof.
  unfold make_config. cbn [load_files try_file update].
  rewrite ConfigMore.lookup_fold_set.
  - destruct (lookup k _) eqn:E; [reflexivity|].
    cbn [lookup] in E.
    destruct (Str.eqb key_webhook k) eqn:E1; [discriminate|].
    destruct (Str.eqb key_ios_url k) eqn:E2; [discriminate|].
    destruct (Str.eqb key_ios_enabled k) eqn:E3; [discriminate|].
    unfold defaults. cbn [lookup]. now rewrite E1, E2, E3.
  - cbn [map fst]. repeat constructor.
    + intros [H|[H|[]]]; vm_compute in H; discriminate H.
    + intros [H|[]]; vm_compute in H; discriminate H.
    + intros [].
Qed.

Lemma required_answer inputs answer rest :
  get_input_with_default [] inputs = Some (answer, rest) ->
  exists skipped line,
    inputs = skipped ++ line :: rest /\ forallb blank_line skipped = true /\
    blank_line line = false /\ answer = strip line /\ strip line <> [].
Proof.
  intros H. destruct (get_input_some _ _ H) as (sk & line & E & Hb & _ & Ha & Hn).
  exists sk, line. destruct (blank_line line); [congruence|].
  repeat split; try assumption. now rewrite <- Ha.
Qed.

Lemma yes_default_not_empty : u "y" <> [].
Proof. vm_compute. discriminate. Qed.

Lemma default_answer default inputs answer rest :
  default <> [] ->
  get_input_with_default default inputs = Some (answer, rest) ->
  exists line,
    inputs = line :: rest /\ answer = (if blank_line line then default else strip line).
Proof.
  intros Hd H. destruct (get_input_some _ _ H) as (sk & line & E & _ & Hs & Ha & _).
  rewrite (Hs Hd) in E. now exists line.
Qed.

(** The three answers of the wizard, read off the lines typed in. *)
Lemma ask_config_lines inputs cfg rest :
  ask_config inputs = Some (cfg, rest) ->
  exists skipped1 line1 skipped2 line2 line3,
    inputs = skipped1 ++ line1 :: skipped2 ++ line2 :: line3 :: rest /\
    forallb blank_line skipped1 = true /\ blank_line line1 = false /\
    forallb blank_line skipped2 = true /\ blank_line line2 = false /\
    strip line1 <> [] /\ strip line2 <> [] /\
    cfg = make_config (strip line1) (strip line2)
            (said_yes (if blank_line line3 then u "y" else strip line3)).
Proof.
  unfold ask_config.
  destruct (get_input_with_default [] inputs) as [[url in1]|] eqn:E1; [|discriminate].
  destruct (get_input_with_default [] in1) as [[key in2]|] eqn:E2; [|discriminate].
  destruct (required_answer _ E1) as (s1 & l1 & -> & B1 & F1 & -> & N1).
  destruct (required_answer _ E2) as (s2 & l2 & -> & B2 & F2 & -> & N2).
  assert (T : truthy (JStr (strip l2)) = true)
    by (destruct (strip l2); [congruence | reflexivity]).
  rewrite T.
  destruct (get_input_with_default (u "y") in2) as [[enable in3]|] eqn:E3; [|discriminate].
  destruct (default_answer _ yes_default_not_empty E3) as (l3 & -> & ->).
  intros H. injection H as <- <-.
  exists s1, l1, s2, l2, l3. repeat split; assumption.
Qed.

(** X25.  What the wizard has asked is what the notifier runs on.  The
    webhook is the first line typed in that is not blank, the Bark address is
    the next line that is not blank, both with their ends stripped, and the
    line after that decides the push: a blank line counts as [y].  When the
    file of the user holds the object the wizard made of these and no
    variable is set, the notifier starts with exactly that webhook and that
    Bark address, both non-empty, and with the push enabled exactly when the
    third answer, lowered, is [y], [yes] or [是]. *)
Theorem wizard_config_is_read_back (inputs rest : list pystr) (cfg : pyval)
    (e : environment) (w : world) :
  ask_config inputs = Some (cfg, rest) ->
  user_config e = ConfigJson cfg ->
  no_env e = true ->
  exists skipped1 line1 skipped2 line2 line3 w',
    inputs = skipped1 ++ line1 :: skipped2 ++ line2 :: line3 :: rest /\
    forallb blank_line skipped1 = true /\ blank_line line1 = false /\
    forallb blank_line skipped2 = true /\ blank_line line2 = false /\
    cfg = make_config (strip line1) (strip line2)
            (said_yes (if blank_line line3 then u "y" else strip line3)) /\
    configure e w = Ok w' /\
    WEBHOOK_URL w' = JStr (strip line1) /\ strip line1 <> [] /\
    IOS_PUSH_URL w' = JStr (strip line2) /\ strip line2 <> [] /\
    IOS_PUSH_ENABLED w'
    = JBool (said_yes (if blank_line line3 then u "y" else strip line3)) /\
    push_off w' = negb (said_yes (if blank_line line3 then u "y" else strip line3)).
Proof.
  intros Ha Hu He.
  destruct (ask_config_lines _ Ha)
    as (s1 & l1 & s2 & l2 & l3 & Hi & B1 & F1 & B2 & F2 & N1 & N2 & Hc).
  exists s1, l1, s2, l2, l3.
  remember (said_yes (if blank_line l3 then u "y" else strip l3)) as enabled eqn:Ee.
  remember (strip l1) as url eqn:Eu. remember (strip l2) as key eqn:Ek.
  clear Ee Eu Ek. subst cfg.
  destruct (ConfigMore.configure_ok e w) as (a & b & c & La & Lb & Lc & H).
  assert (L : forall k, lookup k (load_config e)
                        = lookup k [ (key_webhook, JStr url); (key_ios_url, JStr key);
                                     (key_ios_enabled, JBool enabled) ]).
  { intros k. rewrite (ConfigMore.load_config_no_env _ He), <- make_config_keys.
    rewrite Hu. unfold make_config. cbn [load_files try_file update]. reflexivity. }
  rewrite L in La, Lb, Lc.
  vm_compute in La. vm_compute in Lb.
  assert (Lc' : Some (JBool enabled) = Some c) by exact Lc.
  injection La as <-. injection Lb as <-. injection Lc' as <-.
  eexists.
  repeat (split; [first [exact H | reflexivity | assumption]|]).
  unfold push_off. cbn [IOS_PUSH_ENABLED IOS_PUSH_URL truthy].
  destruct key; [congruence|]. now rewrite orb_false_r.
Qed.

Lemma wizard_config_is_read_back_witness :
  exists w',
    configure {| user_config := ConfigJson (make_config (u "https://x") (u "k") true);
                 script_config := NoConfig; env_webhook := None; env_ios_url := None;
                 env_ios_enabled := None |} (world_of test_data Missing) = Ok w' /\
    WEBHOOK_URL w' = s "https://x" /\ IOS_PUSH_URL w' = s "k" /\
    IOS_PUSH_ENABLED w' = JBool true.
Proof.
  destruct (@wizard_config_is_read_back [[]; u " https://x"; u "k "; []] []
              (make_config (u "https://x") (u "k") true)
              {| user_config := ConfigJson (make_config (u "https://x") (u "k") true);
                 script_config := NoConfig; env_webhook := None; env_ios_url := None;
                 env_ios_enabled := None |}
              (world_of test_data Missing))
    as (s1 & l1 & s2 & l2 & l3 & w' & _ & _ & _ & _ & _ & Hc & Hw & H1 & _ & H2 & _ & H3 & _).
  - vm_compute. reflexivity.
  - reflexivity.
  - reflexivity.
  - exists w'. split; [exact Hw|].
    unfold make_config in Hc. injection Hc as E1 E2 E3.
    rewrite H1, H2, H3, <- E1, <- E2, <- E3. repeat split.
Defined.

End SetupMore.
